(** * KPI manager: the core of [app.py], embedded and verified

    The Flask application in [src/app.py] keeps KPI results per employee and
    month, classifies numeric results against three threshold ranges, closes
    periods, imports employees from an external table and serves the
    organisation chart as a forest.  This development embeds the handlers
    that carry that logic and proves the properties the written
    specification states about them.

    Conventions of the embedding:
    - Python [int] is [Z]; SQL [NULL] / Python [None] is [option]'s [None];
    - numeric column values (the values MySQL hands back) are rationals
      [Q], compared with [Qle_bool]; what [float] returns is a finite
      rational or a float that is not finite ([inf], [nan]), which the
      driver refuses to write;
    - strings are [string], read as sequences of code points below 256;
    - a table is the list of its rows in storage order;
    - a Python [dict] used as a map is a [gmap], a [set] is a [gset];
    - primary keys and foreign keys that reach a handler as form strings are
      taken after the store's cast to integers; the two ids of the JSON
      payload of [organigrama_move], which the handler tests for truth
      before the store sees them, are kept as raw values. *)

From stdpp Require Import base gmap sets list strings.
From Stdlib Require Import Ascii QArith ZArith Lia DecimalString.

#[local] Open Scope Z_scope.

(* ====================================================================== *)
(** * Python values and string helpers *)
(* ====================================================================== *)

Module Py.

(** A value whose Python type the column declaration would fix: the schema
    file is not part of the sources, so both an integer and a text column
    are covered. *)
Inductive cell : Type :=
| CNull
| CInt (z : Z)
| CStr (s : string).

#[global] Instance cell_eq_dec : EqDecision cell.
Proof. solve_decision. Defined.

(** Truth value testing ([if x:], [x or y], [x and y]). *)
Definition truthy_int (z : Z) : bool := negb (z =? 0).

Definition truthy_str (s : string) : bool :=
  match s with
  | EmptyString => false
  | String _ _ => true
  end.

Definition truthy_opt_int (o : option Z) : bool :=
  match o with
  | None => false
  | Some z => truthy_int z
  end.

Definition truthy_opt_str (o : option string) : bool :=
  match o with
  | None => false
  | Some s => truthy_str s
  end.

Definition truthy_cell (c : cell) : bool :=
  match c with
  | CNull => false
  | CInt z => truthy_int z
  | CStr s => truthy_str s
  end.

Definition truthy_list {A} (l : list A) : bool :=
  match l with
  | [] => false
  | _ :: _ => true
  end.

(** [str(n)] for an integer: its decimal numeral. *)
Definition str_int (z : Z) : string := NilZero.string_of_int (Z.to_int z).

(** [str(value)] *)
Definition str (value : cell) : string :=
  match value with
  | CNull => "None"
  | CInt z => str_int z
  | CStr s => s
  end.

(** [str.isdigit] and [str.isspace] on code points below 256. *)
Definition isdigit (ch : ascii) : bool :=
  let n := Z.of_nat (nat_of_ascii ch) in
  ((48 <=? n) && (n <=? 57)) || (n =? 178) || (n =? 179) || (n =? 185).

Definition isspace (ch : ascii) : bool :=
  let n := Z.of_nat (nat_of_ascii ch) in
  ((9 <=? n) && (n <=? 13)) || ((28 <=? n) && (n <=? 32))
  || (n =? 133) || (n =? 160).

Fixpoint lstrip_chars (l : list ascii) : list ascii :=
  match l with
  | [] => []
  | ch :: l' => if isspace ch then lstrip_chars l' else l
  end.

Definition strip_chars (l : list ascii) : list ascii :=
  rev (lstrip_chars (rev (lstrip_chars l))).

(** [s.strip()] *)
Definition strip (s : string) : string :=
  String.string_of_list_ascii (strip_chars (String.list_ascii_of_string s)).

(** [s.zfill(width)]: zeros go after a leading sign. *)
Definition zfill (width : nat) (s : string) : string :=
  let n := String.length s in
  if (width <=? n)%nat then s
  else
    let fill := String.string_of_list_ascii (replicate (width - n) "0"%char) in
    match s with
    | String ch rest =>
        if (Ascii.eqb ch "+" || Ascii.eqb ch "-")%char
        then String ch (fill +:+ rest)
        else fill +:+ s
    | EmptyString => fill
    end.

(** The characters of [s] for which [ch.isdigit()] holds, joined. *)
Definition only_digits (s : string) : string :=
  String.string_of_list_ascii (List.filter isdigit (String.list_ascii_of_string s)).

(** A Python [float]: a finite value, or one of [inf], [-inf] and [nan]
    ([float] reads texts such as [inf], [nan] and [1e999] as these, without
    a [ValueError]). *)
Inductive pyfloat : Type :=
| Finite (x : Q)
| NonFinite.

(** The number a finite float is. *)
Definition finite (x : option pyfloat) : option Q :=
  match x with
  | Some (Finite q) => Some q
  | _ => None
  end.

Definition non_finite (x : option pyfloat) : bool :=
  match x with
  | Some NonFinite => true
  | _ => false
  end.

End Py.

(* ====================================================================== *)
(** * The tables the handlers read and write *)
(* ====================================================================== *)

Module Store.

(** [datetime.date] *)
Record date : Type := Date { year : Z; month : Z; day : Z }.

#[export] Instance date_eq_dec : EqDecision date.
Proof. solve_decision. Defined.

(** [current_period()]: [today.replace(day=1)], with today's date made an
    argument. *)
Definition current_period (today : date) : date :=
  {| year := year today; month := month today; day := 1 |}.

Record empleado : Type := Empleado {
  e_id : Z;
  e_id_empleado : Py.cell;
  e_nombre : string;
  e_puesto_id : option Z;
  e_jefe_directo_id : option Z;
  e_email : option string }.

Record puesto : Type := Puesto {
  p_id : Z;
  p_nombre : string;
  p_departamento_id : option Z;
  p_jefe_puesto_id : option Z }.

Record departamento : Type := Departamento {
  d_id : Z;
  d_nombre : string }.

Record kpi : Type := Kpi {
  k_id : Z;
  k_descripcion : string;
  k_unidad_medida : option string;
  k_valor_objetivo : option Q;
  k_rango_rojo_min : option Q;
  k_rango_rojo_max : option Q;
  k_rango_amarillo_min : option Q;
  k_rango_amarillo_max : option Q;
  k_rango_verde_min : option Q;
  k_rango_verde_max : option Q;
  k_es_criterio : option Z;
  k_departamento_id : option Z }.

Record kpi_resultado : Type := KpiResultado {
  r_id : Z;
  r_empleado_id : Z;
  r_kpi_id : Z;
  r_periodo : date;
  r_valor : option Q;
  r_texto_resultado : option string;
  r_cerrado : Z;
  r_cerrado_por : option Z }.

Record db : Type := Db {
  empleados : list empleado;
  puestos : list puesto;
  departamentos : list departamento;
  kpis : list kpi;
  puesto_kpis : list (Z * Z);
  kpi_resultados : list kpi_resultado }.

(** [AUTO_INCREMENT]: the next key is above every key in the table. *)
Definition next_id {A} (key : A → Z) (rows : list A) : Z :=
  1 + foldr (λ row acc, Z.max (key row) acc) 0 rows.

End Store.

(* ====================================================================== *)
(** * Threshold classification (the colour of a KPI row) *)
(* ====================================================================== *)

Module Classifier.
Import Store.

(** The Bootstrap classes the handler writes into [row["color"]]:
    [success] is the green status, [warning] yellow, [danger] red; Python's
    [None] (no status) is [option]'s [None]. *)
Inductive color : Type := success | warning | danger.

#[export] Instance color_eq_dec : EqDecision color.
Proof. solve_decision. Defined.

(** A row of the KPI query of [mis_kpis]: the KPI's columns joined with the
    employee's result for the period ([valor] and [texto_resultado] are
    [NULL] when there is no result yet). *)
Record kpi_row : Type := KpiRow {
  id : Z;
  descripcion : string;
  unidad_medida : option string;
  valor_objetivo : option Q;
  rango_rojo_min : option Q;
  rango_rojo_max : option Q;
  rango_amarillo_min : option Q;
  rango_amarillo_max : option Q;
  rango_verde_min : option Q;
  rango_verde_max : option Q;
  es_criterio : option Z;
  valor : option Q;
  texto_resultado : option string }.

(** [lo is not None and hi is not None and lo <= val <= hi] *)
Definition within (lo hi : option Q) (val : Q) : bool :=
  match lo with
  | None => false
  | Some a =>
      match hi with
      | None => false
      | Some b => Qle_bool a val && Qle_bool val b
      end
  end.

(** The body of the loops at lines 327-352 (own KPIs) and 385-407
    (subordinates' KPIs); the two are the same computation on the row. *)
Definition compute_color (row : kpi_row) : option color :=
  if negb (Py.truthy_opt_int (es_criterio row)) then
    match valor row with
    | Some val =>
        if within (rango_verde_min row) (rango_verde_max row) val
        then Some success
        else if within (rango_amarillo_min row) (rango_amarillo_max row) val
        then Some warning
        else if within (rango_rojo_min row) (rango_rojo_max row) val
        then Some danger
        else None
    | None => None
    end
  else None.

(** ** The classification as the specification words it *)

(** A range: two optional bounds. *)
Definition range : Type := option Q * option Q.

(** A range matches when both bounds are present and enclose the value. *)
Definition range_matches (r : range) (v : Q) : Prop :=
  ∃ lo hi, r = (Some lo, Some hi) ∧ (lo <= v)%Q ∧ (v <= hi)%Q.

#[export] Instance range_matches_dec r v : Decision (range_matches r v).
Proof.
  destruct r as [[lo|] [hi|]].
  - destruct (Qlt_le_dec v lo) as [H1|H1].
    + right. intros (a & b & E & Ha & Hb). inversion E; subst.
      exact (Qlt_not_le _ _ H1 Ha).
    + destruct (Qlt_le_dec hi v) as [H2|H2].
      * right. intros (a & b & E & Ha & Hb). inversion E; subst.
        exact (Qlt_not_le _ _ H2 Hb).
      * left. by exists lo, hi.
  - right. by intros (a & b & E & _).
  - right. by intros (a & b & E & _).
  - right. by intros (a & b & E & _).
Defined.

(** The status of the first range of [order] that matches, if any. *)
Fixpoint first_matching (order : list (color * range)) (v : Q) : option color :=
  match order with
  | [] => None
  | (c, r) :: rest => if decide (range_matches r v) then Some c else first_matching rest v
  end.

Definition verde (row : kpi_row) : range := (rango_verde_min row, rango_verde_max row).
Definition amarillo (row : kpi_row) : range := (rango_amarillo_min row, rango_amarillo_max row).
Definition rojo (row : kpi_row) : range := (rango_rojo_min row, rango_rojo_max row).

(** Green, then yellow, then red. *)
Definition priority (row : kpi_row) : list (color * range) :=
  [(success, verde row); (warning, amarillo row); (danger, rojo row)].

(** One bound of the range is missing. *)
Definition half_open (r : range) : Prop := r.1 = None ∨ r.2 = None.

End Classifier.

(* ====================================================================== *)
(** * A connection to the store *)
(* ====================================================================== *)

Module Conn.
Import Store.

(** The statements [mis_kpis] and [cerrar_periodo] send, with their
    parameters bound. *)
Inductive stmt : Type :=
| SelectEsCriterio (kpi_id : Z)
| SelectResultadoId (empleado_id kpi_id : Z) (periodo : date)
| UpdateResultado (valor : option Q) (texto : option string) (id : Z)
| InsertResultado (empleado_id kpi_id : Z) (periodo : date)
    (valor : option Q) (texto : option string)
| UpdateCerrado (cerrado_por : option Z) (empleado_id : option Z) (periodo : date)
| SelectEmpleadoPuesto (empleado_id : Z)
| SelectKpisPuesto (empleado_id : Z) (periodo : date) (puesto_id : option Z)
| SelectSubPuestos (puesto_id : option Z)
| SelectEmpleadosIn (puesto_ids : list Z).

(** What [cur.execute] can raise: [OperationalError] when the store is
    lost, [ProgrammingError] when the driver refuses a parameter. *)
Inductive exn : Type :=
| OperationalError
| ProgrammingError.

Inductive outcome (A : Type) : Type :=
| Ok (a : A)
| Raise (e : exn).
Arguments Ok {A} a.
Arguments Raise {A} e.

(** The connection settings the handlers depend on. *)
Record config : Type := Config { autocommit : bool }.

(** [DB_CONFIG]: every connection is opened with ["autocommit": True]. *)
Definition DB_CONFIG : config := {| autocommit := true |}.

(** An open connection.  [durable] is what the server has committed,
    [working] what this session sees (its own uncommitted writes included),
    [link] how many more statements the connection carries before it is
    lost ([None]: it is never lost), [log] the statements executed so far,
    oldest first. *)
Record conn : Type := MkConn {
  cfg : config;
  durable : db;
  working : db;
  link : option nat;
  log : list stmt }.

(** [pymysql.connect] with the settings of [DB_CONFIG] *)
Definition get_db_connection (server : db) (link : option nat) : conn :=
  {| cfg := DB_CONFIG; durable := server; working := server;
     link := link; log := [] |}.

(** Code that uses a connection and may raise. *)
Definition M (A : Type) : Type := conn → outcome A * conn.

Definition ret {A} (a : A) : M A := λ c, (Ok a, c).

Definition bind {A B} (m : M A) (k : A → M B) : M B :=
  λ c, match m c with
       | (Ok a, c') => k a c'
       | (Raise e, c') => (Raise e, c')
       end.

(** A statement has been executed: its write is applied to the session's
    view and, under autocommit, committed with the statement. *)
Definition advance (s : stmt) (write : db → db) (c : conn) : conn :=
  let w := write (working c) in
  {| cfg := cfg c;
     durable := if autocommit (cfg c) then w else durable c;
     working := w;
     link := pred <$> link c;
     log := log c ++ [s] |}.

(** [cur.execute(...)]: raises when the connection is gone; otherwise the
    statement reads the session's view and writes to it.  No handler calls
    [conn.commit()] or opens a transaction. *)
Definition execute {A} (s : stmt) (read : db → A) (write : db → db) : M A :=
  λ c, match link c with
       | Some O => (Raise OperationalError, c)
       | _ => (Ok (read (working c)), advance s write c)
       end.

(** The float parameter of a statement.  [cur.execute] writes the
    parameters into the statement before it sends anything
    ([Cursor.mogrify]), and pymysql's [escape_float] refuses [inf], [-inf]
    and [nan] with [ProgrammingError]: the statement is then not sent. *)
Definition escape_float (x : option Py.pyfloat) : M (option Q) :=
  λ c, match x with
       | Some Py.NonFinite => (Raise ProgrammingError, c)
       | _ => (Ok (Py.finite x), c)
       end.

#[export] Instance M_ret : MRet M := @ret.
#[export] Instance M_bind : MBind M := λ A B k m, bind m k.

(** [for x in xs: body(x)] *)
Fixpoint for_each {A} (xs : list A) (body : A → M unit) : M unit :=
  match xs with
  | [] => ret tt
  | x :: xs' => body x;; for_each xs' body
  end.

(** [for x in xs: out.append(body(x))] *)
Fixpoint for_collect {A B} (xs : list A) (body : A → M B) : M (list B) :=
  match xs with
  | [] => ret []
  | x :: xs' => y ← body x; ys ← for_collect xs' body; mret (y :: ys)
  end.

(** [conn.close()]: what the server keeps is what was committed. *)
Definition close (c : conn) : db := durable c.

(** A property of the connection that a piece of code keeps, however it
    ends. *)
Definition preserves {A} (P : conn → Prop) (m : M A) : Prop :=
  ∀ c r c', P c → m c = (r, c') → P c'.

(** A property of the value a piece of code returns, when it returns. *)
Definition yields {A} (Q : A → Prop) (m : M A) : Prop :=
  ∀ c a c', m c = (Ok a, c') → Q a.

(** The connection runs with the settings of [DB_CONFIG] and the server
    holds what the session sees. *)
Definition autocommitted (c : conn) : Prop :=
  cfg c = DB_CONFIG ∧ durable c = working c.

End Conn.


(* ====================================================================== *)
(** * [mis_kpis] and [cerrar_periodo] *)
(* ====================================================================== *)

Module MisKpis.
Import Store Classifier Conn.

(** ** The queries *)

Definition result_key (empleado_id kpi_id : Z) (periodo : date)
    (r : kpi_resultado) : bool :=
  (r_empleado_id r =? empleado_id) && (r_kpi_id r =? kpi_id)
  && bool_decide (r_periodo r = periodo).

(** [SELECT es_criterio FROM kpis WHERE id=%s] then [fetchone()] *)
Definition select_es_criterio (kpi_id : Z) : M (option (option Z)) :=
  execute (SelectEsCriterio kpi_id)
    (λ d, k_es_criterio <$> head (List.filter (λ k, k_id k =? kpi_id) (kpis d)))
    (λ d, d).

(** [SELECT id FROM kpi_resultados WHERE empleado_id=%s AND kpi_id=%s AND
    periodo=%s] then [fetchone()] *)
Definition select_resultado_id (empleado_id kpi_id : Z) (periodo : date)
    : M (option Z) :=
  execute (SelectResultadoId empleado_id kpi_id periodo)
    (λ d, r_id <$> head (List.filter (result_key empleado_id kpi_id periodo)
                                      (kpi_resultados d)))
    (λ d, d).

Definition set_resultados (d : db) (rs : list kpi_resultado) : db :=
  {| empleados := empleados d; puestos := puestos d;
     departamentos := departamentos d; kpis := kpis d;
     puesto_kpis := puesto_kpis d; kpi_resultados := rs |}.

Definition set_valor (valor : option Q) (texto : option string)
    (r : kpi_resultado) : kpi_resultado :=
  {| r_id := r_id r; r_empleado_id := r_empleado_id r; r_kpi_id := r_kpi_id r;
     r_periodo := r_periodo r; r_valor := valor; r_texto_resultado := texto;
     r_cerrado := r_cerrado r; r_cerrado_por := r_cerrado_por r |}.

(** [UPDATE kpi_resultados SET valor=%s, texto_resultado=%s WHERE id=%s] *)
Definition update_resultado (valor : option Py.pyfloat)
    (texto : option string) (id : Z) : M unit :=
  v ← escape_float valor;
  execute (UpdateResultado v texto id)
    (λ _, tt)
    (λ d, set_resultados d
            (map (λ r, if r_id r =? id then set_valor v texto r else r)
                 (kpi_resultados d))).

(** Modelled from the spec: the column defaults of [kpi_resultados] live in
    [kpi_manager_schema.sql], which is not among the sources; a result is
    created open and closed by nobody. *)
Definition cerrado_default : Z := 0.
Definition cerrado_por_default : option Z := None.

(** [INSERT INTO kpi_resultados (empleado_id, kpi_id, periodo, valor,
    texto_resultado) VALUES (...)] *)
Definition insert_resultado (empleado_id kpi_id : Z) (periodo : date)
    (valor : option Py.pyfloat) (texto : option string) : M unit :=
  v ← escape_float valor;
  execute (InsertResultado empleado_id kpi_id periodo v texto)
    (λ _, tt)
    (λ d, set_resultados d
            (kpi_resultados d ++
             [ {| r_id := next_id r_id (kpi_resultados d);
                  r_empleado_id := empleado_id; r_kpi_id := kpi_id;
                  r_periodo := periodo; r_valor := v;
                  r_texto_resultado := texto;
                  r_cerrado := cerrado_default;
                  r_cerrado_por := cerrado_por_default |} ])).

Definition set_cerrado (cerrado_por : option Z) (r : kpi_resultado)
    : kpi_resultado :=
  {| r_id := r_id r; r_empleado_id := r_empleado_id r; r_kpi_id := r_kpi_id r;
     r_periodo := r_periodo r; r_valor := r_valor r;
     r_texto_resultado := r_texto_resultado r;
     r_cerrado := 1; r_cerrado_por := cerrado_por |}.

(** [empleado_id=%s AND periodo=%s] with a possibly-[None] parameter:
    [NULL] equals nothing. *)
Definition in_period (empleado_id : option Z) (periodo : date)
    (r : kpi_resultado) : bool :=
  match empleado_id with
  | None => false
  | Some e => (r_empleado_id r =? e) && bool_decide (r_periodo r = periodo)
  end.

(** [UPDATE kpi_resultados SET cerrado=1, cerrado_por=%s WHERE
    empleado_id=%s AND periodo=%s] *)
Definition update_cerrado (cerrado_por empleado_id : option Z)
    (periodo : date) : M unit :=
  execute (UpdateCerrado cerrado_por empleado_id periodo)
    (λ _, tt)
    (λ d, set_resultados d
            (map (λ r, if in_period empleado_id periodo r
                       then set_cerrado cerrado_por r else r)
                 (kpi_resultados d))).

(** ** The rows the page queries return *)

(** A row of the employee queries: the employee joined with [puestos]. *)
Record emp_row : Type := EmpRow {
  er_id : Z;
  er_nombre : string;
  er_puesto_id : option Z;
  er_puesto_nombre : option string }.

(** [a = b] in SQL for two nullable integers. *)
Definition sql_eq (a b : option Z) : bool :=
  match a, b with
  | Some x, Some y => x =? y
  | _, _ => false
  end.

Definition matching_puestos (d : db) (e : empleado) : list puesto :=
  List.filter (λ p, sql_eq (e_puesto_id e) (Some (p_id p))) (puestos d).

Definition joined (e : empleado) (p : puesto) : emp_row :=
  {| er_id := e_id e; er_nombre := e_nombre e;
     er_puesto_id := Some (p_id p); er_puesto_nombre := Some (p_nombre p) |}.

(** [FROM empleados e LEFT JOIN puestos p ON e.puesto_id=p.id WHERE e.id=%s] *)
Definition empleado_puesto_rows (d : db) (empleado_id : Z) : list emp_row :=
  flat_map
    (λ e, match matching_puestos d e with
          | [] => [ {| er_id := e_id e; er_nombre := e_nombre e;
                       er_puesto_id := None; er_puesto_nombre := None |} ]
          | ps => map (joined e) ps
          end)
    (List.filter (λ e, e_id e =? empleado_id) (empleados d)).

(** [FROM empleados e JOIN puestos p ON e.puesto_id=p.id WHERE e.puesto_id
    IN (...)] *)
Definition empleados_in_rows (d : db) (puesto_ids : list Z) : list emp_row :=
  flat_map
    (λ e, map (joined e) (matching_puestos d e))
    (List.filter
       (λ e, match e_puesto_id e with
             | Some pid => existsb (Z.eqb pid) puesto_ids
             | None => false
             end)
       (empleados d)).

(** [SELECT id FROM puestos WHERE jefe_puesto_id = %s] *)
Definition sub_puestos_rows (d : db) (puesto_id : option Z) : list Z :=
  map p_id (List.filter (λ p, sql_eq (p_jefe_puesto_id p) puesto_id) (puestos d)).

Definition kpi_row_of (k : kpi) (valor : option Q) (texto : option string)
    : kpi_row :=
  {| id := k_id k; descripcion := k_descripcion k;
     unidad_medida := k_unidad_medida k; valor_objetivo := k_valor_objetivo k;
     rango_rojo_min := k_rango_rojo_min k; rango_rojo_max := k_rango_rojo_max k;
     rango_amarillo_min := k_rango_amarillo_min k;
     rango_amarillo_max := k_rango_amarillo_max k;
     rango_verde_min := k_rango_verde_min k;
     rango_verde_max := k_rango_verde_max k;
     es_criterio := k_es_criterio k;
     valor := valor; texto_resultado := texto |}.

Fixpoint insert_by {A} (leb : A → A → bool) (x : A) (l : list A) : list A :=
  match l with
  | [] => [x]
  | y :: l' => if leb x y then x :: l else y :: insert_by leb x l'
  end.

(** [ORDER BY] under the comparison [leb]. *)
Definition order_by {A} (leb : A → A → bool) (l : list A) : list A :=
  foldr (insert_by leb) [] l.

(** A KPI row with the colour the page gives it ([row["color"] = color]). *)
Record kpi_view : Type := KpiView {
  kv_row : kpi_row;
  kv_color : option color }.

Definition with_color (row : kpi_row) : kpi_view :=
  {| kv_row := row; kv_color := compute_color row |}.

(** [request.form] of the POST: [target_empleado_id] is [None] when the
    field is missing or empty; the three [getlist] results follow. *)
Record form : Type := Form {
  target_empleado_id : option Z;
  kpi_ids : list Z;
  values : list string;
  textos : list string }.

Inductive request : Type :=
| GET
| POST (f : form).

Inductive response : Type :=
| RedirectLogout
| RedirectMisKpis
| RenderNoPuesto
| RenderMisKpis (my_kpis : list kpi_view) (empleado : emp_row)
    (subordinates : list (emp_row * list kpi_view)) (period : date).

(** [zip(kpi_ids, values, textos)] *)
Fixpoint zip3 {A B C} (a : list A) (b : list B) (c : list C)
    : list (A * B * C) :=
  match a, b, c with
  | x :: a', y :: b', z :: c' => (x, y, z) :: zip3 a' b' c'
  | _, _, _ => []
  end.

Section Handlers.

(** Python's [float] on a string: [None] stands for [ValueError]. *)
Variable float : string → option Py.pyfloat.

(** The store's collation order on [descripcion]. *)
Variable descripcion_leb : string → string → bool.

(** [try: float(valor) if valor else None / except ValueError: None] *)
Definition parse_valor (valor : string) : option Py.pyfloat :=
  if Py.truthy_str valor then
    match float valor with
    | Some x => Some x
    | None => None
    end
  else None.

(** The body of the submission loop (lines 262-292). *)
Definition submit_one (target_empleado_id : Z) (period : date)
    (t : Z * string * string) : M unit :=
  let '(kpi_id, valor, texto) := t in
  row ← select_es_criterio kpi_id;
  let es_criterio :=
    match row with
    | Some c => Py.truthy_opt_int c
    | None => false
    end in
  let valor_db := if es_criterio then None else parse_valor valor in
  let texto_db := if es_criterio then Some texto else None in
  existing ← select_resultado_id target_empleado_id kpi_id period;
  match existing with
  | Some id => update_resultado valor_db texto_db id
  | None => insert_resultado target_empleado_id kpi_id period valor_db texto_db
  end.

(** The POST branch (lines 249-297): the loop over the zipped form
    lists, then the redirect.  An exception leaves the loop and the
    handler ([finally] only closes the connection). *)
Definition mis_kpis_post (empleado_id : Z) (period : date) (f : form)
    : M response :=
  let target :=
    match target_empleado_id f with
    | Some t => t
    | None => empleado_id
    end in
  for_each (zip3 (kpi_ids f) (values f) (textos f))
           (submit_one target period);;
  mret RedirectMisKpis.

(** The KPI query of the page, for one employee and position. *)
Definition kpis_puesto_rows (d : db) (empleado_id : Z) (periodo : date)
    (puesto_id : option Z) : list kpi_row :=
  order_by (λ a b, descripcion_leb (descripcion a) (descripcion b))
    (flat_map
       (λ pk : Z * Z,
          flat_map
            (λ k, match List.filter (result_key empleado_id (k_id k) periodo)
                                     (kpi_resultados d) with
                  | [] => [kpi_row_of k None None]
                  | krs => map (λ kr, kpi_row_of k (r_valor kr)
                                        (r_texto_resultado kr)) krs
                  end)
            (List.filter (λ k, k_id k =? pk.2) (kpis d)))
       (List.filter (λ pk : Z * Z, sql_eq (Some pk.1) puesto_id)
                    (puesto_kpis d))).

Definition select_empleado_puesto (empleado_id : Z) : M (option emp_row) :=
  execute (SelectEmpleadoPuesto empleado_id)
    (λ d, head (empleado_puesto_rows d empleado_id)) (λ d, d).

Definition select_kpis_puesto (empleado_id : Z) (periodo : date)
    (puesto_id : option Z) : M (list kpi_row) :=
  execute (SelectKpisPuesto empleado_id periodo puesto_id)
    (λ d, kpis_puesto_rows d empleado_id periodo puesto_id) (λ d, d).

Definition select_sub_puestos (puesto_id : option Z) : M (list Z) :=
  execute (SelectSubPuestos puesto_id)
    (λ d, sub_puestos_rows d puesto_id) (λ d, d).

Definition select_empleados_in (puesto_ids : list Z) : M (list emp_row) :=
  execute (SelectEmpleadosIn puesto_ids)
    (λ d, empleados_in_rows d puesto_ids) (λ d, d).

(** The subordinates part of the page (lines 354-409). *)
Definition subordinates_of (period : date) (puesto_id : option Z)
    : M (list Z * list (emp_row * list kpi_view)) :=
  subordinate_puestos ← select_sub_puestos puesto_id;
  if Py.truthy_list subordinate_puestos then
    subordinate_emps ← select_empleados_in subordinate_puestos;
    subordinate_data ←
      for_collect subordinate_emps
        (λ sub, raw_sub_kpis ← select_kpis_puesto (er_id sub) period
                                  (er_puesto_id sub);
                mret (sub, map with_color raw_sub_kpis));
    mret (subordinate_puestos, subordinate_data)
  else mret (subordinate_puestos, []).

(** The GET branch (lines 298-417). *)
Definition mis_kpis_get (empleado_id : Z) (period : date) : M response :=
  emp ← select_empleado_puesto empleado_id;
  match emp with
  | None => mret RenderNoPuesto
  | Some emp =>
      if negb (Py.truthy_opt_int (er_puesto_id emp)) then mret RenderNoPuesto
      else
        let puesto_id := er_puesto_id emp in
        raw_kpis ← select_kpis_puesto empleado_id period puesto_id;
        let my_kpis := map with_color raw_kpis in
        subs ← subordinates_of period puesto_id;
        mret (RenderMisKpis my_kpis emp subs.2 period)
  end.

(** [mis_kpis]: the session's [empleado_id] and today's date are
    arguments; the result is the response (or the exception), what the
    server holds once the connection is closed, and the statements that
    were sent. *)
Definition mis_kpis (server : db) (link : option nat)
    (session_empleado_id : option Z) (today : date) (req : request)
    : outcome response * db * list stmt :=
  match session_empleado_id with
  | None => (Ok RedirectLogout, server, [])
  | Some empleado_id =>
      let conn := get_db_connection server link in
      let period := current_period today in
      let '(r, conn') :=
        match req with
        | POST f => mis_kpis_post empleado_id period f conn
        | GET => mis_kpis_get empleado_id period conn
        end in
      (r, close conn', log conn')
  end.

End Handlers.

(** [cerrar_periodo]: [form_empleado_id] is [None] when the form field is
    missing or empty ([request.form.get("empleado_id") or empleado_id]). *)
Definition cerrar_periodo (server : db) (link : option nat)
    (session_empleado_id form_empleado_id : option Z) (today : date)
    : outcome response * db :=
  let empleado_id := session_empleado_id in
  let target_empleado_id :=
    match form_empleado_id with
    | Some t => Some t
    | None => empleado_id
    end in
  let period := current_period today in
  let '(r, conn') :=
    update_cerrado empleado_id target_empleado_id period
                   (get_db_connection server link) in
  (match r with
   | Ok _ => Ok RedirectMisKpis
   | Raise e => Raise e
   end, close conn').

(** ** The loop body as a function on the tables

    What one pass of the submission loop does to the tables, and the
    statements it sends, when all three go through (lemma
    [submit_one_up] relates them to [submit_one]). *)
Section Upsert.
Variable float : string → option Py.pyfloat.

Definition upsert_parts (target_empleado_id : Z) (period : date) (d : db)
    (t : Z * string * string) : option Q * option string * option Z :=
  let '(kpi_id, valor, texto) := t in
  let es_criterio :=
    match k_es_criterio <$> head (List.filter (λ k, k_id k =? kpi_id) (kpis d)) with
    | Some c => Py.truthy_opt_int c
    | None => false
    end in
  (if es_criterio then None else Py.finite (parse_valor float valor),
   if es_criterio then Some texto else None,
   r_id <$> head (List.filter (result_key target_empleado_id kpi_id period)
                              (kpi_resultados d))).

Definition upsert (target_empleado_id : Z) (period : date) (d : db)
    (t : Z * string * string) : db :=
  let '(valor_db, texto_db, existing) :=
    upsert_parts target_empleado_id period d t in
  match existing with
  | Some id =>
      set_resultados d
        (map (λ r, if r_id r =? id then set_valor valor_db texto_db r else r)
             (kpi_resultados d))
  | None =>
      set_resultados d
        (kpi_resultados d ++
         [ {| r_id := next_id r_id (kpi_resultados d);
              r_empleado_id := target_empleado_id; r_kpi_id := t.1.1;
              r_periodo := period; r_valor := valor_db;
              r_texto_resultado := texto_db;
              r_cerrado := cerrado_default;
              r_cerrado_por := cerrado_por_default |} ])
  end.

Definition upsert_stmts (target_empleado_id : Z) (period : date) (d : db)
    (t : Z * string * string) : list stmt :=
  let '(valor_db, texto_db, existing) :=
    upsert_parts target_empleado_id period d t in
  [ SelectEsCriterio t.1.1;
    SelectResultadoId target_empleado_id t.1.1 period;
    match existing with
    | Some id => UpdateResultado valor_db texto_db id
    | None => InsertResultado target_empleado_id t.1.1 period valor_db texto_db
    end ].

(** The statements of a whole batch, each chosen on the tables the passes
    before it left. *)
Fixpoint batch_stmts (target_empleado_id : Z) (period : date) (d : db)
    (batch : list (Z * string * string)) : list stmt :=
  match batch with
  | [] => []
  | t :: batch' =>
      upsert_stmts target_empleado_id period d t
      ++ batch_stmts target_empleado_id period
           (upsert target_empleado_id period d t) batch'
  end.

End Upsert.

(** The form that carries a batch of triples. *)
Definition form_of (target : option Z) (batch : list (Z * string * string))
    : form :=
  {| target_empleado_id := target;
     kpi_ids := map (λ t, t.1.1) batch;
     values := map (λ t, t.1.2) batch;
     textos := map snd batch |}.

(** The rows of [kpi_resultados] for one employee, KPI and period. *)
Definition results_for (d : db) (empleado_id kpi_id : Z) (periodo : date)
    : list kpi_resultado :=
  List.filter (result_key empleado_id kpi_id periodo) (kpi_resultados d).

(** Whether [kpis] marks the KPI qualitative (an unknown KPI is not). *)
Definition is_criterio (d : db) (kpi_id : Z) : bool :=
  match head (List.filter (λ k, k_id k =? kpi_id) (kpis d)) with
  | Some k => Py.truthy_opt_int (k_es_criterio k)
  | None => false
  end.

(** The driver refuses the write of the triple: the KPI is not qualitative
    and [float] reads the value as [inf] or [nan]. *)
Definition refused (float : string → option Py.pyfloat) (d : db)
    (t : Z * string * string) : bool :=
  negb (is_criterio d t.1.1) && Py.non_finite (parse_valor float t.1.2).

(** The triples of the batch before the first one whose write is refused. *)
Fixpoint accepted (float : string → option Py.pyfloat) (d : db)
    (batch : list (Z * string * string)) : list (Z * string * string) :=
  match batch with
  | [] => []
  | t :: batch' =>
      if refused float d t then [] else t :: accepted float d batch'
  end.

(** The two queries of the pass at place [k] of the batch, which go out
    before its write is refused. *)
Definition queries_at (target_empleado_id : Z) (period : date)
    (batch : list (Z * string * string)) (k : nat) : list stmt :=
  match batch !! k with
  | Some t => [ SelectEsCriterio t.1.1;
                SelectResultadoId target_empleado_id t.1.1 period ]
  | None => []
  end.

(** No write of the batch is refused. *)
Definition all_accepted (float : string → option Py.pyfloat) (d : db)
    (batch : list (Z * string * string)) : bool :=
  forallb (λ t, negb (refused float d t)) batch.

(** Every KPI row of a rendered page carries the colour [compute_color]
    gives it. *)
Definition coloured (kv : kpi_view) : Prop :=
  kv_color kv = compute_color (kv_row kv).

Definition page_coloured (r : response) : Prop :=
  match r with
  | RenderMisKpis my_kpis _ subordinates _ =>
      Forall coloured my_kpis
      ∧ Forall (λ sub : emp_row * list kpi_view, Forall coloured sub.2)
               subordinates
  | _ => True
  end.

(** A statement that is not a membership test against no ids. *)
Definition not_in_nothing (s : stmt) : Prop := s ≠ SelectEmpleadosIn [].

Definition log_fine (c : conn) : Prop := Forall not_in_nothing (log c).

(** A statement that writes the numeric value [NULL]. *)
Definition writes_null_valor (s : stmt) : Prop :=
  match s with
  | UpdateResultado valor _ _ => valor = None
  | InsertResultado _ _ _ valor _ => valor = None
  | _ => False
  end.

End MisKpis.

(* ====================================================================== *)
(** * [personal]: the import from the incidencias table *)
(* ====================================================================== *)

Module Personal.
Import Store.

(** [normalize_emp_id] (lines 729-737) *)
Definition normalize_emp_id (value : Py.cell) : string :=
  match value with
  | Py.CNull => ""
  | _ =>
      let s := Py.strip (Py.str value) in
      let digits := Py.only_digits s in
      let base := if Py.truthy_str digits then digits else s in
      Py.zfill 5 base
  end.

(** A row of [SELECT employee_number, full_name, puesto, department_name
    FROM personal] on the external server. *)
Record remote_row : Type := RemoteRow {
  rr_employee_number : Py.cell;
  rr_full_name : option string;
  rr_puesto : option string;
  rr_department_name : option string }.

(** [(x or "").strip()] *)
Definition or_empty_strip (x : option string) : string :=
  Py.strip (if Py.truthy_opt_str x then default EmptyString x else EmptyString).

(** [s or None] *)
Definition or_none (s : string) : option string :=
  if Py.truthy_str s then Some s else None.

Definition set_departamentos (d : db) (ds : list departamento) : db :=
  {| empleados := empleados d; puestos := puestos d; departamentos := ds;
     kpis := kpis d; puesto_kpis := puesto_kpis d;
     kpi_resultados := kpi_resultados d |}.

Definition set_puestos (d : db) (ps : list puesto) : db :=
  {| empleados := empleados d; puestos := ps;
     departamentos := departamentos d; kpis := kpis d;
     puesto_kpis := puesto_kpis d; kpi_resultados := kpi_resultados d |}.

Definition set_empleados (d : db) (es : list empleado) : db :=
  {| empleados := es; puestos := puestos d;
     departamentos := departamentos d; kpis := kpis d;
     puesto_kpis := puesto_kpis d; kpi_resultados := kpi_resultados d |}.

(** Lines 805-813: find the department by name or create it. *)
Definition find_or_create_departamento (d : db) (dept_nombre : option string)
    : db * option Z :=
  match dept_nombre with
  | None => (d, None)
  | Some nombre =>
      match head (List.filter (λ r, String.eqb (d_nombre r) nombre)
                              (departamentos d)) with
      | Some drow => (d, Some (d_id drow))
      | None =>
          let lastrowid := next_id d_id (departamentos d) in
          (set_departamentos d
             (departamentos d ++ [ {| d_id := lastrowid; d_nombre := nombre |} ]),
           Some lastrowid)
      end
  end.

(** Lines 816-827: find the position by name or create it. *)
Definition find_or_create_puesto (d : db) (puesto_nombre : option string)
    (departamento_id : option Z) : db * option Z :=
  match puesto_nombre with
  | None => (d, None)
  | Some nombre =>
      match head (List.filter (λ r, String.eqb (p_nombre r) nombre)
                              (puestos d)) with
      | Some prow => (d, Some (p_id prow))
      | None =>
          let lastrowid := next_id p_id (puestos d) in
          (set_puestos d
             (puestos d ++ [ {| p_id := lastrowid; p_nombre := nombre;
                                p_departamento_id := departamento_id;
                                p_jefe_puesto_id := None |} ]),
           Some lastrowid)
      end
  end.

(** [INSERT INTO empleados (id_empleado, nombre, puesto_id)]: the other
    columns stay [NULL]. *)
Definition insert_empleado (d : db) (emp_id nombre : string)
    (puesto_id : option Z) : db :=
  set_empleados d
    (empleados d ++ [ {| e_id := next_id e_id (empleados d);
                         e_id_empleado := Py.CStr emp_id;
                         e_nombre := nombre; e_puesto_id := puesto_id;
                         e_jefe_directo_id := None; e_email := None |} ]).

(** The loop's variables: the tables, [existing_ids] and [imported]. *)
Record import_state : Type := ImportState {
  tables : db;
  existing_ids : gset string;
  imported : Z }.

(** [{normalize_emp_id(row["id_empleado"]) for row in ... if
    row.get("id_empleado")}] *)
Definition initial_existing_ids (d : db) : gset string :=
  list_to_set
    (map (λ e, normalize_emp_id (e_id_empleado e))
         (List.filter (λ e, Py.truthy_cell (e_id_empleado e)) (empleados d))).

(** The body of the import loop (lines 795-834). *)
Definition import_row (st : import_state) (row : remote_row) : import_state :=
  let emp_id := normalize_emp_id (rr_employee_number row) in
  if negb (Py.truthy_str emp_id) || bool_decide (emp_id ∈ existing_ids st)
  then st
  else
    let nombre := or_empty_strip (rr_full_name row) in
    let puesto_nombre := or_none (or_empty_strip (rr_puesto row)) in
    let dept_nombre := or_none (or_empty_strip (rr_department_name row)) in
    let '(d1, departamento_id) :=
      find_or_create_departamento (tables st) dept_nombre in
    let '(d2, puesto_id) :=
      find_or_create_puesto d1 puesto_nombre departamento_id in
    {| tables := insert_empleado d2 emp_id nombre puesto_id;
       existing_ids := {[ emp_id ]} ∪ existing_ids st;
       imported := imported st + 1 |}.

Inductive flash : Type :=
| NoConfigurada
| SinRegistros
| Importados (n : Z).

(** The import action of [personal] (lines 772-838).  [incidencias] is what
    the external server answers: [None] when it is not configured.  Each
    statement is committed as it is executed; the function gives the
    tables after the last one. *)
Definition importar (d : db) (incidencias : option (list remote_row))
    : db * flash :=
  match incidencias with
  | None => (d, NoConfigurada)
  | Some remote_rows =>
      if negb (Py.truthy_list remote_rows) then (d, SinRegistros)
      else
        let st := foldl import_row
                    {| tables := d; existing_ids := initial_existing_ids d;
                       imported := 0 |}
                    remote_rows in
        (tables st, Importados (imported st))
  end.

(** The employees of [d] whose [id_empleado] is the text [key]. *)
Definition with_id_empleado (key : string) (d : db) : list empleado :=
  List.filter (λ x, bool_decide (e_id_empleado x = Py.CStr key)) (empleados d).

End Personal.

(* ====================================================================== *)
(** * [organigrama_data]: the organisation chart *)
(* ====================================================================== *)

Module Organigrama.
Import Store.

(** What a [children] list holds: an employee leaf (a fresh dict), or the
    node object of a position.  Node objects are shared, not copied: a
    position's node is the one object stored in [nodes] under its key, so
    a reference to it is that key. *)
Inductive child : Type :=
| EmpleadoLeaf (id text icon : string) (data_employee_id : Z)
| PuestoRef (key : Z).

#[export] Instance child_eq_dec : EqDecision child.
Proof. solve_decision. Defined.

Record node : Type := Node {
  n_id : string;
  n_text : string;
  children : list child }.

Definition puesto_node (p : puesto) : node :=
  {| n_id := "puesto_" +:+ Py.str_int (p_id p); n_text := p_nombre p;
     children := [] |}.

Definition empleado_leaf (emp : empleado) : child :=
  EmpleadoLeaf ("empleado_" +:+ Py.str_int (e_id emp)) (e_nombre emp)
               "fas fa-user text-secondary" (e_id emp).

(** [node["children"].append(c)] *)
Definition append_child (c : child) (n : node) : node :=
  {| n_id := n_id n; n_text := n_text n; children := children n ++ [c] |}.

(** [{p["id"]: {...} for p in puestos}] *)
Definition make_nodes (puestos : list puesto) : gmap Z node :=
  foldl (λ nodes p, <[p_id p := puesto_node p]> nodes) ∅ puestos.

(** [x and x in nodes]: the key when the test passes. *)
Definition present (nodes : gmap Z node) (x : option Z) : option Z :=
  match x with
  | Some k =>
      if Py.truthy_int k && bool_decide (is_Some (nodes !! k)) then Some k
      else None
  | None => None
  end.

(** The body of the employee loop (lines 940-948). *)
Definition attach_empleado (nodes : gmap Z node) (emp : empleado)
    : gmap Z node :=
  match present nodes (e_puesto_id emp) with
  | Some puesto_id => alter (append_child (empleado_leaf emp)) puesto_id nodes
  | None => nodes
  end.

(** The body of the position loop (lines 951-957); [None] is the
    [KeyError] of [nodes[p["id"]]]. *)
Definition attach_puesto (st : gmap Z node * list Z) (p : puesto)
    : option (gmap Z node * list Z) :=
  let '(nodes, forest) := st in
  match nodes !! p_id p with
  | None => None
  | Some _ =>
      match present nodes (p_jefe_puesto_id p) with
      | Some jefe =>
          Some (alter (append_child (PuestoRef (p_id p))) jefe nodes, forest)
      | None => Some (nodes, forest ++ [p_id p])
      end
  end.

Fixpoint attach_puestos (st : gmap Z node * list Z) (ps : list puesto)
    : option (gmap Z node * list Z) :=
  match ps with
  | [] => Some st
  | p :: ps' => st' ← attach_puesto st p; attach_puestos st' ps'
  end.

(** [organigrama_data] on the rows of the two queries.  The result is the
    object graph handed to [jsonify]: the node objects by key and the
    roots, in order. *)
Definition organigrama_data (puestos : list puesto) (empleados : list empleado)
    : option (gmap Z node * list Z) :=
  let nodes := make_nodes puestos in
  let nodes := foldl attach_empleado nodes empleados in
  attach_puestos (nodes, []) puestos.

(** The children lists of [nodes'] are those of [nodes] with [more k]
    appended under each key [k]; keys, ids and texts are the same. *)
Definition grows (more : Z → list child) (nodes nodes' : gmap Z node) : Prop :=
  ∀ k, nodes' !! k
       = (λ n, {| n_id := n_id n; n_text := n_text n;
                  children := children n ++ more k |}) <$> nodes !! k.

(** The employee leaves that [attach_empleado] puts under key [k]. *)
Definition leaves_under (nodes : gmap Z node) (empleados : list empleado)
    (k : Z) : list child :=
  map empleado_leaf
    (List.filter (λ emp, bool_decide (present nodes (e_puesto_id emp) = Some k))
                 empleados).

(** The position references that [attach_puesto] puts under key [k]. *)
Definition refs_under (nodes : gmap Z node) (puestos : list puesto)
    (k : Z) : list child :=
  map (λ p, PuestoRef (p_id p))
    (List.filter (λ p, bool_decide (present nodes (p_jefe_puesto_id p) = Some k))
                 puestos).

(** The positions [attach_puesto] makes roots. *)
Definition roots (nodes : gmap Z node) (puestos : list puesto) : list Z :=
  map p_id
    (List.filter (λ p, bool_decide (present nodes (p_jefe_puesto_id p) = None))
                 puestos).

End Organigrama.

(* ====================================================================== *)
(** * Sample data for the worked cases *)
(* ====================================================================== *)

Module Examples.
Import Store.

(** A stand-in for [float] on the strings of the worked cases: an unsigned
    decimal numeral parses to its value, [inf] and [nan] to a float that
    is not finite, and every other string is a [ValueError]. *)
Definition float_decimal (s : string) : option Py.pyfloat :=
  if String.eqb s "inf" || String.eqb s "nan" then Some Py.NonFinite
  else (λ u, Py.Finite (inject_Z (Z.of_uint u))) <$> NilZero.uint_of_string s.

(** A stand-in for the collation order: code point by code point. *)
Definition descripcion_leb : string → string → bool := String.leb.

Definition today : date := {| year := 2024; month := 5; day := 17 |}.

Definition ventas : kpi :=
  {| k_id := 1; k_descripcion := "ventas"; k_unidad_medida := Some "%";
     k_valor_objetivo := Some (90 # 1);
     k_rango_rojo_min := Some (0 # 1); k_rango_rojo_max := Some (49 # 1);
     k_rango_amarillo_min := Some (50 # 1); k_rango_amarillo_max := Some (79 # 1);
     k_rango_verde_min := Some (80 # 1); k_rango_verde_max := Some (100 # 1);
     k_es_criterio := Some 0; k_departamento_id := None |}.

Definition actitud : kpi :=
  {| k_id := 2; k_descripcion := "actitud"; k_unidad_medida := None;
     k_valor_objetivo := None;
     k_rango_rojo_min := None; k_rango_rojo_max := None;
     k_rango_amarillo_min := None; k_rango_amarillo_max := None;
     k_rango_verde_min := None; k_rango_verde_max := None;
     k_es_criterio := Some 1; k_departamento_id := None |}.

(** A manager (employee 10, position 1) and a seller (employee 11,
    position 2, reporting to position 1); no results yet. *)
Definition tables : db :=
  {| empleados :=
       [ {| e_id := 10; e_id_empleado := Py.CStr "00010"; e_nombre := "Ana";
            e_puesto_id := Some 1; e_jefe_directo_id := None;
            e_email := None |};
         {| e_id := 11; e_id_empleado := Py.CStr "00011"; e_nombre := "Beto";
            e_puesto_id := Some 2; e_jefe_directo_id := Some 10;
            e_email := None |} ];
     puestos :=
       [ {| p_id := 1; p_nombre := "Gerente"; p_departamento_id := None;
            p_jefe_puesto_id := None |};
         {| p_id := 2; p_nombre := "Vendedor"; p_departamento_id := None;
            p_jefe_puesto_id := Some 1 |} ];
     departamentos := [];
     kpis := [ventas; actitud];
     puesto_kpis := [(1, 1); (2, 1); (2, 2)];
     kpi_resultados := [] |}.

End Examples.

(* ====================================================================== *)
(** * Notions used to state further properties of the handlers *)
(* ====================================================================== *)

Module Facts.
Import Store Classifier Conn MisKpis.

(** At most one result row per employee, KPI and period. *)
Definition keys_unique (d : db) : Prop :=
  ∀ e k p, (length (results_for d e k p) ≤ 1)%nat.

(** The three form lists cut to the length of the shortest. *)
Definition truncated (f : form) : form :=
  let m := Nat.min (Nat.min (length (kpi_ids f)) (length (values f)))
                   (length (textos f)) in
  {| target_empleado_id := target_empleado_id f;
     kpi_ids := take m (kpi_ids f);
     values := take m (values f);
     textos := take m (textos f) |}.

(** The key of the row is none of the keys the form can write. *)
Definition outside_batch (target : Z) (period : date) (f : form)
    (r : kpi_resultado) : Prop :=
  r_empleado_id r ≠ target ∨ r_periodo r ≠ period ∨ r_kpi_id r ∉ kpi_ids f.

(** Code that only reads: on a connection that is never lost and sees the
    tables [d], it returns a value with [Q] and leaves the connection so. *)
Definition reads {A} (d : db) (Q : A → Prop) (m : M A) : Prop :=
  ∀ c, link c = None → working c = d →
       ∃ a c', m c = (Ok a, c') ∧ link c' = None ∧ working c' = d ∧ Q a.

(** The employee occupies position [q], which reports to position [k]. *)
Definition reports_to (d : db) (k : Z) (e : empleado) (q : Z) : Prop :=
  e ∈ empleados d ∧ e_puesto_id e = Some q
  ∧ ∃ p, p ∈ puestos d ∧ p_id p = q ∧ p_jefe_puesto_id p = Some k.

(** The employee with this id is missing, or has no position, or position
    0, or a position id that no position row carries. *)
Definition no_position (d : db) (empleado_id : Z) : Prop :=
  ∀ e, head (List.filter (λ e, e_id e =? empleado_id) (empleados d)) = Some e →
       e_puesto_id e = None ∨ e_puesto_id e = Some 0
       ∨ ∃ q, e_puesto_id e = Some q ∧ ∀ p, p ∈ puestos d → p_id p ≠ q.

(** The connection sees and holds the tables [d], with autocommit. *)
Definition holds (d : db) (c : conn) : Prop :=
  cfg c = DB_CONFIG ∧ durable c = d ∧ working c = d.

(** The positions the chart's response shows: [jsonify(forest)] writes the
    roots and, below each node, the nodes in its [children]. *)
Inductive drawn (nodes : gmap Z Organigrama.node) (forest : list Z)
    : Z → Prop :=
| drawn_root k : k ∈ forest → drawn nodes forest k
| drawn_child j n k :
    drawn nodes forest j → nodes !! j = Some n →
    Organigrama.PuestoRef k ∈ Organigrama.children n →
    drawn nodes forest k.

(** A row of position [k] names [j] as its boss, and [j] is the id of a
    position and not 0. *)
Definition boss_of (ps : list puesto) (k j : Z) : Prop :=
  ∃ p, p ∈ ps ∧ p_id p = k ∧ p_jefe_puesto_id p = Some j
       ∧ j ≠ 0 ∧ j ∈ map p_id ps.

End Facts.

(* ====================================================================== *)
(** * [kpis] and [edit_kpi]: the KPI catalogue *)
(* ====================================================================== *)

Module Kpis.
Import Store.

(** [request.form] of the two handlers, one field per key; a field is
    [None] when the key is missing.  [departamento_id] is [None] when it is
    missing or empty. *)
Record kpi_form : Type := KpiForm {
  f_descripcion : option string;
  f_unidad_medida : option string;
  f_valor_objetivo : option string;
  f_rojo_min : option string;
  f_rojo_max : option string;
  f_amarillo_min : option string;
  f_amarillo_max : option string;
  f_verde_min : option string;
  f_verde_max : option string;
  f_es_criterio : option string;
  f_departamento_id : option Z }.

Inductive flash : Type :=
| DescripcionVacia
| KpiCreado
| KpiActualizado.

(** [request.form.get(key) or None] *)
Definition get_or_none (x : option string) : option string :=
  match x with
  | Some s => if Py.truthy_str s then Some s else None
  | None => None
  end.

Section Handlers.

(** Python's [float] on a string: [None] stands for [ValueError]. *)
Variable float : string → option Py.pyfloat.

(** [x = form.get(key) or None], then [float(x) if x else None] with
    [ValueError] turned into [None]. *)
Definition parse_number (x : option string) : option Py.pyfloat :=
  match get_or_none x with
  | Some s =>
      match float s with
      | Some v => Some v
      | None => None
      end
  | None => None
  end.

(** [parse_range(prefix)] of [kpis] (lines 473-484), on the two fields
    [prefix_min] and [prefix_max]. *)
Definition parse_range (min_val max_val : option string)
    : option Py.pyfloat * option Py.pyfloat :=
  (parse_number min_val, parse_number max_val).

(** [parse_range(prefix)] of [edit_kpi] (lines 566-577). *)
Definition parse_range_edit (min_val max_val : option string)
    : option Py.pyfloat * option Py.pyfloat :=
  (parse_number min_val, parse_number max_val).

Definition set_kpis (d : db) (ks : list kpi) : db :=
  {| empleados := empleados d; puestos := puestos d;
     departamentos := departamentos d; kpis := ks;
     puesto_kpis := puesto_kpis d; kpi_resultados := kpi_resultados d |}.

(** [request.form.get("es_criterio") == "on"], as the store keeps it. *)
Definition es_criterio_of (f : kpi_form) : option Z :=
  Some (if bool_decide (f_es_criterio f = Some "on") then 1 else 0).

(** The [create_kpi] action of [kpis] (lines 464-514): the tables it
    leaves, and the message it flashes or the exception that leaves it.
    The [INSERT] carries seven float parameters; the driver refuses it,
    before it is sent, when one of them is not finite. *)
Definition create_kpi (d : db) (f : kpi_form) : db * Conn.outcome flash :=
  let descripcion := f_descripcion f in
  let unidad := get_or_none (f_unidad_medida f) in
  let objetivo_val := parse_number (f_valor_objetivo f) in
  let '(rojo_min, rojo_max) := parse_range (f_rojo_min f) (f_rojo_max f) in
  let '(amarillo_min, amarillo_max) :=
    parse_range (f_amarillo_min f) (f_amarillo_max f) in
  let '(verde_min, verde_max) := parse_range (f_verde_min f) (f_verde_max f) in
  let es_criterio := es_criterio_of f in
  let departamento_id := f_departamento_id f in
  if negb (Py.truthy_opt_str descripcion) then (d, Conn.Ok DescripcionVacia)
  else if existsb Py.non_finite
            [objetivo_val; rojo_min; rojo_max; amarillo_min; amarillo_max;
             verde_min; verde_max]
  then (d, Conn.Raise Conn.ProgrammingError)
  else
    (set_kpis d
       (kpis d ++
        [ {| k_id := next_id k_id (kpis d);
             k_descripcion := default EmptyString descripcion;
             k_unidad_medida := unidad;
             k_valor_objetivo := Py.finite objetivo_val;
             k_rango_rojo_min := Py.finite rojo_min;
             k_rango_rojo_max := Py.finite rojo_max;
             k_rango_amarillo_min := Py.finite amarillo_min;
             k_rango_amarillo_max := Py.finite amarillo_max;
             k_rango_verde_min := Py.finite verde_min;
             k_rango_verde_max := Py.finite verde_max;
             k_es_criterio := es_criterio;
             k_departamento_id := departamento_id |} ]),
     Conn.Ok KpiCreado).

(** [edit_kpi] (lines 550-608): the [UPDATE ... WHERE id=%s], refused by
    the driver like the [INSERT] of [create_kpi]. *)
Definition edit_kpi (d : db) (kpi_id : Z) (f : kpi_form)
    : db * Conn.outcome flash :=
  let descripcion := f_descripcion f in
  let unidad := get_or_none (f_unidad_medida f) in
  let objetivo_val := parse_number (f_valor_objetivo f) in
  let '(rojo_min, rojo_max) := parse_range_edit (f_rojo_min f) (f_rojo_max f) in
  let '(amarillo_min, amarillo_max) :=
    parse_range_edit (f_amarillo_min f) (f_amarillo_max f) in
  let '(verde_min, verde_max) :=
    parse_range_edit (f_verde_min f) (f_verde_max f) in
  let es_criterio := es_criterio_of f in
  let departamento_id := f_departamento_id f in
  if negb (Py.truthy_opt_str descripcion) then (d, Conn.Ok DescripcionVacia)
  else if existsb Py.non_finite
            [objetivo_val; rojo_min; rojo_max; amarillo_min; amarillo_max;
             verde_min; verde_max]
  then (d, Conn.Raise Conn.ProgrammingError)
  else
    (set_kpis d
       (map (λ k, if k_id k =? kpi_id
                  then {| k_id := k_id k;
                          k_descripcion := default EmptyString descripcion;
                          k_unidad_medida := unidad;
                          k_valor_objetivo := Py.finite objetivo_val;
                          k_rango_rojo_min := Py.finite rojo_min;
                          k_rango_rojo_max := Py.finite rojo_max;
                          k_rango_amarillo_min := Py.finite amarillo_min;
                          k_rango_amarillo_max := Py.finite amarillo_max;
                          k_rango_verde_min := Py.finite verde_min;
                          k_rango_verde_max := Py.finite verde_max;
                          k_es_criterio := es_criterio;
                          k_departamento_id := departamento_id |}
                  else k)
            (kpis d)),
     Conn.Ok KpiActualizado).

End Handlers.

(** The KPI with another id. *)
Definition with_id (id : Z) (k : kpi) : kpi :=
  {| k_id := id; k_descripcion := k_descripcion k;
     k_unidad_medida := k_unidad_medida k;
     k_valor_objetivo := k_valor_objetivo k;
     k_rango_rojo_min := k_rango_rojo_min k;
     k_rango_rojo_max := k_rango_rojo_max k;
     k_rango_amarillo_min := k_rango_amarillo_min k;
     k_rango_amarillo_max := k_rango_amarillo_max k;
     k_rango_verde_min := k_rango_verde_min k;
     k_rango_verde_max := k_rango_verde_max k;
     k_es_criterio := k_es_criterio k;
     k_departamento_id := k_departamento_id k |}.

(** A field that gives no bound: missing, empty, or rejected by [float]
    with a [ValueError]. *)
Definition no_bound (float : string → option Py.pyfloat) (x : option string)
    : Prop :=
  x = None ∨ x = Some EmptyString ∨ ∃ s, x = Some s ∧ float s = None.

(** The numeric fields of the form, as [create_kpi] and [edit_kpi] parse
    them. *)
Definition numbers (float : string → option Py.pyfloat) (f : kpi_form)
    : list (option Py.pyfloat) :=
  map (parse_number float)
      [ f_valor_objetivo f; f_rojo_min f; f_rojo_max f; f_amarillo_min f;
        f_amarillo_max f; f_verde_min f; f_verde_max f ].

(** The driver refuses the statement built from the form. *)
Definition refused (float : string → option Py.pyfloat) (f : kpi_form) : bool :=
  existsb Py.non_finite (numbers float f).

End Kpis.

(* ====================================================================== *)
(** * [puestos]: positions and the KPIs assigned to them *)
(* ====================================================================== *)

Module Puestos.
Import Store.

Inductive flash : Type :=
| NombreVacio
| PuestoCreado
| KpisAsignados
| PuestoActualizado.

(** The [create_puesto] action (lines 627-640); the two ids are [None] when
    their field is missing or empty. *)
Definition create_puesto (d : db) (nombre : option string)
    (departamento_id jefe_puesto_id : option Z) : db * flash :=
  if negb (Py.truthy_opt_str nombre) then (d, NombreVacio)
  else
    (Personal.set_puestos d
       (puestos d ++
        [ {| p_id := next_id p_id (puestos d);
             p_nombre := default EmptyString nombre;
             p_departamento_id := departamento_id;
             p_jefe_puesto_id := jefe_puesto_id |} ]),
     PuestoCreado).

Definition set_puesto_kpis (d : db) (pks : list (Z * Z)) : db :=
  {| empleados := empleados d; puestos := puestos d;
     departamentos := departamentos d; kpis := kpis d;
     puesto_kpis := pks; kpi_resultados := kpi_resultados d |}.

(** The [asignar_kpis] action (lines 642-652): [DELETE FROM puesto_kpis
    WHERE puesto_id=%s], then one [INSERT] per id of [getlist("kpis")].
    The form's [puesto_id] is taken as present. *)
Definition asignar_kpis (d : db) (puesto_id : Z) (kpi_ids : list Z)
    : db * flash :=
  let deleted :=
    List.filter (λ pk : Z * Z, negb (pk.1 =? puesto_id)) (puesto_kpis d) in
  (foldl (λ d' kpi_id,
            set_puesto_kpis d' (puesto_kpis d' ++ [(puesto_id, kpi_id)]))
         (set_puesto_kpis d deleted) kpi_ids,
   KpisAsignados).

(** The [edit_puesto] action (lines 654-673); [puesto_id] is [None] when
    the field is missing ([WHERE id = NULL] matches no row). *)
Definition edit_puesto (d : db) (puesto_id : option Z) (nombre : option string)
    (departamento_id jefe_puesto_id : option Z) : db * flash :=
  if negb (Py.truthy_opt_str nombre) then (d, NombreVacio)
  else
    (Personal.set_puestos d
       (map (λ p, if MisKpis.sql_eq (Some (p_id p)) puesto_id
                  then {| p_id := p_id p;
                          p_nombre := default EmptyString nombre;
                          p_departamento_id := departamento_id;
                          p_jefe_puesto_id := jefe_puesto_id |}
                  else p)
            (puestos d)),
     PuestoActualizado).

(** Lines 699-701: [assigned_map.setdefault(puesto_id, []).append(kpi_id)]
    over the rows of [SELECT puesto_id, kpi_id FROM puesto_kpis]. *)
Definition assigned_map (assignments : list (Z * Z)) : gmap Z (list Z) :=
  foldl (λ m row, <[row.1 := default [] (m !! row.1) ++ [row.2]]> m)
        ∅ assignments.

(** The KPI ids assigned to a position, in row order. *)
Definition kpis_of (assignments : list (Z * Z)) (puesto_id : Z) : list Z :=
  map snd (List.filter (λ pk : Z * Z, pk.1 =? puesto_id) assignments).

End Puestos.

(* ====================================================================== *)
(** * [personal]: editing an employee and paging the list *)
(* ====================================================================== *)

Module PersonalPage.
Import Store.

Inductive flash : Type :=
| NombreVacio
| EmpleadoActualizado.

(** The [edit_empleado] action (lines 744-767); [empleado_id] is [None]
    when the field is missing, the two other ids when missing or empty. *)
Definition edit_empleado (d : db) (empleado_id : option Z)
    (nombre_field : option string) (puesto_id jefe_directo_id : option Z)
    (email_field : option string) : db * flash :=
  let nombre := Personal.or_empty_strip nombre_field in
  let email := Personal.or_none (Personal.or_empty_strip email_field) in
  if negb (Py.truthy_str nombre) then (d, NombreVacio)
  else
    (Personal.set_empleados d
       (map (λ e, if MisKpis.sql_eq (Some (e_id e)) empleado_id
                  then {| e_id := e_id e; e_id_empleado := e_id_empleado e;
                          e_nombre := nombre; e_puesto_id := puesto_id;
                          e_jefe_directo_id := jefe_directo_id;
                          e_email := email |}
                  else e)
            (empleados d)),
     EmpleadoActualizado).





End PersonalPage.

(* ====================================================================== *)
(** * [organigrama_move]: moving an employee to another position *)
(* ====================================================================== *)

Module Move.
Import Store.

(** What the JSON payload holds under one of the two keys: nothing (the
    key is missing, or null), an integer, or a text.  Other JSON values
    (fractions, booleans, arrays, objects) are not covered. *)
Inductive json : Type :=
| JNull
| JNum (z : Z)
| JStr (s : string).

(** Truth value testing of the raw value ([if not emp_id]): a text is true
    when it is not empty, whatever it spells. *)
Definition truthy_json (v : json) : bool :=
  match v with
  | JNull => false
  | JNum z => Py.truthy_int z
  | JStr s => Py.truthy_str s
  end.

Inductive response : Type :=
| DatosIncompletos
| StatusOk
| StoreRefuses.

Definition set_puesto (puesto_id : Z) (e : empleado) : empleado :=
  {| e_id := e_id e; e_id_empleado := e_id_empleado e; e_nombre := e_nombre e;
     e_puesto_id := Some puesto_id; e_jefe_directo_id := e_jefe_directo_id e;
     e_email := e_email e |}.

Definition set_jefe (jefe : option Z) (e : empleado) : empleado :=
  {| e_id := e_id e; e_id_empleado := e_id_empleado e; e_nombre := e_nombre e;
     e_puesto_id := e_puesto_id e; e_jefe_directo_id := jefe;
     e_email := e_email e |}.

Section Handler.

(** The integer the store reads a text as, where the statement compares it
    with or assigns it to an integer column; [None] when the store refuses
    the statement for that text (an exception then leaves the handler at
    its first statement).  One reading serves every statement the value
    is passed to. *)
Variable sql_int : string → option Z.

(** A payload value as a statement parameter. *)
Definition param (v : json) : option Z :=
  match v with
  | JNull => None
  | JNum z => Some z
  | JStr s => sql_int s
  end.

(** [organigrama_move] (lines 969-999) on the two values of the JSON
    payload; [LIMIT 1] takes the first row in storage order.  Each
    statement is committed as it is executed; the function gives the
    tables after the last one. *)
Definition organigrama_move (d : db) (employee_id puesto_id : json)
    : db * response :=
  if negb (truthy_json employee_id) || negb (truthy_json puesto_id)
  then (d, DatosIncompletos)
  else
    match param employee_id, param puesto_id with
    | Some emp_id, Some new_puesto_id =>
        let d1 :=
          Personal.set_empleados d
            (map (λ e, if e_id e =? emp_id then set_puesto new_puesto_id e else e)
                 (empleados d)) in
        let row := head (List.filter (λ p, p_id p =? new_puesto_id) (puestos d1)) in
        let jefe_puesto_id :=
          match row with
          | Some p => p_jefe_puesto_id p
          | None => None
          end in
        let jefe_emp_id :=
          if Py.truthy_opt_int jefe_puesto_id then
            e_id <$> head (List.filter
                             (λ e, MisKpis.sql_eq (e_puesto_id e) jefe_puesto_id)
                             (empleados d1))
          else None in
        (Personal.set_empleados d1
           (map (λ e, if e_id e =? emp_id then set_jefe jefe_emp_id e else e)
                (empleados d1)),
         StatusOk)
    | _, _ => (d, StoreRefuses)
    end.

End Handler.

End Move.

(* ====================================================================== *)
(** * [login], [logout], [require_login], [index] *)
(* ====================================================================== *)

Module Auth.

(** A row of [usuarios]. *)
Record usuario : Type := Usuario {
  u_id : Z;
  u_username : string;
  u_password : option string;
  u_empleado_id : option Z;
  u_rol : option string }.

(** The keys of Flask's [session] the handlers use; [None] when a key is
    not set. *)
Record session : Type := Session {
  user_id : option Z;
  empleado_id : option Z;
  rol : option string }.

Definition empty_session : session :=
  {| user_id := None; empleado_id := None; rol := None |}.

Inductive response : Type :=
| RenderLogin
| RenderLoginFaltanDatos
| RenderLoginIncorrecto
| RedirectMisKpis
| RedirectLogin
| Handled (body : Z).

Inductive request : Type :=
| GET
| POST (username password : option string).

Section Handlers.

(** The store's comparison of the [username] column with the parameter
    (its collation decides about case and trailing blanks). *)
Variable username_eq : string → string → bool.

(** [login] (lines 180-203). *)
Definition login (usuarios : list usuario) (s : session) (req : request)
    : session * response :=
  match req with
  | GET => (s, RenderLogin)
  | POST username password =>
      if negb (Py.truthy_opt_str username) || negb (Py.truthy_opt_str password)
      then (s, RenderLoginFaltanDatos)
      else
        let user :=
          head (List.filter
                  (λ u, username_eq (u_username u) (default EmptyString username))
                  usuarios) in
        match user with
        | Some u =>
            if bool_decide (password = u_password u)
            then ({| user_id := Some (u_id u); empleado_id := u_empleado_id u;
                     rol := u_rol u |}, RedirectMisKpis)
            else (s, RenderLoginIncorrecto)
        | None => (s, RenderLoginIncorrecto)
        end
  end.

End Handlers.

(** [logout] (lines 209-211) *)
Definition logout (s : session) : session * response :=
  (empty_session, RedirectLogin).

(** [require_login] (lines 214-224): the wrapped handler runs only with a
    true [user_id] in the session. *)
Definition require_login {A} (f : A → session → session * response)
    (args : A) (s : session) : session * response :=
  if negb (Py.truthy_opt_int (user_id s)) then (s, RedirectLogin)
  else f args s.

(** [index] (lines 166-168) *)
Definition index (s : session) : response :=
  if Py.truthy_opt_int (user_id s) then RedirectMisKpis else RedirectLogin.

End Auth.

(* ====================================================================== *)
(** * Properties of the classification *)
(* ====================================================================== *)

Section ClassifierFacts.
Import Store Classifier.

Lemma within_matches lo hi v :
  within lo hi v = true ↔ range_matches (lo, hi) v.
Proof.
  unfold within, range_matches. split.
  - destruct lo as [a|]; [|done]. destruct hi as [b|]; [|done].
    intros H. apply andb_true_iff in H as [Ha Hb].
    apply Qle_bool_iff in Ha. apply Qle_bool_iff in Hb.
    by exists a, b.
  - intros (a & b & E & Ha & Hb). inversion E; subst.
    apply andb_true_iff. split; by apply Qle_bool_iff.
Qed.

Lemma within_half_open lo hi v :
  half_open (lo, hi) → within lo hi v = false.
Proof.
  unfold half_open, within. simpl.
  intros [-> | ->]; [done|]. by destruct lo.
Qed.

(** The colour of a metric row with a value, as nested tests. *)
Lemma compute_color_metric row v :
  Py.truthy_opt_int (es_criterio row) = false →
  valor row = Some v →
  compute_color row =
    if within (rango_verde_min row) (rango_verde_max row) v then Some success
    else if within (rango_amarillo_min row) (rango_amarillo_max row) v
    then Some warning
    else if within (rango_rojo_min row) (rango_rojo_max row) v then Some danger
    else None.
Proof. intros Hc Hv. unfold compute_color. by rewrite Hc, Hv. Qed.

End ClassifierFacts.

(* ====================================================================== *)
(** * The colours on the page *)
(* ====================================================================== *)

Section ColourFacts.
Import Store Classifier Conn MisKpis.
Variable float : string → option Py.pyfloat.
Variable descripcion_leb : string → string → bool.

Lemma yields_ret {A} (Q : A → Prop) (a : A) : Q a → yields Q (mret a).
Proof. intros H c a' c' [= <- <-]. exact H. Qed.

Lemma yields_bind {A B} (Q : B → Prop) (m : M A) (k : A → M B) :
  (∀ a, yields Q (k a)) → yields Q (m ≫= k).
Proof.
  intros Hk c b c'. unfold mbind, M_bind, bind.
  destruct (m c) as [[a|e] c1]; [apply Hk|discriminate].
Qed.

Lemma yields_bind_with {A B} (P : A → Prop) (Q : B → Prop) (m : M A)
    (k : A → M B) :
  yields P m → (∀ a, P a → yields Q (k a)) → yields Q (m ≫= k).
Proof.
  intros Hm Hk c b c'. unfold mbind, M_bind, bind.
  destruct (m c) as [[a|e] c1] eqn:E; [|discriminate].
  apply Hk. exact (Hm _ _ _ E).
Qed.

Lemma yields_for_collect {A B} (Q : B → Prop) (xs : list A) (body : A → M B) :
  (∀ x, yields Q (body x)) → yields (Forall Q) (for_collect xs body).
Proof.
  intros Hb. induction xs as [|x xs IH]; simpl.
  - by apply yields_ret.
  - apply (yields_bind_with Q); [apply Hb|]. intros y Hy.
    apply (yields_bind_with (Forall Q)); [exact IH|]. intros ys Hys.
    apply yields_ret. by constructor.
Qed.

Lemma with_color_coloured rows : Forall coloured (map with_color rows).
Proof. apply Forall_fmap, Forall_forall. by intros row _. Qed.

Lemma subordinates_of_coloured period puesto_id :
  yields (λ r : list Z * list (emp_row * list kpi_view),
            Forall (λ sub : emp_row * list kpi_view, Forall coloured sub.2) r.2)
         (subordinates_of descripcion_leb period puesto_id).
Proof.
  unfold subordinates_of. apply yields_bind. intros subordinate_puestos.
  destruct (Py.truthy_list subordinate_puestos); [|by apply yields_ret].
  apply yields_bind. intros subordinate_emps.
  eapply yields_bind_with.
  - apply (yields_for_collect
             (λ sub : emp_row * list kpi_view, Forall coloured sub.2)).
    intros sub. apply yields_bind. intros raw. apply yields_ret.
    apply with_color_coloured.
  - intros data Hdata. by apply yields_ret.
Qed.

(** Both loops of the page (the employee's own KPIs and each subordinate's)
    colour their rows with [compute_color]. *)
Lemma mis_kpis_page_coloured server link sess today r d lg :
  mis_kpis float descripcion_leb server link sess today GET = (Ok r, d, lg) →
  page_coloured r.
Proof.
  unfold mis_kpis. destruct sess as [eid|]; [|by intros [= <- _ _]].
  destruct (mis_kpis_get _ _ _ _) as [r' c'] eqn:E. intros [= -> _ _].
  revert E. generalize (get_db_connection server link). intros c E.
  enough (yields page_coloured
            (mis_kpis_get descripcion_leb eid (current_period today)))
    as H by exact (H _ _ _ E).
  unfold mis_kpis_get. apply yields_bind. intros [emp|]; [|by apply yields_ret].
  destruct (negb _); [by apply yields_ret|].
  apply yields_bind. intros raw.
  eapply yields_bind_with; [apply subordinates_of_coloured|].
  intros subs Hsubs. apply yields_ret. split; [apply with_color_coloured|done].
Qed.

End ColourFacts.

(** C2: for a row that is not qualitative and has the numeric value [v], the
    colour is the status of the first of the ranges green, yellow, red (in
    that order) whose two bounds are present and enclose [v], bounds
    included, and no colour when none does.  In particular a value in both
    the green and the yellow range is green, and a range that lacks a bound
    never gives its status. *)
Theorem C2_first_matching_range (row : Classifier.kpi_row) (v : Q) :
  Py.truthy_opt_int (Classifier.es_criterio row) = false →
  Classifier.valor row = Some v →
  let color := Classifier.compute_color row in
  let green := Classifier.range_matches (Classifier.verde row) v in
  let yellow := Classifier.range_matches (Classifier.amarillo row) v in
  let red := Classifier.range_matches (Classifier.rojo row) v in
  color = Classifier.first_matching (Classifier.priority row) v
  ∧ (color = Some Classifier.success ↔ green)
  ∧ (color = Some Classifier.warning ↔ ¬ green ∧ yellow)
  ∧ (color = Some Classifier.danger ↔ ¬ green ∧ ¬ yellow ∧ red)
  ∧ (color = None ↔ ¬ green ∧ ¬ yellow ∧ ¬ red)
  ∧ (green → yellow → color = Some Classifier.success)
  ∧ (Classifier.half_open (Classifier.verde row) → color ≠ Some Classifier.success)
  ∧ (Classifier.half_open (Classifier.amarillo row) → color ≠ Some Classifier.warning)
  ∧ (Classifier.half_open (Classifier.rojo row) → color ≠ Some Classifier.danger).
Proof.
  intros Hc Hv. cbv zeta.
  rewrite (compute_color_metric row v Hc Hv).
  unfold Classifier.priority, Classifier.first_matching,
    Classifier.verde, Classifier.amarillo, Classifier.rojo.
  pose proof (within_matches (Classifier.rango_verde_min row)
                (Classifier.rango_verde_max row) v) as Hg.
  pose proof (within_matches (Classifier.rango_amarillo_min row)
                (Classifier.rango_amarillo_max row) v) as Hy.
  pose proof (within_matches (Classifier.rango_rojo_min row)
                (Classifier.rango_rojo_max row) v) as Hr.
  pose proof (within_half_open (Classifier.rango_verde_min row)
                (Classifier.rango_verde_max row) v) as Hg'.
  pose proof (within_half_open (Classifier.rango_amarillo_min row)
                (Classifier.rango_amarillo_max row) v) as Hy'.
  pose proof (within_half_open (Classifier.rango_rojo_min row)
                (Classifier.rango_rojo_max row) v) as Hr'.
  destruct (Classifier.within (Classifier.rango_verde_min row) _ v) eqn:Eg;
  destruct (Classifier.within (Classifier.rango_amarillo_min row) _ v) eqn:Ey;
  destruct (Classifier.within (Classifier.rango_rojo_min row) _ v) eqn:Er;
  repeat case_decide; intuition congruence.
Qed.

(** C2 at the second example of the specification: 55 with yellow [50,70]
    and red [0,49] is yellow. *)
Lemma C2_first_matching_range_witness :
  let row :=
    {| Classifier.id := 1; Classifier.descripcion := "ventas";
       Classifier.unidad_medida := None; Classifier.valor_objetivo := None;
       Classifier.rango_rojo_min := Some (0 # 1);
       Classifier.rango_rojo_max := Some (49 # 1);
       Classifier.rango_amarillo_min := Some (50 # 1);
       Classifier.rango_amarillo_max := Some (70 # 1);
       Classifier.rango_verde_min := None;
       Classifier.rango_verde_max := None;
       Classifier.es_criterio := Some 0;
       Classifier.valor := Some (55 # 1);
       Classifier.texto_resultado := None |} in
  Classifier.compute_color row = Some Classifier.warning
  ∧ Classifier.compute_color row
    = Classifier.first_matching (Classifier.priority row) (55 # 1).
Proof.
  intros row. split; [reflexivity|].
  exact (proj1 (C2_first_matching_range row (55 # 1) eq_refl eq_refl)).
Defined.

(** C4: a row that is qualitative ([es_criterio] true) or has no value gets
    no colour, whatever its three ranges are. *)
Theorem C4_qualitative_or_missing_is_none (row : Classifier.kpi_row) :
  Py.truthy_opt_int (Classifier.es_criterio row) = true
  ∨ Classifier.valor row = None →
  Classifier.compute_color row = None.
Proof.
  unfold Classifier.compute_color.
  intros [-> | ->]; [done|].
  by destruct (negb _).
Qed.

(** C4 at a qualitative row whose value lies in its green range. *)
Lemma C4_qualitative_or_missing_is_none_witness :
  Classifier.compute_color
    {| Classifier.id := 1; Classifier.descripcion := "actitud";
       Classifier.unidad_medida := None; Classifier.valor_objetivo := None;
       Classifier.rango_rojo_min := None; Classifier.rango_rojo_max := None;
       Classifier.rango_amarillo_min := None;
       Classifier.rango_amarillo_max := None;
       Classifier.rango_verde_min := Some (80 # 1);
       Classifier.rango_verde_max := Some (100 # 1);
       Classifier.es_criterio := Some 1;
       Classifier.valor := Some (85 # 1);
       Classifier.texto_resultado := Some "bien" |} = None.
Proof. apply C4_qualitative_or_missing_is_none. left. reflexivity. Defined.

(* ====================================================================== *)
(** * Running code on a connection *)
(* ====================================================================== *)

Section ConnFacts.
Import Store Conn.

Lemma execute_up {A} s (rd : db → A) wr c :
  link c ≠ Some O →
  execute s rd wr c = (Ok (rd (working c)), advance s wr c).
Proof. unfold execute. by destruct (link c) as [[|n]|]. Qed.

Lemma execute_down {A} s (rd : db → A) wr c :
  link c = Some O →
  execute s rd wr c = (Raise OperationalError, c).
Proof. unfold execute. by intros ->. Qed.

Lemma bind_ok {A B} (m : M A) (k : A → M B) c a c' :
  m c = (Ok a, c') → (m ≫= k) c = k a c'.
Proof. unfold mbind, M_bind, bind. by intros ->. Qed.

Lemma bind_raise {A B} (m : M A) (k : A → M B) c e c' :
  m c = (Raise e, c') → (m ≫= k) c = (Raise e, c').
Proof. unfold mbind, M_bind, bind. by intros ->. Qed.

Lemma preserves_ret {A} P (a : A) : preserves P (mret a).
Proof. intros c r c' HP [= <- <-]. exact HP. Qed.

Lemma preserves_bind {A B} P (m : M A) (k : A → M B) :
  preserves P m → (∀ a, preserves P (k a)) → preserves P (m ≫= k).
Proof.
  intros Hm Hk c r c' HP. unfold mbind, M_bind, bind.
  destruct (m c) as [[a|e] c1] eqn:E.
  - intros Hrun. exact (Hk a c1 r c' (Hm _ _ _ HP E) Hrun).
  - intros [= <- <-]. exact (Hm _ _ _ HP E).
Qed.

Lemma preserves_execute {A} P s (rd : db → A) wr :
  (∀ c, P c → P (advance s wr c)) → preserves P (execute s rd wr).
Proof.
  intros H c r c' HP. unfold execute.
  destruct (link c) as [[|n]|]; intros [= <- <-]; auto.
Qed.

Lemma preserves_escape_float P x : preserves P (escape_float x).
Proof.
  intros c r c' HP. unfold escape_float.
  destruct x as [[q|]|]; by intros [= <- <-].
Qed.

Lemma preserves_for_each {A} P (xs : list A) (body : A → M unit) :
  (∀ x, preserves P (body x)) → preserves P (for_each xs body).
Proof.
  intros Hb. induction xs as [|x xs IH]; simpl.
  - apply preserves_ret.
  - apply preserves_bind; [apply Hb | intros _; exact IH].
Qed.

Lemma preserves_for_collect {A B} P (xs : list A) (body : A → M B) :
  (∀ x, preserves P (body x)) → preserves P (for_collect xs body).
Proof.
  intros Hb. induction xs as [|x xs IH]; simpl.
  - apply preserves_ret.
  - apply preserves_bind; [apply Hb | intros y].
    apply preserves_bind; [exact IH | intros ys; apply preserves_ret].
Qed.

Lemma autocommitted_open server link :
  autocommitted (get_db_connection server link).
Proof. by split. Qed.

Lemma autocommitted_advance s wr c :
  autocommitted c → autocommitted (advance s wr c).
Proof. intros [Hc Hd]. split; simpl; [done|]. by rewrite Hc. Qed.

End ConnFacts.

(* ====================================================================== *)
(** * The page of [mis_kpis]: subordinates and the statements sent *)
(* ====================================================================== *)

Section PageFacts.
Import Store Classifier Conn MisKpis.
Variable float : string → option Py.pyfloat.
Variable descripcion_leb : string → string → bool.

Lemma log_fine_advance s wr c :
  not_in_nothing s → log_fine c → log_fine (advance s wr c).
Proof.
  intros Hs Hc. unfold log_fine. simpl.
  apply Forall_app. split; [exact Hc | by constructor].
Qed.

Lemma sub_puestos_rows_none d k :
  (∀ p, p ∈ puestos d → p_jefe_puesto_id p ≠ Some k) →
  sub_puestos_rows d (Some k) = [].
Proof.
  unfold sub_puestos_rows. induction (puestos d) as [|p ps IH]; [done|].
  intros H. simpl.
  assert (sql_eq (p_jefe_puesto_id p) (Some k) = false) as ->.
  { specialize (H p (list_elem_of_here _ _)). unfold sql_eq.
    destruct (p_jefe_puesto_id p) as [j|]; [|done].
    apply Z.eqb_neq. congruence. }
  apply IH. intros q Hq. apply H. by apply list_elem_of_further.
Qed.

Lemma subordinates_of_fine period puesto_id :
  preserves log_fine (subordinates_of descripcion_leb period puesto_id).
Proof.
  unfold subordinates_of.
  apply preserves_bind.
  { apply preserves_execute. intros c. by apply log_fine_advance. }
  intros [|x xs]; simpl; [apply preserves_ret|].
  apply preserves_bind.
  { apply preserves_execute. intros c. by apply log_fine_advance. }
  intros emps. apply preserves_bind; [|intros; apply preserves_ret].
  apply preserves_for_collect. intros sub.
  apply preserves_bind; [|intros; apply preserves_ret].
  apply preserves_execute. intros c. by apply log_fine_advance.
Qed.

Lemma mis_kpis_get_fine empleado_id period :
  preserves log_fine (mis_kpis_get descripcion_leb empleado_id period).
Proof.
  unfold mis_kpis_get.
  apply preserves_bind.
  { apply preserves_execute. intros c. by apply log_fine_advance. }
  intros [emp|]; [|apply preserves_ret].
  destruct (negb _); [apply preserves_ret|].
  apply preserves_bind.
  { apply preserves_execute. intros c. by apply log_fine_advance. }
  intros raw. apply preserves_bind; [apply subordinates_of_fine|].
  intros; apply preserves_ret.
Qed.

Lemma submit_one_fine target period t :
  preserves log_fine (submit_one float target period t).
Proof.
  destruct t as [[kpi_id valor] texto]. unfold submit_one.
  apply preserves_bind.
  { apply preserves_execute. intros c. by apply log_fine_advance. }
  intros row. apply preserves_bind.
  { apply preserves_execute. intros c. by apply log_fine_advance. }
  unfold update_resultado, insert_resultado.
  intros [id|];
    (apply preserves_bind; [apply preserves_escape_float|]; intros v;
     apply preserves_execute; intros c; by apply log_fine_advance).
Qed.

Lemma mis_kpis_post_fine empleado_id period f :
  preserves log_fine (mis_kpis_post float empleado_id period f).
Proof.
  unfold mis_kpis_post. apply preserves_bind.
  - apply preserves_for_each. intros t. apply submit_one_fine.
  - intros; apply preserves_ret.
Qed.

Lemma mis_kpis_log_fine server link sess today req :
  Forall not_in_nothing
    (mis_kpis float descripcion_leb server link sess today req).2.
Proof.
  unfold mis_kpis. destruct sess as [eid|]; [|by constructor].
  destruct req as [|f].
  - destruct (mis_kpis_get _ _ _ _) as [r c'] eqn:E. simpl.
    eapply mis_kpis_get_fine; [|exact E]. by constructor.
  - destruct (mis_kpis_post _ _ _ _ _) as [r c'] eqn:E. simpl.
    eapply mis_kpis_post_fine; [|exact E]. by constructor.
Qed.

End PageFacts.

(** C9: a position no other position reports to has no direct subordinate
    positions ([SELECT id FROM puestos WHERE jefe_puesto_id = %s] is empty);
    the page of an employee at such a position is then built with an empty
    subordinate list and without sending the membership query at all,
    whether or not the connection survives; and no run of [mis_kpis] ever
    sends the membership query with an empty id list. *)
Theorem C9_no_children_no_membership_lookup
    (float : string → option Py.pyfloat) (descripcion_leb : string → string → bool) :
  (∀ d k, (∀ p, p ∈ Store.puestos d → Store.p_jefe_puesto_id p ≠ Some k) →
          MisKpis.sub_puestos_rows d (Some k) = [])
  ∧ (∀ server link eid today emp k,
       head (MisKpis.empleado_puesto_rows server eid) = Some emp →
       MisKpis.er_puesto_id emp = Some k →
       (∀ p, p ∈ Store.puestos server → Store.p_jefe_puesto_id p ≠ Some k) →
       let '(r, _, lg) :=
         MisKpis.mis_kpis float descripcion_leb server link (Some eid) today
                          MisKpis.GET in
       (∀ ids, Conn.SelectEmpleadosIn ids ∉ lg)
       ∧ (∀ my_kpis empleado subordinates period,
            r = Conn.Ok (MisKpis.RenderMisKpis my_kpis empleado subordinates period) →
            subordinates = [])
       ∧ (link = None → k ≠ 0 →
          ∃ my_kpis,
            r = Conn.Ok (MisKpis.RenderMisKpis my_kpis emp []
                           (Store.current_period today))))
  ∧ (∀ server link sess today req ids,
       Conn.SelectEmpleadosIn ids
         ∈ (MisKpis.mis_kpis float descripcion_leb server link sess today req).2 →
       ids ≠ []).
Proof.
  split; [exact sub_puestos_rows_none|]. split.
  - intros server link eid today emp k Hemp Hk Hnone.
    pose proof (sub_puestos_rows_none server k Hnone) as Hsub.
    unfold MisKpis.mis_kpis, MisKpis.mis_kpis_get, MisKpis.subordinates_of,
      MisKpis.select_empleado_puesto, MisKpis.select_kpis_puesto,
      MisKpis.select_sub_puestos, Conn.get_db_connection.
    unfold mbind, mret, Conn.M_bind, Conn.M_ret, Conn.bind, Conn.ret,
      Conn.execute, Conn.advance, Conn.close.
    destruct link as [[|[|[|n]]]|]; simpl; rewrite ?Hemp, ?Hk; simpl;
      destruct (Py.truthy_int k) eqn:Et; simpl; rewrite ?Hsub; simpl;
      (split; [intros ids Hin;
               repeat (apply elem_of_cons in Hin as [Hin|Hin]; [discriminate Hin|]);
               by apply elem_of_nil in Hin|]);
      (split; [intros; congruence|]);
      try (intros; congruence); intros _ Hk0; eauto;
      apply negb_false_iff, Z.eqb_eq in Et; congruence.
  - intros server link sess today req ids Hin Hids. subst ids.
    pose proof (mis_kpis_log_fine float descripcion_leb server link sess today req) as H.
    rewrite Forall_forall in H. by apply (H _ Hin).
Qed.

(* ====================================================================== *)
(** * The submission loop of [mis_kpis] *)
(* ====================================================================== *)

Section SubmitFacts.
Import Store Conn MisKpis.
Variable float : string → option Py.pyfloat.
Variable descripcion_leb : string → string → bool.

Lemma advance_autocommitted s wr c :
  autocommitted c →
  advance s wr c
  = MkConn DB_CONFIG (wr (working c)) (wr (working c)) (pred <$> link c)
           (log c ++ [s]).
Proof. intros [Hc Hd]. unfold advance. by rewrite Hc. Qed.

(** One pass of the loop on a connection that carries three more
    statements: all three are executed and committed. *)
Lemma submit_one_up target period t c :
  autocommitted c →
  refused float (working c) t = false →
  (∀ k, link c = Some k → (3 ≤ k)%nat) →
  submit_one float target period t c
  = (Ok tt,
     MkConn DB_CONFIG (upsert float target period (working c) t)
       (upsert float target period (working c) t)
       (pred <$> (pred <$> (pred <$> link c)))
       (log c ++ upsert_stmts float target period (working c) t)).
Proof.
  intros Hauto Href Hlink. destruct t as [[kpi_id valor] texto].
  destruct c as [cf du wk lk lg]. destruct Hauto as [Hc Hd].
  simpl in Hc, Hd, Hlink, Href. subst cf du.
  assert (lk = None ∨ ∃ n, lk = Some (S (S (S n)))) as Hlk.
  { destruct lk as [[|[|[|n]]]|]; eauto;
      specialize (Hlink _ eq_refl); lia. }
  unfold refused, is_criterio in Href. simpl in Href.
  unfold submit_one, select_es_criterio, select_resultado_id,
    update_resultado, insert_resultado, upsert, upsert_stmts, upsert_parts.
  unfold mbind, M_bind, bind, execute, advance, escape_float.
  destruct Hlk as [-> | [n ->]]; simpl;
    destruct (head (List.filter (λ k, k_id k =? kpi_id) (kpis wk)))
      as [k0|]; simpl in *;
    try destruct (Py.truthy_opt_int (k_es_criterio k0)); simpl in *;
    try (destruct (parse_valor float valor) as [[q|]|]; [|discriminate|];
         simpl);
    destruct (head (List.filter (result_key target kpi_id period)
                                (kpi_resultados wk))) as [r0|]; simpl;
    by rewrite <- !app_assoc.
Qed.

(** One pass whose write the driver refuses, on a connection that carries
    the two queries before it: they are sent, the write is not, and the
    tables are as before. *)
Lemma submit_one_refused target period t c :
  autocommitted c →
  refused float (working c) t = true →
  (∀ k, link c = Some k → (2 ≤ k)%nat) →
  submit_one float target period t c
  = (Raise ProgrammingError,
     MkConn DB_CONFIG (working c) (working c)
       (pred <$> (pred <$> link c))
       (log c ++ [ SelectEsCriterio t.1.1;
                   SelectResultadoId target t.1.1 period ])).
Proof.
  intros Hauto Href Hlink. destruct t as [[kpi_id valor] texto].
  destruct c as [cf du wk lk lg]. destruct Hauto as [Hc Hd].
  simpl in Hc, Hd, Hlink, Href. subst cf du.
  assert (lk = None ∨ ∃ n, lk = Some (S (S n))) as Hlk.
  { destruct lk as [[|[|n]]|]; eauto; specialize (Hlink _ eq_refl); lia. }
  unfold refused, is_criterio in Href. simpl in Href.
  unfold submit_one, select_es_criterio, select_resultado_id,
    update_resultado, insert_resultado.
  unfold mbind, M_bind, bind, execute, advance, escape_float.
  destruct Hlk as [-> | [n ->]]; simpl;
    destruct (head (List.filter (λ k, k_id k =? kpi_id) (kpis wk)))
      as [k0|]; simpl in *;
    try (destruct (Py.truthy_opt_int (k_es_criterio k0)); [discriminate|]);
    simpl in *;
    (destruct (parse_valor float valor) as [[q|]|]; [discriminate| |discriminate]);
    destruct (head (List.filter (result_key target kpi_id period)
                                (kpi_resultados wk))) as [r0|]; simpl;
    by rewrite <- !app_assoc.
Qed.

(** One pass on a lost connection: the first statement raises and nothing
    changes. *)
Lemma submit_one_down target period t c :
  link c = Some O →
  submit_one float target period t c = (Raise OperationalError, c).
Proof.
  intros Hl. destruct t as [[kpi_id valor] texto].
  unfold submit_one, select_es_criterio.
  by rewrite (bind_raise _ _ c OperationalError c) by by apply execute_down.
Qed.

Lemma kpis_upsert target period d t :
  kpis (upsert float target period d t) = kpis d.
Proof.
  unfold upsert. destruct (upsert_parts _ _ _ _ _) as [[v x] [id|]]; done.
Qed.

Lemma kpis_foldl_upsert target period batch d :
  kpis (foldl (upsert float target period) d batch) = kpis d.
Proof.
  revert d. induction batch as [|t batch IH]; intros d; [done|].
  simpl. by rewrite IH, kpis_upsert.
Qed.

Lemma is_criterio_foldl_upsert target period batch d kpi_id :
  is_criterio (foldl (upsert float target period) d batch) kpi_id
  = is_criterio d kpi_id.
Proof. unfold is_criterio. by rewrite kpis_foldl_upsert. Qed.

(** Whether a write is refused depends on the KPI catalogue only, which
    the loop does not touch. *)
Lemma refused_kpis d d' t :
  kpis d' = kpis d → refused float d' t = refused float d t.
Proof. intros H. unfold refused, is_criterio. by rewrite H. Qed.

Lemma accepted_kpis d d' batch :
  kpis d' = kpis d → accepted float d' batch = accepted float d batch.
Proof.
  intros H. induction batch as [|t batch IH]; [done|]. simpl.
  by rewrite (refused_kpis d d' t H), IH.
Qed.

Lemma all_accepted_kpis d d' batch :
  kpis d' = kpis d → all_accepted float d' batch = all_accepted float d batch.
Proof.
  intros H. unfold all_accepted. induction batch as [|t batch IH]; [done|].
  simpl. by rewrite (refused_kpis d d' t H), IH.
Qed.

Lemma all_accepted_cons d t batch :
  all_accepted float d (t :: batch) = true
  ↔ refused float d t = false ∧ all_accepted float d batch = true.
Proof.
  unfold all_accepted. simpl. by rewrite andb_true_iff, negb_true_iff.
Qed.

Lemma all_accepted_app d b1 b2 :
  all_accepted float d (b1 ++ b2) = true
  ↔ all_accepted float d b1 = true ∧ all_accepted float d b2 = true.
Proof. unfold all_accepted. by rewrite forallb_app, andb_true_iff. Qed.

Lemma accepted_all d batch :
  all_accepted float d batch = true ↔ accepted float d batch = batch.
Proof.
  induction batch as [|t batch IH]; [done|].
  rewrite all_accepted_cons. simpl.
  destruct (refused float d t); [split; [by intros [? _]|done]|].
  rewrite IH. split; [by intros [_ ->]|]. by intros [= ->].
Qed.

(** The accepted triples are a prefix of the batch, each of them accepted. *)
Lemma accepted_prefix d batch :
  accepted float d batch = take (length (accepted float d batch)) batch
  ∧ all_accepted float d (accepted float d batch) = true.
Proof.
  induction batch as [|t batch [IH1 IH2]]; [done|]. simpl.
  destruct (refused float d t) eqn:E; [done|].
  split; [simpl; by f_equal|].
  by apply all_accepted_cons.
Qed.

Lemma all_accepted_take d batch k :
  (k ≤ length (accepted float d batch))%nat →
  all_accepted float d (take k batch) = true.
Proof.
  revert k. induction batch as [|t batch IH]; intros k Hk;
    [by rewrite take_nil|].
  destruct k as [|k]; [done|]. simpl in Hk.
  destruct (refused float d t) eqn:E; [simpl in Hk; lia|].
  change (take (S k) (t :: batch)) with (t :: take k batch).
  apply all_accepted_cons. split; [done|]. apply IH. simpl in Hk. lia.
Qed.

(** The whole loop on a connection that is never lost, when no write is
    refused. *)
Lemma for_each_submit_healthy target period batch c :
  autocommitted c → link c = None →
  all_accepted float (working c) batch = true →
  for_each batch (submit_one float target period) c
  = (Ok tt,
     MkConn DB_CONFIG (foldl (upsert float target period) (working c) batch)
       (foldl (upsert float target period) (working c) batch)
       None
       (log c ++ batch_stmts float target period (working c) batch)).
Proof.
  revert c. induction batch as [|t batch IH]; intros c Hauto Hlink Hall.
  - simpl. rewrite app_nil_r. destruct c as [cf du wk lk lg].
    destruct Hauto as [Hc Hd]. simpl in *. by subst.
  - apply all_accepted_cons in Hall as [Ht Hall].
    simpl for_each.
    rewrite (bind_ok _ _ c tt _ (submit_one_up target period t c Hauto Ht
               ltac:(intros k Hk; congruence))).
    rewrite Hlink. simpl fmap.
    rewrite IH; [|by split|done|].
    + simpl. by rewrite <- app_assoc.
    + simpl. by rewrite (all_accepted_kpis (working c)) by apply kpis_upsert.
Qed.

Lemma accepted_length d batch :
  all_accepted float d batch = true →
  length (accepted float d batch) = length batch.
Proof. intros H%accepted_all. by rewrite H. Qed.

(** The whole loop on a connection that is never lost: the accepted
    triples are applied; at the first refused write the loop is left with
    [ProgrammingError], after the two queries of that pass. *)
Lemma for_each_submit_none target period batch c :
  autocommitted c → link c = None →
  let good := accepted float (working c) batch in
  for_each batch (submit_one float target period) c
  = (if all_accepted float (working c) batch then Ok tt
     else Raise ProgrammingError,
     MkConn DB_CONFIG (foldl (upsert float target period) (working c) good)
       (foldl (upsert float target period) (working c) good)
       None
       (log c ++ batch_stmts float target period (working c) good
              ++ queries_at target period batch (length good))).
Proof.
  revert c. induction batch as [|t batch IH]; intros c Hauto Hlink good.
  - simpl. rewrite !app_nil_r.
    destruct c as [cf du wk lk lg]. destruct Hauto as [Hc Hd]. simpl in *.
    by subst.
  - unfold good, all_accepted. simpl accepted. simpl forallb.
    destruct (refused float (working c) t) eqn:Ht.
    + simpl for_each.
      rewrite (bind_raise _ _ c ProgrammingError _
                 (submit_one_refused target period t c Hauto Ht
                    ltac:(intros k Hk; congruence))).
      rewrite Hlink. reflexivity.
    + simpl for_each.
      rewrite (bind_ok _ _ c tt _ (submit_one_up target period t c Hauto Ht
                 ltac:(intros k Hk; congruence))).
      rewrite Hlink. simpl fmap.
      rewrite IH; [|by split|done]. simpl working.
      rewrite (accepted_kpis (working c)) by apply kpis_upsert.
      rewrite (all_accepted_kpis (working c)) by apply kpis_upsert.
      simpl. by rewrite <- !app_assoc.
Qed.

Lemma zip3_form_of target batch :
  zip3 (kpi_ids (form_of target batch)) (values (form_of target batch))
       (textos (form_of target batch)) = batch.
Proof.
  unfold form_of. simpl. induction batch as [|[[a b] c] batch IH]; [done|].
  simpl. by rewrite IH.
Qed.

(** The POST on a healthy connection, when no write is refused: every
    triple of the form is applied in order, and the request succeeds. *)
Lemma mis_kpis_post_healthy server e today f :
  let target := default e (target_empleado_id f) in
  let period := current_period today in
  let batch := zip3 (kpi_ids f) (values f) (textos f) in
  all_accepted float server batch = true →
  mis_kpis float descripcion_leb server None (Some e) today (POST f)
  = (Ok RedirectMisKpis,
     foldl (upsert float target period) server batch,
     batch_stmts float target period server batch).
Proof.
  intros target period batch Hall. unfold mis_kpis, mis_kpis_post.
  assert (match target_empleado_id f with Some t => t | None => e end = target)
    as -> by (unfold target; by destruct (target_empleado_id f)).
  fold period. fold batch.
  rewrite (bind_ok _ _ _ tt _
             (for_each_submit_healthy target period batch
                (get_db_connection server None)
                (autocommitted_open server None) eq_refl Hall)).
  reflexivity.
Qed.

(** The POST on a healthy connection, whatever the values: the accepted
    triples are applied; when a write is refused the request fails with
    [ProgrammingError] and the triples from that one on are not applied. *)
Lemma mis_kpis_post_none server e today f :
  let target := default e (target_empleado_id f) in
  let period := current_period today in
  let batch := zip3 (kpi_ids f) (values f) (textos f) in
  let good := accepted float server batch in
  mis_kpis float descripcion_leb server None (Some e) today (POST f)
  = (if all_accepted float server batch then Ok RedirectMisKpis
     else Raise ProgrammingError,
     foldl (upsert float target period) server good,
     batch_stmts float target period server good
     ++ queries_at target period batch (length good)).
Proof.
  intros target period batch good. unfold mis_kpis, mis_kpis_post.
  assert (match target_empleado_id f with Some t => t | None => e end = target)
    as -> by (unfold target; by destruct (target_empleado_id f)).
  fold period. fold batch.
  pose proof (for_each_submit_none target period batch
                (get_db_connection server None)
                (autocommitted_open server None) eq_refl) as Hrun.
  simpl in Hrun. fold good in Hrun.
  unfold mbind, M_bind, bind. rewrite Hrun.
  by destruct (all_accepted float server batch).
Qed.

(** ** What one pass leaves in the tables *)

Lemma upsert_parts_unfold target period d kpi_id valor texto :
  upsert_parts float target period d (kpi_id, valor, texto)
  = (if is_criterio d kpi_id then None else Py.finite (parse_valor float valor),
     if is_criterio d kpi_id then Some texto else None,
     r_id <$> head (results_for d target kpi_id period)).
Proof.
  unfold upsert_parts, is_criterio, results_for.
  by destruct (head (List.filter _ (kpis d))).
Qed.

Lemma result_key_set_valor target kpi_id period v x r :
  result_key target kpi_id period (set_valor v x r)
  = result_key target kpi_id period r.
Proof. done. Qed.

Lemma filter_key_update target kpi_id period v x id rs :
  List.filter (result_key target kpi_id period)
    (map (λ r, if r_id r =? id then set_valor v x r else r) rs)
  = map (λ r, if r_id r =? id then set_valor v x r else r)
        (List.filter (result_key target kpi_id period) rs).
Proof.
  induction rs as [|r rs IH]; [done|]. simpl.
  assert (result_key target kpi_id period
            (if r_id r =? id then set_valor v x r else r)
          = result_key target kpi_id period r) as ->
    by by destruct (r_id r =? id).
  destruct (result_key target kpi_id period r); simpl; by rewrite IH.
Qed.

Lemma result_key_new target kpi_id period i v x c cp :
  result_key target kpi_id period
    (KpiResultado i target kpi_id period v x c cp) = true.
Proof.
  unfold result_key. simpl. rewrite !Z.eqb_refl. simpl.
  by apply bool_decide_eq_true.
Qed.

Lemma head_filter_none {A} (f : A → bool) (g : A → Z) l :
  g <$> head (List.filter f l) = None → List.filter f l = [].
Proof. by destruct (List.filter f l). Qed.

(** After a pass, the first row for the key carries what the pass wrote. *)
Lemma upsert_head target period d kpi_id valor texto :
  ∃ r, head (results_for (upsert float target period d (kpi_id, valor, texto))
                         target kpi_id period) = Some r
       ∧ r_valor r = (if is_criterio d kpi_id then None
                      else Py.finite (parse_valor float valor))
       ∧ r_texto_resultado r = (if is_criterio d kpi_id then Some texto
                                else None).
Proof.
  unfold upsert. rewrite upsert_parts_unfold. unfold results_for at 1.
  destruct (head (results_for d target kpi_id period)) as [r0|] eqn:E; simpl.
  - rewrite filter_key_update. fold (results_for d target kpi_id period).
    destruct (results_for d target kpi_id period) as [|r1 rs]; [done|].
    simpl in E. injection E as ->. simpl. rewrite Z.eqb_refl. eauto.
  - rewrite List.filter_app. fold (results_for d target kpi_id period).
    assert (results_for d target kpi_id period = []) as ->
      by by destruct (results_for d target kpi_id period).
    simpl. rewrite result_key_new. simpl. eauto.
Qed.

Lemma parse_valor_failure valor :
  float valor = None → parse_valor float valor = None.
Proof. unfold parse_valor. intros ->. by destruct (Py.truthy_str valor). Qed.

Lemma last_upsert_stmts_null target period d kpi_id valor texto :
  is_criterio d kpi_id = false → float valor = None →
  ∃ s, last (upsert_stmts float target period d (kpi_id, valor, texto)) = Some s
       ∧ writes_null_valor s.
Proof.
  intros Hc Hv. unfold upsert_stmts. rewrite upsert_parts_unfold, Hc.
  rewrite (parse_valor_failure _ Hv). simpl.
  destruct (r_id <$> _); simpl; eexists; (split; [reflexivity|done]).
Qed.

Lemma batch_stmts_app target period d b1 b2 :
  batch_stmts float target period d (b1 ++ b2)
  = batch_stmts float target period d b1
    ++ batch_stmts float target period
         (foldl (upsert float target period) d b1) b2.
Proof.
  revert d. induction b1 as [|t b1 IH]; intros d; [done|].
  simpl. by rewrite IH, app_assoc.
Qed.

(** ** Keys of the result rows *)

Lemma next_id_above {A} (key : A → Z) rows row :
  row ∈ rows → key row < next_id key rows.
Proof.
  unfold next_id. induction rows as [|x rows IH]; [by intros ?%elem_of_nil|].
  intros [->|Hin]%elem_of_cons; simpl; [lia|].
  specialize (IH Hin). lia.
Qed.


(** ** Accepted and refused writes *)

Lemma refused_failure d kpi_id valor texto :
  float valor = None → refused float d (kpi_id, valor, texto) = false.
Proof.
  intros Hv. unfold refused. simpl. rewrite (parse_valor_failure _ Hv).
  apply andb_false_r.
Qed.

Lemma refused_non_finite d kpi_id valor texto :
  is_criterio d kpi_id = false → Py.truthy_str valor = true →
  float valor = Some Py.NonFinite →
  refused float d (kpi_id, valor, texto) = true.
Proof.
  intros Hc Ht Hv. unfold refused, parse_valor. simpl.
  by rewrite Hc, Ht, Hv.
Qed.

Lemma accepted_app d b1 b2 :
  all_accepted float d b1 = true →
  accepted float d (b1 ++ b2) = b1 ++ accepted float d b2.
Proof.
  induction b1 as [|t b1 IH]; [done|].
  intros [Ht Hall]%all_accepted_cons. simpl. by rewrite Ht, IH.
Qed.

Lemma all_accepted_app_l d b1 b2 :
  all_accepted float d b1 = true →
  all_accepted float d (b1 ++ b2) = all_accepted float d b2.
Proof.
  intros H. unfold all_accepted in *. by rewrite forallb_app, H.
Qed.

Lemma queries_at_app target period b1 b2 k :
  queries_at target period (b1 ++ b2) (length b1 + k)
  = queries_at target period b2 k.
Proof.
  unfold queries_at. rewrite lookup_app_r by lia.
  by replace (length b1 + k - length b1)%nat with k by lia.
Qed.

(** A POST over a healthy connection, cut after triples that are all
    accepted: the rest of the batch runs on the tables the first part
    left, and the request ends as the rest ends. *)
Lemma mis_kpis_post_split server e today target b1 b2 :
  all_accepted float server b1 = true →
  let tgt := default e target in
  let period := current_period today in
  let d_mid := foldl (upsert float tgt period) server b1 in
  let rest :=
    mis_kpis float descripcion_leb d_mid None (Some e) today
      (POST (form_of target b2)) in
  mis_kpis float descripcion_leb server None (Some e) today
    (POST (form_of target b1))
  = (Ok RedirectMisKpis, d_mid, batch_stmts float tgt period server b1)
  ∧ mis_kpis float descripcion_leb server None (Some e) today
      (POST (form_of target (b1 ++ b2)))
    = (rest.1.1, rest.1.2, batch_stmts float tgt period server b1 ++ rest.2).
Proof.
  intros Hall tgt period d_mid rest.
  assert (default e (target_empleado_id (form_of target b1)) = tgt) as Htgt1
    by done.
  split.
  - rewrite mis_kpis_post_healthy by by rewrite zip3_form_of.
    by rewrite zip3_form_of.
  - unfold rest. rewrite !mis_kpis_post_none, !zip3_form_of.
    cbn [form_of target_empleado_id fst snd]. fold tgt period.
    assert (kpis d_mid = kpis server) as Hk by apply kpis_foldl_upsert.
    rewrite (accepted_kpis server d_mid _ Hk),
      (all_accepted_kpis server d_mid _ Hk).
    rewrite (accepted_app server b1 b2 Hall),
      (all_accepted_app_l server b1 b2 Hall).
    rewrite foldl_app, batch_stmts_app, length_app, queries_at_app.
    fold d_mid. by rewrite <- app_assoc.
Qed.

End SubmitFacts.

Section LostFacts.
Import Store Conn MisKpis.
Variable float : string → option Py.pyfloat.
Variable descripcion_leb : string → string → bool.

(** The POST on a connection that is lost after three statements. *)
Lemma mis_kpis_post_lost server e today target t1 t2 rest :
  refused float server t1 = false →
  mis_kpis float descripcion_leb server (Some 3%nat) (Some e) today
    (POST (form_of target (t1 :: t2 :: rest)))
  = (Raise OperationalError,
     upsert float (default e target) (current_period today) server t1,
     upsert_stmts float (default e target) (current_period today) server t1).
Proof.
  intros Ht1. unfold mis_kpis, mis_kpis_post. rewrite zip3_form_of.
  assert (match target_empleado_id (form_of target (t1 :: t2 :: rest)) with
          | Some t => t | None => e end = default e target) as ->
    by by destruct target.
  set (tgt := default e target). set (period := current_period today).
  set (c0 := get_db_connection server (Some 3%nat)).
  pose proof (submit_one_up float tgt period t1 c0
                (autocommitted_open _ _) Ht1
                ltac:(intros k [= <-]; lia)) as H1.
  simpl in H1.
  set (c1 := MkConn DB_CONFIG (upsert float tgt period server t1)
               (upsert float tgt period server t1) (Some O)
               (upsert_stmts float tgt period server t1)) in H1.
  assert (for_each (t1 :: t2 :: rest) (submit_one float tgt period) c0
          = (Raise OperationalError, c1)) as Hloop.
  { simpl for_each. rewrite (bind_ok _ _ c0 tt c1 H1).
    apply bind_raise. by apply submit_one_down. }
  by rewrite (bind_raise _ _ c0 OperationalError c1 Hloop).
Qed.

(** The same POST when the driver refuses the write of the first triple:
    its two queries go out and nothing is written. *)
Lemma mis_kpis_post_lost_refused server e today target t1 t2 rest :
  refused float server t1 = true →
  mis_kpis float descripcion_leb server (Some 3%nat) (Some e) today
    (POST (form_of target (t1 :: t2 :: rest)))
  = (Raise ProgrammingError, server,
     [ SelectEsCriterio t1.1.1;
       SelectResultadoId (default e target) t1.1.1 (current_period today) ]).
Proof.
  intros Ht1. unfold mis_kpis, mis_kpis_post. rewrite zip3_form_of.
  assert (match target_empleado_id (form_of target (t1 :: t2 :: rest)) with
          | Some t => t | None => e end = default e target) as ->
    by by destruct target.
  set (tgt := default e target). set (period := current_period today).
  set (c0 := get_db_connection server (Some 3%nat)).
  pose proof (submit_one_refused float tgt period t1 c0
                (autocommitted_open _ _) Ht1
                ltac:(intros k [= <-]; lia)) as H1.
  simpl in H1.
  assert (for_each (t1 :: t2 :: rest) (submit_one float tgt period) c0
          = (Raise ProgrammingError,
             MkConn DB_CONFIG server server (Some 1%nat)
               [ SelectEsCriterio t1.1.1;
                 SelectResultadoId tgt t1.1.1 period ])) as Hloop.
  { simpl for_each. by apply bind_raise. }
  by rewrite (bind_raise _ _ c0 ProgrammingError _ Hloop).
Qed.

End LostFacts.

(** C1 (the code does not do this): the connection is opened with
    autocommit and the loop opens no transaction, so every statement is
    committed as it is executed.  When the connection is lost after the
    three statements of the first triple, the request fails and the server
    keeps exactly what a submission of the first triple alone leaves: the
    other triples are not applied.  In the worked case the seller's numeric
    result is stored and the qualitative one is not, although both were
    submitted in one batch. *)
Theorem C1_lost_connection_leaves_partial_batch :
  (∀ float leb server e today target t1 t2 rest,
     let '(_, d1, lg1) :=
       MisKpis.mis_kpis float leb server None (Some e) today
         (MisKpis.POST (MisKpis.form_of target [t1])) in
     MisKpis.mis_kpis float leb server (Some 3%nat) (Some e) today
       (MisKpis.POST (MisKpis.form_of target (t1 :: t2 :: rest)))
     = (Conn.Raise (if MisKpis.refused float server t1
                    then Conn.ProgrammingError else Conn.OperationalError),
        d1, lg1))
  ∧ (let f := MisKpis.form_of None [(1, "85", ""); (2, "", "cumple")] in
     let period := Store.current_period Examples.today in
     let lost :=
       MisKpis.mis_kpis Examples.float_decimal Examples.descripcion_leb
         Examples.tables (Some 3%nat) (Some 11) Examples.today (MisKpis.POST f) in
     let healthy :=
       MisKpis.mis_kpis Examples.float_decimal Examples.descripcion_leb
         Examples.tables None (Some 11) Examples.today (MisKpis.POST f) in
     lost.1.1 = Conn.Raise Conn.OperationalError
     ∧ map Store.r_valor (MisKpis.results_for lost.1.2 11 1 period) = [Some (85 # 1)]
     ∧ MisKpis.results_for lost.1.2 11 2 period = []
     ∧ healthy.1.1 = Conn.Ok MisKpis.RedirectMisKpis
     ∧ map Store.r_valor (MisKpis.results_for healthy.1.2 11 1 period) = [Some (85 # 1)]
     ∧ map Store.r_texto_resultado (MisKpis.results_for healthy.1.2 11 2 period)
       = [Some "cumple"]).
Proof.
  split; [|vm_compute; by repeat split].
  intros float leb server e today target t1 t2 rest.
  rewrite mis_kpis_post_none, zip3_form_of.
  unfold MisKpis.all_accepted. cbn [MisKpis.accepted forallb].
  destruct (MisKpis.refused float server t1) eqn:Ht1.
  - by rewrite mis_kpis_post_lost_refused.
  - rewrite mis_kpis_post_lost by done. simpl. by rewrite !app_nil_r.
Qed.



(** C9 at the seller of the sample data: nobody reports to position 2. *)
Lemma C9_no_children_no_membership_lookup_witness :
  ∃ my_kpis,
    (MisKpis.mis_kpis Examples.float_decimal Examples.descripcion_leb
       Examples.tables None (Some 11) Examples.today MisKpis.GET).1.1
    = Conn.Ok (MisKpis.RenderMisKpis my_kpis
                 (MisKpis.EmpRow 11 "Beto" (Some 2) (Some "Vendedor")) []
                 (Store.current_period Examples.today)).
Proof.
  assert (∀ p, p ∈ Store.puestos Examples.tables →
               Store.p_jefe_puesto_id p ≠ Some 2) as Hnone.
  { intros p Hp.
    repeat (apply elem_of_cons in Hp as [->|Hp]; [discriminate|]).
    by apply elem_of_nil in Hp. }
  pose proof (proj1 (proj2 (C9_no_children_no_membership_lookup
                              Examples.float_decimal Examples.descripcion_leb))
                Examples.tables None 11 Examples.today
                (MisKpis.EmpRow 11 "Beto" (Some 2) (Some "Vendedor")) 2
                eq_refl eq_refl Hnone) as H.
  destruct (MisKpis.mis_kpis _ _ _ _ _ _ _) as [[r d] lg].
  destruct H as (_ & _ & H). apply H; [reflexivity | discriminate].
Defined.

(** C6 (the code misses a case): the loop turns a value that [float]
    rejects into [NULL] and goes on, but a value that [float] reads as
    [inf] or [nan] raises no [ValueError]; the driver then refuses the
    write, the exception leaves the loop, and the batch is aborted.

    For a KPI that is not qualitative, after triples whose writes are
    accepted:
    - a value [float] rejects is written as [NULL] (the statement sent for
      it carries [NULL], and the row for its key then holds [NULL]), and
      the rest of the batch runs on the tables this leaves and decides
      how the request ends;
    - a value [float] reads as [inf] or [nan] ends the request with
      [ProgrammingError] after the two queries of its pass: the triples
      before it stay stored, it is not, and none after it is applied.
    In the worked cases the batch with [abc] stores [NULL] and then 70,
    and the batch with [nan] fails and stores neither the sales figure nor
    the qualitative result submitted after it. *)
Theorem C6_non_finite_value_aborts_the_batch :
  (∀ float leb server e today target pre post kpi_id valor texto,
     let tgt := default e target in
     let period := Store.current_period today in
     let post_of batch := MisKpis.POST (MisKpis.form_of target batch) in
     MisKpis.is_criterio server kpi_id = false →
     float valor = None →
     MisKpis.all_accepted float server pre = true →
     ∃ d_mid lg1 s r,
       MisKpis.mis_kpis float leb server None (Some e) today
         (post_of (pre ++ [(kpi_id, valor, texto)]))
       = (Conn.Ok MisKpis.RedirectMisKpis, d_mid, lg1)
       ∧ last lg1 = Some s ∧ MisKpis.writes_null_valor s
       ∧ head (MisKpis.results_for d_mid tgt kpi_id period) = Some r
       ∧ Store.r_valor r = None
       ∧ ∃ r2 d_fin lg2,
           MisKpis.mis_kpis float leb d_mid None (Some e) today (post_of post)
           = (r2, d_fin, lg2)
           ∧ MisKpis.mis_kpis float leb server None (Some e) today
               (post_of (pre ++ (kpi_id, valor, texto) :: post))
             = (r2, d_fin, lg1 ++ lg2))
  ∧ (∀ float leb server e today target pre post kpi_id valor texto,
       let tgt := default e target in
       let period := Store.current_period today in
       let post_of batch := MisKpis.POST (MisKpis.form_of target batch) in
       MisKpis.is_criterio server kpi_id = false →
       Py.truthy_str valor = true →
       float valor = Some Py.NonFinite →
       MisKpis.all_accepted float server pre = true →
       ∃ d_pre lg_pre,
         MisKpis.mis_kpis float leb server None (Some e) today (post_of pre)
         = (Conn.Ok MisKpis.RedirectMisKpis, d_pre, lg_pre)
         ∧ MisKpis.mis_kpis float leb server None (Some e) today
             (post_of (pre ++ (kpi_id, valor, texto) :: post))
           = (Conn.Raise Conn.ProgrammingError, d_pre,
              lg_pre ++ [ Conn.SelectEsCriterio kpi_id;
                          Conn.SelectResultadoId tgt kpi_id period ]))
  ∧ (let period := Store.current_period Examples.today in
     let run batch :=
       MisKpis.mis_kpis Examples.float_decimal Examples.descripcion_leb
         Examples.tables None (Some 11) Examples.today
         (MisKpis.POST (MisKpis.form_of None batch)) in
     let rejected := run [(1, "abc", ""); (2, "", "cumple")] in
     let not_finite := run [(1, "nan", ""); (2, "", "cumple")] in
     rejected.1.1 = Conn.Ok MisKpis.RedirectMisKpis
     ∧ map Store.r_valor (MisKpis.results_for rejected.1.2 11 1 period) = [None]
     ∧ map Store.r_texto_resultado (MisKpis.results_for rejected.1.2 11 2 period)
       = [Some "cumple"]
     ∧ not_finite.1.1 = Conn.Raise Conn.ProgrammingError
     ∧ not_finite.1.2 = Examples.tables
     ∧ MisKpis.results_for not_finite.1.2 11 1 period = []
     ∧ MisKpis.results_for not_finite.1.2 11 2 period = []).
Proof.
  split; [|split; [|vm_compute; by repeat split]].
  - intros float leb server e today target pre post kpi_id valor texto
      tgt period post_of Hcrit Hfloat Hpre. unfold post_of.
    set (t := (kpi_id, valor, texto)).
    set (d_pre := foldl (MisKpis.upsert float tgt period) server pre).
    assert (MisKpis.is_criterio d_pre kpi_id = false) as Hcrit'.
    { unfold d_pre. by rewrite is_criterio_foldl_upsert. }
    assert (MisKpis.all_accepted float server (pre ++ [t]) = true) as Hall.
    { apply all_accepted_app. split; [done|].
      unfold MisKpis.all_accepted, t. simpl.
      by rewrite (refused_failure float server kpi_id valor texto Hfloat). }
    destruct (last_upsert_stmts_null float tgt period d_pre kpi_id valor texto
                Hcrit' Hfloat) as (s & Hs & Hnull).
    destruct (upsert_head float tgt period d_pre kpi_id valor texto)
      as (r & Hr & Hv & _).
    rewrite Hcrit', (parse_valor_failure float valor Hfloat) in Hv.
    destruct (mis_kpis_post_split float leb server e today target
                (pre ++ [t]) post Hall) as [Hfirst Hwhole].
    fold tgt period in Hfirst, Hwhole.
    exists (foldl (MisKpis.upsert float tgt period) server (pre ++ [t])),
           (MisKpis.batch_stmts float tgt period server (pre ++ [t])), s, r.
    split; [exact Hfirst|]. split.
    { rewrite batch_stmts_app. fold d_pre. cbn [MisKpis.batch_stmts].
      rewrite app_nil_r, last_app. unfold t. by rewrite Hs. }
    split; [exact Hnull|].
    split; [by rewrite foldl_app|]. split; [exact Hv|].
    destruct (MisKpis.mis_kpis float leb _ None (Some e) today
                (MisKpis.POST (MisKpis.form_of target post)))
      as [[r2 d_fin] lg2] eqn:Erest.
    exists r2, d_fin, lg2. split; [done|].
    replace (pre ++ t :: post) with ((pre ++ [t]) ++ post)
      by by rewrite <- app_assoc.
    exact Hwhole.
  - intros float leb server e today target pre post kpi_id valor texto
      tgt period post_of Hcrit Ht Hfloat Hpre. unfold post_of.
    set (t := (kpi_id, valor, texto)).
    destruct (mis_kpis_post_split float leb server e today target
                pre (t :: post) Hpre) as [Hfirst Hwhole].
    fold tgt period in Hfirst, Hwhole.
    eexists _, _. split; [exact Hfirst|]. rewrite Hwhole.
    rewrite mis_kpis_post_none, zip3_form_of.
    assert (MisKpis.refused float
              (foldl (MisKpis.upsert float tgt period) server pre) t = true)
      as Href.
    { apply refused_non_finite; [|done..].
      by rewrite is_criterio_foldl_upsert. }
    unfold MisKpis.all_accepted. cbn [MisKpis.accepted forallb].
    rewrite Href. reflexivity.
Qed.

Lemma in_period_spec target periodo r :
  MisKpis.in_period (Some target) periodo r = true
  ↔ Store.r_empleado_id r = target ∧ Store.r_periodo r = periodo.
Proof.
  unfold MisKpis.in_period.
  rewrite andb_true_iff, Z.eqb_eq, bool_decide_eq_true. done.
Qed.

(** C8: on a connection that still carries a statement, [cerrar_periodo]
    succeeds and rewrites [kpi_resultados] row by row: a row of the target
    employee and the current month gets [cerrado = 1] and [cerrado_por] set
    to the session's employee, with its key, its numeric value and its text
    as they were; every other row, and every other table, is unchanged. *)
Theorem C8_cerrar_periodo_frame
    (server : Store.db) (link : option nat)
    (session_empleado_id form_empleado_id : option Z) (today : Store.date)
    (target : Z) :
  link ≠ Some O →
  match form_empleado_id with
  | Some t => Some t
  | None => session_empleado_id
  end = Some target →
  ∃ d,
    MisKpis.cerrar_periodo server link session_empleado_id form_empleado_id today
    = (Conn.Ok MisKpis.RedirectMisKpis, d)
    ∧ Store.empleados d = Store.empleados server
    ∧ Store.puestos d = Store.puestos server
    ∧ Store.departamentos d = Store.departamentos server
    ∧ Store.kpis d = Store.kpis server
    ∧ Store.puesto_kpis d = Store.puesto_kpis server
    ∧ length (Store.kpi_resultados d) = length (Store.kpi_resultados server)
    ∧ ∀ i r,
        Store.kpi_resultados server !! i = Some r →
        ∃ r',
          Store.kpi_resultados d !! i = Some r'
          ∧ Store.r_id r' = Store.r_id r
          ∧ Store.r_empleado_id r' = Store.r_empleado_id r
          ∧ Store.r_kpi_id r' = Store.r_kpi_id r
          ∧ Store.r_periodo r' = Store.r_periodo r
          ∧ Store.r_valor r' = Store.r_valor r
          ∧ Store.r_texto_resultado r' = Store.r_texto_resultado r
          ∧ (Store.r_empleado_id r = target
             ∧ Store.r_periodo r = Store.current_period today →
             Store.r_cerrado r' = 1
             ∧ Store.r_cerrado_por r' = session_empleado_id)
          ∧ (¬ (Store.r_empleado_id r = target
                ∧ Store.r_periodo r = Store.current_period today) →
             r' = r).
Proof.
  intros Hlink Htarget.
  unfold MisKpis.cerrar_periodo, MisKpis.update_cerrado. rewrite Htarget.
  rewrite execute_up by exact Hlink.
  eexists. split; [reflexivity|].
  unfold Conn.close, Conn.advance, Conn.get_db_connection. simpl.
  split_and!; try reflexivity.
  - by rewrite length_map.
  - intros i r Hi. rewrite list_lookup_fmap, Hi. simpl.
    eexists. split; [reflexivity|].
    pose proof (in_period_spec target (Store.current_period today) r) as Hspec.
    unfold MisKpis.in_period in Hspec.
    destruct ((Store.r_empleado_id r =? target)
              && bool_decide (Store.r_periodo r = Store.current_period today)).
    + split_and!; try reflexivity.
      * by intros _.
      * intros Hnot. destruct Hnot. by apply Hspec.
    + split_and!; try reflexivity.
      intros Hm. apply Hspec in Hm. discriminate.
Qed.

(** C8 at a closed month: the manager closes the seller's May results. *)
Lemma C8_cerrar_periodo_frame_witness :
  let server :=
    MisKpis.set_resultados Examples.tables
      [ Store.KpiResultado 1 11 1 (Store.current_period Examples.today)
          (Some (85 # 1)) None 0 None;
        Store.KpiResultado 2 10 1 (Store.current_period Examples.today)
          (Some (60 # 1)) None 0 None ] in
  ∃ d,
    MisKpis.cerrar_periodo server None (Some 10) (Some 11) Examples.today
    = (Conn.Ok MisKpis.RedirectMisKpis, d)
    ∧ Store.kpi_resultados d
      = [ Store.KpiResultado 1 11 1 (Store.current_period Examples.today)
            (Some (85 # 1)) None 1 (Some 10);
          Store.KpiResultado 2 10 1 (Store.current_period Examples.today)
            (Some (60 # 1)) None 0 None ].
Proof.
  intros server.
  destruct (C8_cerrar_periodo_frame server None (Some 10) (Some 11)
              Examples.today 11 ltac:(discriminate) eq_refl)
    as (d & Hrun & _).
  exists d. split; [exact Hrun|].
  vm_compute in Hrun. by injection Hrun as <-.
Defined.

(* ====================================================================== *)
(** * The organisation chart *)
(* ====================================================================== *)

Section OrganigramaFacts.
Import Store Organigrama.

Lemma grows_refl nodes : grows (λ _, []) nodes nodes.
Proof.
  intros k. destruct (nodes !! k) as [[i t c]|]; simpl; [|done].
  by rewrite app_nil_r.
Qed.

Lemma grows_trans f g a b c :
  grows f a b → grows g b c → grows (λ k, f k ++ g k) a c.
Proof.
  intros Hab Hbc k. rewrite Hbc, Hab.
  destruct (a !! k) as [n|]; simpl; [|done]. by rewrite app_assoc.
Qed.

Lemma grows_ext f g a b : (∀ k, f k = g k) → grows f a b → grows g a b.
Proof. intros Hfg H k. by rewrite H, Hfg. Qed.

Lemma grows_is_Some f a b k : grows f a b → is_Some (b !! k) ↔ is_Some (a !! k).
Proof. intros H. rewrite H. apply fmap_is_Some. Qed.

Lemma grows_present f a b x : grows f a b → present b x = present a x.
Proof.
  intros H. unfold present. destruct x as [k|]; [|done].
  by rewrite (bool_decide_ext _ _ (grows_is_Some f a b k H)).
Qed.

Lemma present_Some nodes x k :
  present nodes x = Some k ↔ x = Some k ∧ k ≠ 0 ∧ is_Some (nodes !! k).
Proof.
  unfold present, Py.truthy_int. destruct x as [j|].
  - destruct (j =? 0) eqn:E0; simpl.
    + apply Z.eqb_eq in E0. split; [done|].
      intros ([= <-] & Hk & _). by destruct Hk.
    + apply Z.eqb_neq in E0. case_bool_decide as Hs.
      * split; [by intros [= <-]|by intros [? _]].
      * split; [done|]. intros ([= <-] & _ & Hs'). by destruct Hs.
  - split; [done|by intros [? _]].
Qed.

Lemma present_None nodes x :
  present nodes x = None
  ↔ x = None ∨ x = Some 0 ∨ ∃ j, x = Some j ∧ nodes !! j = None.
Proof.
  unfold present, Py.truthy_int. destruct x as [j|].
  - destruct (j =? 0) eqn:E0; simpl.
    + apply Z.eqb_eq in E0. subst j. split; [|done]. intros _. by right; left.
    + apply Z.eqb_neq in E0. case_bool_decide as Hs.
      * split; [done|]. intros [?|[?|(j' & ? & Hn)]]; simplify_eq.
        rewrite Hn in Hs. by destruct Hs.
      * split; [|done]. intros _. right. right. exists j. split; [done|].
        by apply eq_None_not_Some.
  - split; [|done]. intros _. by left.
Qed.

(** The dictionary of nodes: one node per id that occurs, without children. *)
Lemma make_nodes_from (m : gmap Z node) (ps : list puesto) (k : Z) :
  (is_Some (foldl (λ nodes p, <[p_id p := puesto_node p]> nodes) m ps !! k)
   ↔ is_Some (m !! k) ∨ k ∈ map p_id ps)
  ∧ ((∀ n, m !! k = Some n → children n = []) →
     ∀ n, foldl (λ nodes p, <[p_id p := puesto_node p]> nodes) m ps !! k = Some n →
          children n = []).
Proof.
  revert m. induction ps as [|p ps IH]; intros m; simpl.
  - split; [|done]. rewrite elem_of_nil. split; [by left|by intros [?|?]].
  - destruct (IH (<[p_id p := puesto_node p]> m)) as [IH1 IH2]. split.
    + rewrite IH1, elem_of_cons, lookup_insert_is_Some'.
      split; [intros [[?|?]|?]|intros [?|[?|?]]]; auto.
    + intros Hm. apply IH2. intros n.
      destruct (decide (p_id p = k)) as [->|Hne].
      * rewrite lookup_insert_eq. by intros [= <-].
      * rewrite lookup_insert_ne by done. apply Hm.
Qed.

Lemma make_nodes_is_Some ps k :
  is_Some (make_nodes ps !! k) ↔ k ∈ map p_id ps.
Proof.
  unfold make_nodes. rewrite (proj1 (make_nodes_from ∅ ps k)), lookup_empty.
  split; [|by right]. intros [[? [=]]|?]. done.
Qed.

Lemma make_nodes_children ps k n :
  make_nodes ps !! k = Some n → children n = [].
Proof.
  apply (proj2 (make_nodes_from ∅ ps k)). intros n'. by rewrite lookup_empty.
Qed.

(** One employee: a leaf under the position it occupies, if that resolves. *)
Lemma attach_empleado_grows nodes emp :
  grows (leaves_under nodes [emp]) nodes (attach_empleado nodes emp).
Proof.
  intros k. unfold attach_empleado, leaves_under. simpl.
  destruct (present nodes (e_puesto_id emp)) as [j|] eqn:E.
  - destruct (decide (j = k)) as [->|Hne].
    + rewrite lookup_alter_eq, bool_decide_eq_true_2 by done.
      by destruct (nodes !! k).
    + rewrite lookup_alter_ne, bool_decide_eq_false_2 by congruence.
      apply grows_refl.
  - rewrite bool_decide_eq_false_2 by done. apply grows_refl.
Qed.

Lemma leaves_under_present nodes nodes' es k f :
  grows f nodes nodes' → leaves_under nodes' es k = leaves_under nodes es k.
Proof.
  intros H. unfold leaves_under. f_equal. apply List.filter_ext.
  intros e. by rewrite (grows_present _ _ _ _ H).
Qed.

Lemma attach_empleados_grows nodes es :
  grows (leaves_under nodes es) nodes (foldl attach_empleado nodes es).
Proof.
  revert nodes. induction es as [|e es IH]; intros nodes; simpl.
  - apply grows_refl.
  - eapply grows_ext;
      [|exact (grows_trans _ _ _ _ _ (attach_empleado_grows nodes e)
                 (IH (attach_empleado nodes e)))].
    intros k. simpl.
    rewrite (leaves_under_present _ _ es k _ (attach_empleado_grows nodes e)).
    unfold leaves_under. simpl. by case_bool_decide.
Qed.

Lemma roots_present nodes nodes' ps f :
  grows f nodes nodes' → roots nodes' ps = roots nodes ps.
Proof.
  intros H. unfold roots. f_equal. apply List.filter_ext.
  intros q. by rewrite (grows_present _ _ _ _ H).
Qed.

Lemma refs_under_present nodes nodes' ps k f :
  grows f nodes nodes' → refs_under nodes' ps k = refs_under nodes ps k.
Proof.
  intros H. unfold refs_under. f_equal. apply List.filter_ext.
  intros q. by rewrite (grows_present _ _ _ _ H).
Qed.

Lemma roots_cons nodes p ps :
  roots nodes (p :: ps)
  = match present nodes (p_jefe_puesto_id p) with
    | Some _ => roots nodes ps
    | None => p_id p :: roots nodes ps
    end.
Proof.
  unfold roots. simpl.
  destruct (present nodes (p_jefe_puesto_id p)); by case_bool_decide.
Qed.

Lemma refs_under_cons nodes p ps k :
  refs_under nodes (p :: ps) k = refs_under nodes [p] k ++ refs_under nodes ps k.
Proof. unfold refs_under. simpl. by case_bool_decide. Qed.

Lemma refs_under_unresolved nodes p k :
  present nodes (p_jefe_puesto_id p) = None → refs_under nodes [p] k = [].
Proof.
  intros E. unfold refs_under. simpl. rewrite E.
  by rewrite bool_decide_eq_false_2 by done.
Qed.

(** The position loop: it never fails on positions that have a node; it
    adds the unresolved ones to the roots and the others under their boss. *)
Lemma attach_puestos_grows ps nodes forest :
  (∀ p, p ∈ ps → is_Some (nodes !! p_id p)) →
  ∃ nodes',
    attach_puestos (nodes, forest) ps = Some (nodes', forest ++ roots nodes ps)
    ∧ grows (refs_under nodes ps) nodes nodes'.
Proof.
  revert nodes forest. induction ps as [|p ps IH]; intros nodes forest Hdom.
  - exists nodes. simpl. unfold roots. simpl. rewrite app_nil_r.
    split; [done|apply grows_refl].
  - destruct (Hdom p (list_elem_of_here _ _)) as [n Hn].
    cbn [attach_puestos]. unfold attach_puesto. rewrite Hn, roots_cons.
    destruct (present nodes (p_jefe_puesto_id p)) as [jefe|] eqn:E; simpl.
    + set (nodes1 := alter (append_child (PuestoRef (p_id p))) jefe nodes).
      assert (grows (refs_under nodes [p]) nodes nodes1) as H1.
      { intros k. unfold refs_under, nodes1. simpl. rewrite E.
        destruct (decide (jefe = k)) as [->|Hne].
        - rewrite lookup_alter_eq, bool_decide_eq_true_2 by done.
          by destruct (nodes !! k).
        - rewrite lookup_alter_ne, bool_decide_eq_false_2 by congruence.
          apply grows_refl. }
      destruct (IH nodes1 forest) as (nodes' & Hrun & Hg).
      { intros q Hq. apply (grows_is_Some _ _ _ _ H1).
        apply Hdom. by apply list_elem_of_further. }
      exists nodes'. split.
      * by rewrite Hrun, (roots_present _ _ _ _ H1).
      * eapply grows_ext; [|exact (grows_trans _ _ _ _ _ H1 Hg)].
        intros k. simpl.
        by rewrite (refs_under_present _ _ _ _ _ H1), <- refs_under_cons.
    + destruct (IH nodes (forest ++ [p_id p])) as (nodes' & Hrun & Hg).
      { intros q Hq. apply Hdom. by apply list_elem_of_further. }
      exists nodes'. split.
      * by rewrite Hrun, <- app_assoc.
      * eapply grows_ext; [|exact Hg]. intros k.
        by rewrite refs_under_cons, refs_under_unresolved.
Qed.

(** The chart, in closed form: it is always built; the roots are the
    positions whose boss does not resolve, in order; and under each key the
    children are the leaves of the employees at that position followed by
    the positions whose boss resolves to it. *)
Lemma organigrama_data_closed ps es :
  ∃ nodes,
    organigrama_data ps es = Some (nodes, roots (make_nodes ps) ps)
    ∧ (∀ k, is_Some (nodes !! k) ↔ k ∈ map p_id ps)
    ∧ (∀ k n, nodes !! k = Some n →
              children n = leaves_under (make_nodes ps) es k
                           ++ refs_under (make_nodes ps) ps k).
Proof.
  unfold organigrama_data.
  set (nodes0 := make_nodes ps).
  set (nodes1 := foldl attach_empleado nodes0 es).
  pose proof (attach_empleados_grows nodes0 es) as H01. fold nodes1 in H01.
  destruct (attach_puestos_grows ps nodes1 []) as (nodes2 & Hrun & H12).
  { intros p Hp. apply (grows_is_Some _ _ _ _ H01).
    apply make_nodes_is_Some. by apply list_elem_of_fmap_2. }
  exists nodes2. split; [|split].
  - by rewrite Hrun, (roots_present _ _ _ _ H01).
  - intros k. rewrite (grows_is_Some _ _ _ _ H12), (grows_is_Some _ _ _ _ H01).
    apply make_nodes_is_Some.
  - intros k n. rewrite H12, H01.
    destruct (nodes0 !! k) as [n0|] eqn:E0; [|done]. simpl. intros [= <-]. simpl.
    rewrite (make_nodes_children _ _ _ E0). simpl.
    by rewrite (refs_under_present _ _ _ _ _ H01).
Qed.

End OrganigramaFacts.

Lemma key_determines_row {A} (key : A → Z) (l : list A) x y :
  NoDup (map key l) → x ∈ l → y ∈ l → key x = key y → x = y.
Proof.
  induction l as [|a l IH]; [by intros _ ?%elem_of_nil|].
  simpl. intros [Hna Hnd]%NoDup_cons Hx Hy Hk.
  apply elem_of_cons in Hx as [->|Hx]; apply elem_of_cons in Hy as [->|Hy].
  - done.
  - destruct Hna. rewrite Hk. by apply list_elem_of_fmap_2.
  - destruct Hna. rewrite <- Hk. by apply list_elem_of_fmap_2.
  - by apply IH.
Qed.

Lemma elem_of_leaves_under nodes es k c :
  c ∈ Organigrama.leaves_under nodes es k ↔
  ∃ emp, emp ∈ es ∧ c = Organigrama.empleado_leaf emp
         ∧ Organigrama.present nodes (Store.e_puesto_id emp) = Some k.
Proof.
  unfold Organigrama.leaves_under. rewrite list_elem_of_fmap. split.
  - intros (emp & -> & Hin). apply list_elem_of_In, List.filter_In in Hin as [Hin Hp].
    apply bool_decide_eq_true in Hp. exists emp. by rewrite list_elem_of_In.
  - intros (emp & Hin & -> & Hp). exists emp. split; [done|].
    apply list_elem_of_In, List.filter_In. split; [by apply list_elem_of_In|].
    by apply bool_decide_eq_true.
Qed.

Lemma elem_of_refs_under nodes ps k c :
  c ∈ Organigrama.refs_under nodes ps k ↔
  ∃ p, p ∈ ps ∧ c = Organigrama.PuestoRef (Store.p_id p)
       ∧ Organigrama.present nodes (Store.p_jefe_puesto_id p) = Some k.
Proof.
  unfold Organigrama.refs_under. rewrite list_elem_of_fmap. split.
  - intros (p & -> & Hin). apply list_elem_of_In, List.filter_In in Hin as [Hin Hp].
    apply bool_decide_eq_true in Hp. exists p. by rewrite list_elem_of_In.
  - intros (p & Hin & -> & Hp). exists p. split; [done|].
    apply list_elem_of_In, List.filter_In. split; [by apply list_elem_of_In|].
    by apply bool_decide_eq_true.
Qed.

Lemma elem_of_roots nodes ps p :
  p ∈ ps → Organigrama.present nodes (Store.p_jefe_puesto_id p) = None →
  Store.p_id p ∈ Organigrama.roots nodes ps.
Proof.
  intros Hin Hp. unfold Organigrama.roots. apply list_elem_of_fmap.
  exists p. split; [done|].
  apply list_elem_of_In, List.filter_In. split; [by apply list_elem_of_In|].
  by apply bool_decide_eq_true.
Qed.

(** [AUTO_INCREMENT] hands out keys from 1 on. *)
Lemma next_id_positive {A} (key : A → Z) (rows : list A) :
  0 < Store.next_id key rows.
Proof.
  unfold Store.next_id.
  assert (0 ≤ foldr (λ row acc, Z.max (key row) acc) 0 rows); [|lia].
  induction rows as [|x rows IH]; simpl; lia.
Qed.

(** The two statements that insert a position (lines 635-638 and 823-827)
    leave the key to [AUTO_INCREMENT], so neither writes a position with
    key 0. *)
Lemma create_puesto_key_not_zero d nombre departamento_id jefe_puesto_id :
  0 ∉ map Store.p_id (Store.puestos d) →
  0 ∉ map Store.p_id
        (Store.puestos
           (Puestos.create_puesto d nombre departamento_id jefe_puesto_id).1).
Proof.
  intros H0. unfold Puestos.create_puesto.
  destruct (negb (Py.truthy_opt_str nombre)); [done|]. simpl.
  rewrite map_app. simpl. intros [Hin|Hin]%elem_of_app; [done|].
  apply list_elem_of_singleton in Hin.
  pose proof (next_id_positive Store.p_id (Store.puestos d)). lia.
Qed.

Lemma find_or_create_puesto_key_not_zero d puesto_nombre departamento_id :
  0 ∉ map Store.p_id (Store.puestos d) →
  0 ∉ map Store.p_id
        (Store.puestos
           (Personal.find_or_create_puesto d puesto_nombre departamento_id).1).
Proof.
  intros H0. unfold Personal.find_or_create_puesto.
  destruct puesto_nombre as [nombre|]; [|done].
  destruct (head _); [done|]. simpl.
  rewrite map_app. simpl. intros [Hin|Hin]%elem_of_app; [done|].
  apply list_elem_of_singleton in Hin.
  pose proof (next_id_positive Store.p_id (Store.puestos d)). lia.
Qed.

(** C3: on position rows whose keys are [AUTO_INCREMENT] keys (none is 0),
    the chart is always built (no error, whatever the boss references
    are); a position whose boss reference is null, or names an id that is
    not among the positions, becomes a root; a position whose boss id is
    among the positions is appended to the children of that boss's node. *)
Theorem C3_roots_and_children
    (puestos : list Store.puesto) (empleados : list Store.empleado) :
  0 ∉ map Store.p_id puestos →
  ∃ nodes forest,
    Organigrama.organigrama_data puestos empleados = Some (nodes, forest)
    ∧ ∀ p, p ∈ puestos →
        ((Store.p_jefe_puesto_id p = None
          ∨ ∃ j, Store.p_jefe_puesto_id p = Some j ∧ j ∉ map Store.p_id puestos) →
         Store.p_id p ∈ forest)
        ∧ (∀ j, Store.p_jefe_puesto_id p = Some j →
                j ∈ map Store.p_id puestos →
                ∃ n, nodes !! j = Some n
                     ∧ Organigrama.PuestoRef (Store.p_id p) ∈ Organigrama.children n).
Proof.
  intros Hkeys.
  destruct (organigrama_data_closed puestos empleados)
    as (nodes & Hrun & Hdom & Hch).
  exists nodes, (Organigrama.roots (Organigrama.make_nodes puestos) puestos).
  split; [exact Hrun|]. intros p Hp. split.
  - intros Hroot. apply elem_of_roots; [done|]. apply present_None.
    destruct Hroot as [?|(j & Hj & Hnot)]; [by left|].
    right. right. exists j. split; [done|].
    apply eq_None_not_Some. by rewrite make_nodes_is_Some.
  - intros j Hj Hin.
    assert (j ≠ 0) as Hj0 by (by intros ->).
    destruct (proj2 (Hdom j) Hin) as [n Hn]. exists n. split; [done|].
    rewrite (Hch j n Hn). apply elem_of_app. right.
    apply elem_of_refs_under. exists p. split; [done|]. split; [done|].
    apply present_Some. split; [done|]. split; [done|].
    by apply make_nodes_is_Some.
Qed.

(** C3 at the example of the specification: positions 1 (no boss),
    2 (boss 1) and 3 (boss 99, absent), employee 10 at position 2. *)
Lemma C3_roots_and_children_witness :
  let puestos :=
    [ Store.Puesto 1 "Direccion" None None;
      Store.Puesto 2 "Ventas" None (Some 1);
      Store.Puesto 3 "Almacen" None (Some 99) ] in
  let empleados := [ Store.Empleado 10 Py.CNull "Ana" (Some 2) None None ] in
  ∃ nodes forest,
    Organigrama.organigrama_data puestos empleados = Some (nodes, forest)
    ∧ 1 ∈ forest ∧ 3 ∈ forest
    ∧ ∃ n, nodes !! 1 = Some n
           ∧ Organigrama.PuestoRef 2 ∈ Organigrama.children n.
Proof.
  intros puestos empleados.
  assert (0 ∉ map Store.p_id puestos) as Hkeys.
  { intros Hin. repeat (apply elem_of_cons in Hin as [Hin|Hin]; [discriminate|]).
    by apply elem_of_nil in Hin. }
  destruct (C3_roots_and_children puestos empleados Hkeys)
    as (nodes & forest & Hrun & H).
  exists nodes, forest. split; [exact Hrun|].
  split; [|split].
  - apply (H (Store.Puesto 1 "Direccion" None None)); [|by left].
    apply list_elem_of_here.
  - apply (H (Store.Puesto 3 "Almacen" None (Some 99))).
    + do 2 apply list_elem_of_further. apply list_elem_of_here.
    + right. exists 99. split; [done|].
      intros Hin. repeat (apply elem_of_cons in Hin as [Hin|Hin]; [discriminate|]).
      by apply elem_of_nil in Hin.
  - apply (H (Store.Puesto 2 "Ventas" None (Some 1))).
    + apply list_elem_of_further, list_elem_of_here.
    + reflexivity.
    + apply list_elem_of_here.
Defined.

(** C10: an employee whose position id is not among the positions gets no
    node: no children list of the chart holds a leaf carrying that
    employee's id (the employee id being the key of the employee rows).
    Every employee leaf of the chart comes from an employee row whose
    position id is the key of the node it hangs under, and that key is among
    the positions. *)
Theorem C10_unknown_position_is_omitted
    (puestos : list Store.puesto) (empleados : list Store.empleado)
    (emp : Store.empleado) (pid : Z) :
  emp ∈ empleados →
  Store.e_puesto_id emp = Some pid →
  pid ∉ map Store.p_id puestos →
  NoDup (map Store.e_id empleados) →
  ∃ nodes forest,
    Organigrama.organigrama_data puestos empleados = Some (nodes, forest)
    ∧ (∀ k n id text icon,
         nodes !! k = Some n →
         Organigrama.EmpleadoLeaf id text icon (Store.e_id emp)
           ∉ Organigrama.children n)
    ∧ (∀ k n id text icon eid,
         nodes !! k = Some n →
         Organigrama.EmpleadoLeaf id text icon eid ∈ Organigrama.children n →
         ∃ emp', emp' ∈ empleados
                 ∧ Organigrama.EmpleadoLeaf id text icon eid
                   = Organigrama.empleado_leaf emp'
                 ∧ Store.e_puesto_id emp' = Some k
                 ∧ k ∈ map Store.p_id puestos).
Proof.
  intros Hemp Hpid Hnot Hkey.
  destruct (organigrama_data_closed puestos empleados)
    as (nodes & Hrun & Hdom & Hch).
  exists nodes, (Organigrama.roots (Organigrama.make_nodes puestos) puestos).
  split; [exact Hrun|].
  assert (∀ k n id text icon eid,
            nodes !! k = Some n →
            Organigrama.EmpleadoLeaf id text icon eid ∈ Organigrama.children n →
            ∃ emp', emp' ∈ empleados
                    ∧ Organigrama.EmpleadoLeaf id text icon eid
                      = Organigrama.empleado_leaf emp'
                    ∧ Store.e_puesto_id emp' = Some k
                    ∧ k ∈ map Store.p_id puestos) as Hleaf.
  { intros k n id text icon eid Hn Hin. rewrite (Hch k n Hn) in Hin.
    apply elem_of_app in Hin as [Hin|Hin].
    - apply elem_of_leaves_under in Hin as (emp' & Hin' & Heq & Hp).
      apply present_Some in Hp as (Hp & _ & Hs).
      exists emp'. split; [done|]. split; [done|]. split; [done|].
      by apply make_nodes_is_Some.
    - apply elem_of_refs_under in Hin as (p & _ & Heq & _). discriminate. }
  split; [|exact Hleaf].
  intros k n id text icon Hn Hin.
  destruct (Hleaf k n id text icon (Store.e_id emp) Hn Hin)
    as (emp' & Hin' & Heq & Hp & Hk).
  injection Heq as _ _ _ Hid.
  assert (emp = emp') as <-
    by exact (key_determines_row Store.e_id empleados emp emp' Hkey Hemp Hin' Hid).
  rewrite Hpid in Hp. injection Hp as ->. by apply Hnot.
Qed.

(** C10 at an employee placed at position 7 when only positions 1 and 2
    exist. *)
Lemma C10_unknown_position_is_omitted_witness :
  let puestos :=
    [ Store.Puesto 1 "Direccion" None None;
      Store.Puesto 2 "Ventas" None (Some 1) ] in
  let perdido := Store.Empleado 12 Py.CNull "Caro" (Some 7) None None in
  let empleados :=
    [ Store.Empleado 10 Py.CNull "Ana" (Some 2) None None; perdido ] in
  ∃ nodes forest,
    Organigrama.organigrama_data puestos empleados = Some (nodes, forest)
    ∧ ∀ k n id text icon,
        nodes !! k = Some n →
        Organigrama.EmpleadoLeaf id text icon 12 ∉ Organigrama.children n.
Proof.
  intros puestos perdido empleados.
  destruct (C10_unknown_position_is_omitted puestos empleados perdido 7)
    as (nodes & forest & Hrun & Hno & _).
  - apply list_elem_of_further, list_elem_of_here.
  - reflexivity.
  - intros Hin. repeat (apply elem_of_cons in Hin as [Hin|Hin]; [discriminate|]).
    by apply elem_of_nil in Hin.
  - simpl. apply NoDup_cons. split.
    + intros Hin. repeat (apply elem_of_cons in Hin as [Hin|Hin]; [discriminate|]).
      by apply elem_of_nil in Hin.
    + apply NoDup_singleton.
  - exists nodes, forest. split; [exact Hrun|]. exact Hno.
Defined.

(* ====================================================================== *)
(** * The import of employees *)
(* ====================================================================== *)

Section ImportFacts.
Import Store Personal.

Lemma empleados_find_or_create_departamento d nombre :
  empleados (find_or_create_departamento d nombre).1 = empleados d.
Proof.
  unfold find_or_create_departamento. destruct nombre as [n|]; [|done].
  by destruct (head _).
Qed.

Lemma empleados_find_or_create_puesto d nombre dept :
  empleados (find_or_create_puesto d nombre dept).1 = empleados d.
Proof.
  unfold find_or_create_puesto. destruct nombre as [n|]; [|done].
  by destruct (head _).
Qed.

(** A row whose key is empty or already known is skipped. *)
Lemma import_row_skip st row :
  Py.truthy_str (normalize_emp_id (rr_employee_number row)) = false
  ∨ normalize_emp_id (rr_employee_number row) ∈ existing_ids st →
  import_row st row = st.
Proof.
  unfold import_row. intros [-> | Hin]; [done|].
  rewrite (bool_decide_eq_true_2 _ Hin). by rewrite orb_true_r.
Qed.

(** A row with a new, non-empty key adds one employee under that key and
    records the key. *)
Lemma import_row_insert st row :
  Py.truthy_str (normalize_emp_id (rr_employee_number row)) = true →
  normalize_emp_id (rr_employee_number row) ∉ existing_ids st →
  ∃ emp,
    empleados (tables (import_row st row)) = empleados (tables st) ++ [emp]
    ∧ e_id_empleado emp = Py.CStr (normalize_emp_id (rr_employee_number row))
    ∧ e_nombre emp = or_empty_strip (rr_full_name row)
    ∧ existing_ids (import_row st row)
      = {[ normalize_emp_id (rr_employee_number row) ]} ∪ existing_ids st.
Proof.
  intros Ht Hnot. unfold import_row.
  rewrite Ht, (bool_decide_eq_false_2 _ Hnot). simpl.
  pose proof (empleados_find_or_create_departamento (tables st)
                (or_none (or_empty_strip (rr_department_name row)))) as Hd.
  destruct (find_or_create_departamento _ _) as [d1 dept]. simpl in Hd.
  pose proof (empleados_find_or_create_puesto d1
                (or_none (or_empty_strip (rr_puesto row))) dept) as Hp.
  destruct (find_or_create_puesto _ _ _) as [d2 pid]. simpl in Hp.
  eexists. simpl. rewrite Hp, Hd. by split_and!.
Qed.

Lemma import_row_cases st row :
  import_row st row = st
  ∨ ∃ emp,
      empleados (tables (import_row st row)) = empleados (tables st) ++ [emp]
      ∧ e_id_empleado emp = Py.CStr (normalize_emp_id (rr_employee_number row))
      ∧ e_nombre emp = or_empty_strip (rr_full_name row)
      ∧ existing_ids (import_row st row)
        = {[ normalize_emp_id (rr_employee_number row) ]} ∪ existing_ids st.
Proof.
  destruct (Py.truthy_str (normalize_emp_id (rr_employee_number row))) eqn:Ht.
  - destruct (decide (normalize_emp_id (rr_employee_number row)
                      ∈ existing_ids st)) as [Hin|Hnot].
    + left. apply import_row_skip. by right.
    + right. by apply import_row_insert.
  - left. apply import_row_skip. by left.
Qed.

Lemma existing_ids_import_row st row k :
  k ∈ existing_ids st → k ∈ existing_ids (import_row st row).
Proof.
  intros Hk. destruct (import_row_cases st row) as [->|(emp & _ & _ & _ & ->)];
    [done|]. apply elem_of_union. by right.
Qed.

Lemma existing_ids_foldl rows st k :
  k ∈ existing_ids st → k ∈ existing_ids (foldl import_row st rows).
Proof.
  revert st. induction rows as [|r rows IH]; intros st Hk; [done|].
  simpl. by apply IH, existing_ids_import_row.
Qed.

(** Once a row has been processed, its key is known (or it is empty). *)
Lemma import_row_records st row :
  Py.truthy_str (normalize_emp_id (rr_employee_number row)) = true →
  normalize_emp_id (rr_employee_number row) ∈ existing_ids (import_row st row).
Proof.
  intros Ht.
  destruct (decide (normalize_emp_id (rr_employee_number row)
                    ∈ existing_ids st)) as [Hin|Hnot].
  - by apply existing_ids_import_row.
  - destruct (import_row_insert st row Ht Hnot) as (emp & _ & _ & _ & ->).
    apply elem_of_union. left. by apply elem_of_singleton.
Qed.

(** A later row with the key of an earlier one changes nothing. *)
Lemma foldl_import_duplicate st pre mid post r1 r2 :
  normalize_emp_id (rr_employee_number r1)
  = normalize_emp_id (rr_employee_number r2) →
  foldl import_row st (pre ++ r1 :: mid ++ r2 :: post)
  = foldl import_row st (pre ++ r1 :: mid ++ post).
Proof.
  intros Hkey. rewrite !foldl_app. simpl. rewrite !foldl_app. simpl.
  f_equal. apply import_row_skip. rewrite <- Hkey.
  destruct (Py.truthy_str (normalize_emp_id (rr_employee_number r1))) eqn:Ht;
    [right|by left].
  by apply existing_ids_foldl, import_row_records.
Qed.

Lemma truthy_list_middle {A} (pre : list A) x post :
  Py.truthy_list (pre ++ x :: post) = true.
Proof. by destruct pre. Qed.

(** ** Counting the employees under one key *)

Lemma with_id_empleado_snoc key d d' emp :
  empleados d' = empleados d ++ [emp] →
  with_id_empleado key d'
  = with_id_empleado key d
    ++ (if bool_decide (e_id_empleado emp = Py.CStr key) then [emp] else []).
Proof.
  intros H. unfold with_id_empleado. rewrite H, List.filter_app. simpl.
  by case_bool_decide.
Qed.

(** While no row with the key has come, nobody is stored under it. *)
Lemma foldl_import_other_keys key rows st :
  (∀ r, r ∈ rows → normalize_emp_id (rr_employee_number r) ≠ key) →
  key ∉ existing_ids st → with_id_empleado key (tables st) = [] →
  (key ∉ existing_ids (foldl import_row st rows))
  ∧ with_id_empleado key (tables (foldl import_row st rows)) = [].
Proof.
  revert st. induction rows as [|r rows IH]; intros st Hrows Hnot Hnone;
    [done|].
  simpl. apply IH.
  - intros r' Hr'. apply Hrows. by apply list_elem_of_further.
  - destruct (import_row_cases st r) as [->|(emp & _ & _ & _ & ->)]; [done|].
    intros [Hin|Hin]%elem_of_union; [|done].
    apply elem_of_singleton in Hin.
    by apply (Hrows r (list_elem_of_here _ _)).
  - destruct (import_row_cases st r) as [->|(emp & Hrows' & Hid & _ & _)];
      [done|].
    rewrite (with_id_empleado_snoc key _ _ emp Hrows'), Hnone. simpl.
    rewrite bool_decide_eq_false_2; [done|]. rewrite Hid. intros [= Heq].
    by apply (Hrows r (list_elem_of_here _ _)).
Qed.

(** Once the key is known, the employees under it stay as they are. *)
Lemma foldl_import_known_key key rows st :
  key ∈ existing_ids st →
  with_id_empleado key (tables (foldl import_row st rows))
  = with_id_empleado key (tables st).
Proof.
  revert st. induction rows as [|r rows IH]; intros st Hin; [done|].
  simpl. rewrite IH by by apply existing_ids_import_row.
  destruct (Py.truthy_str (normalize_emp_id (rr_employee_number r))) eqn:Ht.
  - destruct (decide (normalize_emp_id (rr_employee_number r)
                      ∈ existing_ids st)) as [Hk|Hk].
    + rewrite import_row_skip; [done|by right].
    + destruct (import_row_insert st r Ht Hk) as (emp & Hrows' & Hid & _ & _).
      rewrite (with_id_empleado_snoc key _ _ emp Hrows').
      rewrite bool_decide_eq_false_2; [by rewrite app_nil_r|].
      rewrite Hid. intros [= Heq]. subst key. by apply Hk.
  - rewrite import_row_skip; [done|by left].
Qed.

(** Nobody is stored under a key that normalisation fixes and that is not
    among the known ones at the start. *)
Lemma with_id_empleado_initial key d :
  Py.truthy_str key = true → normalize_emp_id (Py.CStr key) = key →
  key ∉ initial_existing_ids d → with_id_empleado key d = [].
Proof.
  intros Ht Hfix Hnot. unfold with_id_empleado.
  destruct (List.filter _ (empleados d)) as [|x l] eqn:E; [done|].
  assert (In x (List.filter
                  (λ x, bool_decide (e_id_empleado x = Py.CStr key))
                  (empleados d))) as Hx by (rewrite E; by left).
  apply List.filter_In in Hx as [Hin Hid]. apply bool_decide_eq_true in Hid.
  destruct Hnot. unfold initial_existing_ids. apply elem_of_list_to_set.
  apply list_elem_of_fmap. exists x. split; [by rewrite Hid|].
  apply list_elem_of_In, List.filter_In. split; [done|]. by rewrite Hid.
Qed.

(** The first row with a new key is the one stored under it. *)
Lemma foldl_import_first key pre r1 rest d :
  Py.truthy_str key = true → normalize_emp_id (Py.CStr key) = key →
  normalize_emp_id (rr_employee_number r1) = key →
  key ∉ initial_existing_ids d →
  (∀ r, r ∈ pre → normalize_emp_id (rr_employee_number r) ≠ key) →
  ∃ emp,
    with_id_empleado key
      (tables (foldl import_row
                 {| tables := d; existing_ids := initial_existing_ids d;
                    imported := 0 |}
                 (pre ++ r1 :: rest))) = [emp]
    ∧ e_nombre emp = or_empty_strip (rr_full_name r1).
Proof.
  intros Ht Hfix Hkey Hnot Hpre.
  set (st0 := {| tables := d; existing_ids := initial_existing_ids d;
                 imported := 0 |}).
  destruct (foldl_import_other_keys key pre st0 Hpre Hnot
              (with_id_empleado_initial key d Ht Hfix Hnot)) as [Hnot1 Hnone1].
  rewrite foldl_app. simpl.
  set (st1 := foldl import_row st0 pre) in *.
  destruct (import_row_insert st1 r1) as (emp & Hrows & Hid & Hname & Hex).
  { by rewrite Hkey. }
  { by rewrite Hkey. }
  exists emp. split; [|done].
  rewrite foldl_import_known_key.
  - rewrite (with_id_empleado_snoc key _ _ emp Hrows), Hnone1. simpl.
    by rewrite bool_decide_eq_true_2 by by rewrite Hid, Hkey.
  - rewrite Hex, Hkey. apply elem_of_union. left. by apply elem_of_singleton.
Qed.

End ImportFacts.

(** C7: [normalize_emp_id] gives the key 00123 for both 123 and 00123.  In
    an import, a row whose key equals that of an earlier row is skipped: the
    import ends as if the later row were not there.  When the key 00123 is
    new and a row with it comes first among the rows with that key, exactly
    one employee is stored under 00123 afterwards, and it carries the name
    of that first row. *)
Theorem C7_padded_id_is_duplicate :
  Personal.normalize_emp_id (Py.CStr "123") = "00123"
  ∧ Personal.normalize_emp_id (Py.CStr "00123") = "00123"
  ∧ (∀ d pre mid post r1 r2,
       Personal.normalize_emp_id (Personal.rr_employee_number r1)
       = Personal.normalize_emp_id (Personal.rr_employee_number r2) →
       Personal.importar d (Some (pre ++ r1 :: mid ++ r2 :: post))
       = Personal.importar d (Some (pre ++ r1 :: mid ++ post)))
  ∧ (∀ d pre mid post r1 r2,
       Personal.normalize_emp_id (Personal.rr_employee_number r1) = "00123" →
       Personal.normalize_emp_id (Personal.rr_employee_number r2) = "00123" →
       "00123" ∉ Personal.initial_existing_ids d →
       (∀ r, r ∈ pre →
             Personal.normalize_emp_id (Personal.rr_employee_number r) ≠ "00123") →
       ∃ emp,
         Personal.with_id_empleado "00123"
           (Personal.importar d (Some (pre ++ r1 :: mid ++ r2 :: post))).1 = [emp]
         ∧ Store.e_nombre emp
           = Personal.or_empty_strip (Personal.rr_full_name r1)).
Proof.
  split; [reflexivity|]. split; [reflexivity|]. split.
  - intros d pre mid post r1 r2 Hkey. unfold Personal.importar.
    rewrite !truthy_list_middle. simpl.
    by rewrite (foldl_import_duplicate _ pre mid post r1 r2 Hkey).
  - intros d pre mid post r1 r2 H1 H2 Hnew Hpre. unfold Personal.importar.
    rewrite truthy_list_middle. simpl.
    by apply foldl_import_first.
Qed.

(** C7 at an import of 123 followed by 00123 into the sample data. *)
Lemma C7_padded_id_is_duplicate_witness :
  let r1 := Personal.RemoteRow (Py.CStr "123") (Some " Carla ") (Some "Vendedor") None in
  let r2 := Personal.RemoteRow (Py.CStr "00123") (Some "Dora") None None in
  Personal.importar Examples.tables (Some ([] ++ r1 :: [] ++ r2 :: []))
  = Personal.importar Examples.tables (Some ([] ++ r1 :: [] ++ []))
  ∧ ∃ emp,
      Personal.with_id_empleado "00123"
        (Personal.importar Examples.tables (Some ([] ++ r1 :: [] ++ r2 :: []))).1
      = [emp]
      ∧ Store.e_nombre emp = "Carla".
Proof.
  intros r1 r2.
  destruct C7_padded_id_is_duplicate as (_ & _ & Hdup & Hfirst).
  split.
  - apply Hdup. reflexivity.
  - apply (Hfirst Examples.tables [] [] [] r1 r2); [reflexivity|reflexivity| |].
    + intros Hin. apply elem_of_list_to_set in Hin.
      repeat (apply elem_of_cons in Hin as [Hin|Hin]; [discriminate|]).
      by apply elem_of_nil in Hin.
    + by intros r ?%elem_of_nil.
Defined.

(* ====================================================================== *)
(** * Further properties of [mis_kpis] *)
(* ====================================================================== *)

Section SubmitMore.
Import Store Conn MisKpis Facts.
Variable float : string → option Py.pyfloat.
Variable descripcion_leb : string → string → bool.

Lemma zip3_take {A B C} (a : list A) (b : list B) (c : list C) :
  let m := Nat.min (Nat.min (length a) (length b)) (length c) in
  zip3 (take m a) (take m b) (take m c) = zip3 a b c
  ∧ length (zip3 a b c) = m.
Proof.
  revert b c. induction a as [|x a IH]; intros [|y b] [|z c]; simpl;
    try done.
  all: try (rewrite ?Nat.min_0_r; simpl; done).
  by destruct (IH b c) as [-> ->].
Qed.

(** One pass on a connection that carries fewer than three statements: it
    raises before its write, and the tables are as before. *)
Lemma submit_one_short target period t c n :
  autocommitted c → link c = Some n → (n < 3)%nat →
  ∃ ex c', submit_one float target period t c = (Raise ex, c')
           ∧ durable c' = durable c.
Proof.
  intros [Hc Hd] Hl Hn. destruct t as [[kpi_id valor] texto].
  destruct c as [cf du wk lk lg]. simpl in Hl, Hc, Hd. subst lk cf du.
  unfold submit_one, select_es_criterio, select_resultado_id,
    update_resultado, insert_resultado.
  unfold mbind, M_bind, bind, execute, advance, escape_float.
  destruct n as [|[|[|n]]]; [| | |lia]; simpl.
  - eauto.
  - eauto.
  - destruct (head (List.filter (λ k, k_id k =? kpi_id) (kpis wk)))
      as [k0|]; simpl;
      try destruct (Py.truthy_opt_int (k_es_criterio k0)); simpl;
      try destruct (parse_valor float valor) as [[q|]|]; simpl;
      destruct (head (List.filter (result_key target kpi_id period)
                                  (kpi_resultados wk))); simpl; eauto.
Qed.

(** The loop on a connection that carries [n] more statements: the triples
    that get their three statements and come before the first refused
    write are applied, the others are not. *)
Lemma for_each_submit_budget target period batch c n :
  autocommitted c → link c = Some n →
  ∃ r c',
    for_each batch (submit_one float target period) c = (r, c')
    ∧ durable c'
      = foldl (upsert float target period) (working c)
          (take (Nat.min (n / 3) (length (accepted float (working c) batch)))
                batch)
    ∧ (r = Ok tt ↔ (3 * length batch ≤ n)%nat
                   ∧ all_accepted float (working c) batch = true).
Proof.
  revert c n. induction batch as [|t batch IH]; intros c n Hauto Hlink.
  - exists (Ok tt), c. simpl. rewrite take_nil. simpl.
    destruct Hauto as [_ ->]. split_and!; [done..|]. split; [|done].
    intros _. split; [lia|done].
  - destruct (decide (n < 3)%nat) as [Hlt|Hge].
    { destruct (submit_one_short target period t c n Hauto Hlink Hlt)
        as (ex & c' & Hrun & Hd).
      exists (Raise ex), c'. simpl for_each.
      rewrite (bind_raise _ _ c ex c' Hrun).
      rewrite (Nat.div_small n 3 Hlt). simpl.
      destruct Hauto as [_ Hdw]. split_and!; [done|congruence|].
      split; [done|]. simpl. lia. }
    destruct (refused float (working c) t) eqn:Ht.
    { pose proof (submit_one_refused float target period t c Hauto Ht
                    ltac:(intros k Hk; rewrite Hlink in Hk; injection Hk; lia))
        as Hrun.
      eexists (Raise ProgrammingError), _. simpl for_each.
      rewrite (bind_raise _ _ c ProgrammingError _ Hrun).
      split; [reflexivity|]. simpl. rewrite Ht. simpl.
      rewrite Nat.min_0_r. simpl. split; [done|].
      split; [done|]. by intros [_ ?]. }
    pose proof (submit_one_up float target period t c Hauto Ht
                  ltac:(intros k Hk; rewrite Hlink in Hk; injection Hk; lia))
      as Hrun.
    rewrite Hlink in Hrun. simpl in Hrun.
    set (c1 := MkConn DB_CONFIG (upsert float target period (working c) t)
                 (upsert float target period (working c) t)
                 (Some (pred (pred (pred n))))
                 (log c ++ upsert_stmts float target period (working c) t))
      in Hrun.
    destruct (IH c1 (pred (pred (pred n)))) as (r & c' & Hloop & Hd & Hr);
      [by split|done|].
    simpl working in Hd, Hr.
    rewrite (accepted_kpis float (working c)) in Hd by apply kpis_upsert.
    rewrite (all_accepted_kpis float (working c)) in Hr by apply kpis_upsert.
    exists r, c'. simpl for_each. rewrite (bind_ok _ _ c tt c1 Hrun).
    split; [exact Hloop|]. split.
    + rewrite Hd. simpl accepted. rewrite Ht. simpl length.
      assert (n / 3 = S (pred (pred (pred n)) / 3))%nat as ->.
      { replace n with (pred (pred (pred n)) + 1 * 3)%nat at 1 by lia.
        rewrite Nat.div_add by lia. lia. }
      by rewrite <- Nat.succ_min_distr.
    + rewrite Hr, all_accepted_cons. simpl length.
      split; [intros [H1 H2]|intros [H1 [_ H2]]]; (split; [lia|done]).
Qed.

(** Whatever the connection does and whatever the values are, the POST
    leaves the tables a prefix of the batch produces. *)
Lemma mis_kpis_post_db server link e today f :
  ∃ m,
    (mis_kpis float descripcion_leb server link (Some e) today (POST f)).1.2
    = foldl (upsert float (default e (target_empleado_id f))
                    (current_period today))
            server (take m (zip3 (kpi_ids f) (values f) (textos f))).
Proof.
  destruct link as [n|].
  - eexists. unfold mis_kpis, mis_kpis_post.
    assert (match target_empleado_id f with Some t => t | None => e end
            = default e (target_empleado_id f)) as ->
      by by destruct (target_empleado_id f).
    destruct (for_each_submit_budget (default e (target_empleado_id f))
                (current_period today)
                (zip3 (kpi_ids f) (values f) (textos f))
                (get_db_connection server (Some n)) n
                (autocommitted_open _ _) eq_refl) as (r & c' & Hrun & Hd & _).
    unfold mbind, M_bind, bind. rewrite Hrun.
    destruct r as [[]|ex]; simpl; exact Hd.
  - exists (length (accepted float server
                      (zip3 (kpi_ids f) (values f) (textos f)))).
    rewrite mis_kpis_post_none. simpl.
    by rewrite <- (proj1 (accepted_prefix float server _)).
Qed.

Lemma result_key_true e k p r :
  result_key e k p r = true
  ↔ r_empleado_id r = e ∧ r_kpi_id r = k ∧ r_periodo r = p.
Proof.
  unfold result_key.
  rewrite !andb_true_iff, !Z.eqb_eq, bool_decide_eq_true. tauto.
Qed.

Lemma results_for_upsert_update target period d kpi_id valor texto r0 l e k p :
  results_for d target kpi_id period = r0 :: l →
  results_for (upsert float target period d (kpi_id, valor, texto)) e k p
  = map (λ r, if r_id r =? r_id r0
              then set_valor
                     (if is_criterio d kpi_id then None
                      else Py.finite (parse_valor float valor))
                     (if is_criterio d kpi_id then Some texto else None) r
              else r)
        (results_for d e k p).
Proof.
  intros Hex. unfold upsert. rewrite upsert_parts_unfold, Hex. simpl.
  unfold results_for. simpl. apply filter_key_update.
Qed.

Lemma results_for_upsert_insert target period d kpi_id valor texto e k p :
  results_for d target kpi_id period = [] →
  results_for (upsert float target period d (kpi_id, valor, texto)) e k p
  = results_for d e k p
    ++ (if decide (e = target ∧ k = kpi_id ∧ p = period)
        then [ KpiResultado (next_id r_id (kpi_resultados d)) target kpi_id
                 period
                 (if is_criterio d kpi_id then None
                  else Py.finite (parse_valor float valor))
                 (if is_criterio d kpi_id then Some texto else None)
                 cerrado_default cerrado_por_default ]
        else []).
Proof.
  intros Hex. unfold upsert. rewrite upsert_parts_unfold, Hex. simpl.
  unfold results_for. simpl. rewrite List.filter_app. f_equal. simpl.
  case_decide as Hk.
  - destruct Hk as (-> & -> & ->). by rewrite result_key_new.
  - destruct (result_key e k p _) eqn:E; [|done].
    apply result_key_true in E. simpl in E. destruct Hk.
    by destruct E as (-> & -> & ->).
Qed.

Lemma keys_unique_upsert target period d t :
  keys_unique d → keys_unique (upsert float target period d t).
Proof.
  intros Hu e k p. destruct t as [[kpi_id valor] texto].
  destruct (results_for d target kpi_id period) as [|r0 l] eqn:Hex.
  - rewrite (results_for_upsert_insert _ _ _ _ _ _ _ _ _ Hex).
    case_decide as Hk.
    + destruct Hk as (-> & -> & ->). by rewrite Hex.
    + rewrite app_nil_r. apply Hu.
  - rewrite (results_for_upsert_update _ _ _ _ _ _ _ _ _ _ _ Hex).
    rewrite length_map. apply Hu.
Qed.

Lemma keys_unique_foldl target period batch d :
  keys_unique d → keys_unique (foldl (upsert float target period) d batch).
Proof.
  revert d. induction batch as [|t batch IH]; intros d Hu; [done|].
  simpl. by apply IH, keys_unique_upsert.
Qed.

Lemma length_batch_stmts target period d batch :
  length (batch_stmts float target period d batch) = (3 * length batch)%nat.
Proof.
  revert d. induction batch as [|t batch IH]; intros d; [done|].
  simpl. rewrite length_app, IH. unfold upsert_stmts.
  destruct (upsert_parts _ _ _ _ _) as [[? ?] ?]. simpl. lia.
Qed.

(** Where the accepted triples stop, a refused write stands. *)
Lemma accepted_stop d batch :
  all_accepted float d batch = false →
  ∃ t, batch !! length (accepted float d batch) = Some t
       ∧ refused float d t = true.
Proof.
  induction batch as [|t batch IH]; [done|]. unfold all_accepted. simpl.
  destruct (refused float d t) eqn:Ht; simpl; [by exists t|].
  intros H. by apply IH.
Qed.

Lemma length_queries_at target period d batch :
  length (queries_at target period batch (length (accepted float d batch)))
  = if all_accepted float d batch then 0%nat else 2%nat.
Proof.
  unfold queries_at. destruct (all_accepted float d batch) eqn:Hall.
  - rewrite (accepted_length float d batch Hall).
    by rewrite lookup_ge_None_2.
  - by destruct (accepted_stop d batch Hall) as (t & -> & _).
Qed.

End SubmitMore.

(** X1: a failing POST keeps a prefix of the batch.  When the connection
    is lost after [n] statements, the POST leaves the tables exactly as a
    successful POST of the first [k] triples leaves them, where [k] is the
    lesser of [n / 3] and the number of triples before the first write the
    driver refuses: a triple is applied wholly or not at all, and the
    applied ones are a prefix of the batch.  The request succeeds exactly
    when all triples got their three statements and no write was
    refused. *)
Theorem X1_lost_connection_keeps_a_prefix
    (float : string → option Py.pyfloat) (leb : string → string → bool)
    (server : Store.db) (n : nat) (e : Z) (today : Store.date)
    (f : MisKpis.form) :
  let batch := MisKpis.zip3 (MisKpis.kpi_ids f) (MisKpis.values f)
                            (MisKpis.textos f) in
  let k := Nat.min (n / 3) (length (MisKpis.accepted float server batch)) in
  let lost :=
    MisKpis.mis_kpis float leb server (Some n) (Some e) today (MisKpis.POST f) in
  let kept :=
    MisKpis.mis_kpis float leb server None (Some e) today
      (MisKpis.POST (MisKpis.form_of (MisKpis.target_empleado_id f)
                       (take k batch))) in
  kept.1.1 = Conn.Ok MisKpis.RedirectMisKpis
  ∧ lost.1.2 = kept.1.2
  ∧ (lost.1.1 = Conn.Ok MisKpis.RedirectMisKpis
     ↔ (3 * length batch ≤ n)%nat
       ∧ MisKpis.all_accepted float server batch = true).
Proof.
  intros batch k lost kept. unfold kept.
  rewrite mis_kpis_post_healthy
    by (rewrite zip3_form_of; apply all_accepted_take; unfold k; lia).
  rewrite zip3_form_of. simpl. split; [done|].
  unfold lost, MisKpis.mis_kpis, MisKpis.mis_kpis_post.
  assert (match MisKpis.target_empleado_id f with Some t => t | None => e end
          = default e (MisKpis.target_empleado_id f)) as ->
    by by destruct (MisKpis.target_empleado_id f).
  destruct (for_each_submit_budget float
              (default e (MisKpis.target_empleado_id f))
              (Store.current_period today) batch
              (Conn.get_db_connection server (Some n)) n
              (autocommitted_open _ _) eq_refl) as (r & c' & Hrun & Hd & Hr).
  fold batch. unfold mbind, Conn.M_bind, Conn.bind. rewrite Hrun.
  simpl in Hd, Hr. fold k in Hd.
  destruct r as [[]|ex]; simpl.
  - split; [exact Hd|]. split; [intros _; by apply Hr|done].
  - split; [exact Hd|]. split; [done|]. intros Hn. by apply Hr in Hn.
Qed.

(** X2: the submission loop runs over [zip] of the three form lists, so the
    entries beyond the shortest list are dropped without notice: the POST of
    a form equals the POST of the form cut to the shortest list, on every
    connection.  The kept triples number as many as the shortest list, and
    a healthy POST sends three statements for each triple before the first
    write the driver refuses, and two more when there is such a write. *)
Theorem X2_unmatched_form_entries_are_dropped
    (float : string → option Py.pyfloat) (leb : string → string → bool)
    (server : Store.db) (link : option nat) (e : Z) (today : Store.date)
    (f : MisKpis.form) :
  let batch := MisKpis.zip3 (MisKpis.kpi_ids f) (MisKpis.values f)
                            (MisKpis.textos f) in
  MisKpis.mis_kpis float leb server link (Some e) today (MisKpis.POST f)
  = MisKpis.mis_kpis float leb server link (Some e) today
      (MisKpis.POST (Facts.truncated f))
  ∧ length batch
    = Nat.min (Nat.min (length (MisKpis.kpi_ids f))
                       (length (MisKpis.values f)))
              (length (MisKpis.textos f))
  ∧ length (MisKpis.mis_kpis float leb server None (Some e) today
              (MisKpis.POST f)).2
    = (3 * length (MisKpis.accepted float server batch)
       + (if MisKpis.all_accepted float server batch then 0 else 2))%nat.
Proof.
  intros batch.
  destruct (zip3_take (MisKpis.kpi_ids f) (MisKpis.values f) (MisKpis.textos f))
    as [Hzip Hlen].
  split; [|split; [exact Hlen|]].
  - unfold MisKpis.mis_kpis, MisKpis.mis_kpis_post, Facts.truncated. simpl.
    by rewrite Hzip.
  - rewrite mis_kpis_post_none. simpl. fold batch.
    by rewrite length_app, length_batch_stmts, length_queries_at.
Qed.

(** X3: the POST keeps the key of [kpi_resultados] unique.  If there is at
    most one row per employee, KPI and period before, there is at most one
    after, on every connection and for every form (a KPI repeated within
    the batch included). *)
Theorem X3_submission_keeps_keys_unique
    (float : string → option Py.pyfloat) (leb : string → string → bool)
    (server : Store.db) (link : option nat) (e : Z) (today : Store.date)
    (f : MisKpis.form) :
  Facts.keys_unique server →
  Facts.keys_unique
    (MisKpis.mis_kpis float leb server link (Some e) today (MisKpis.POST f)).1.2.
Proof.
  intros Hu.
  destruct (mis_kpis_post_db float leb server link e today f) as [m ->].
  by apply keys_unique_foldl.
Qed.

(** X3 at a batch that names KPI 1 twice, on the sample data. *)
Lemma X3_submission_keeps_keys_unique_witness :
  Facts.keys_unique
    (MisKpis.mis_kpis Examples.float_decimal Examples.descripcion_leb
       Examples.tables None (Some 11) Examples.today
       (MisKpis.POST (MisKpis.form_of None [(1, "85", ""); (1, "90", "")]))).1.2.
Proof.
  apply X3_submission_keeps_keys_unique. intros e k p. simpl. lia.
Defined.

Section SubmitFrame.
Import Store Conn MisKpis Facts.
Variable float : string → option Py.pyfloat.

Lemma upsert_other_tables target period d t :
  let d' := upsert float target period d t in
  empleados d' = empleados d ∧ puestos d' = puestos d
  ∧ departamentos d' = departamentos d ∧ kpis d' = kpis d
  ∧ puesto_kpis d' = puesto_kpis d.
Proof.
  unfold upsert. by destruct (upsert_parts _ _ _ _ _) as [[v x] [id|]].
Qed.

Lemma foldl_upsert_other_tables target period batch d :
  let d' := foldl (upsert float target period) d batch in
  empleados d' = empleados d ∧ puestos d' = puestos d
  ∧ departamentos d' = departamentos d ∧ kpis d' = kpis d
  ∧ puesto_kpis d' = puesto_kpis d.
Proof.
  revert d. induction batch as [|t batch IH]; intros d; [done|].
  simpl. destruct (IH (upsert float target period d t)) as (-> & -> & -> & -> & ->).
  apply upsert_other_tables.
Qed.

(** One pass keeps the row ids distinct, keeps every row at its place, and
    leaves alone the rows whose key is not the one it writes. *)
Lemma upsert_frame target period d kpi_id valor texto :
  NoDup (map r_id (kpi_resultados d)) →
  let d' := upsert float target period d (kpi_id, valor, texto) in
  NoDup (map r_id (kpi_resultados d'))
  ∧ ∀ i r, kpi_resultados d !! i = Some r →
           ∃ r', kpi_resultados d' !! i = Some r'
                 ∧ r_id r' = r_id r ∧ r_empleado_id r' = r_empleado_id r
                 ∧ r_kpi_id r' = r_kpi_id r ∧ r_periodo r' = r_periodo r
                 ∧ r_cerrado r' = r_cerrado r
                 ∧ r_cerrado_por r' = r_cerrado_por r
                 ∧ (¬ (r_empleado_id r = target ∧ r_kpi_id r = kpi_id
                       ∧ r_periodo r = period) → r' = r).
Proof.
  intros Hnd. unfold upsert. rewrite upsert_parts_unfold.
  destruct (head (results_for d target kpi_id period)) as [r0|] eqn:Hex; simpl.
  - assert (r0 ∈ kpi_resultados d
            ∧ (r_empleado_id r0 = target ∧ r_kpi_id r0 = kpi_id
               ∧ r_periodo r0 = period)) as [Hin0 Hkey0].
    { unfold results_for in Hex.
      destruct (List.filter _ (kpi_resultados d)) as [|x l] eqn:E; [done|].
      injection Hex as ->.
      assert (In r0 (List.filter (result_key target kpi_id period)
                                 (kpi_resultados d))) as Hin
        by (rewrite E; by left).
      apply List.filter_In in Hin as [Hin Hk]. split.
      - by apply list_elem_of_In.
      - by apply result_key_true. }
    split.
    + rewrite map_map.
      erewrite map_ext; [exact Hnd|]. intros r. by destruct (r_id r =? r_id r0).
    + intros i r Hi. rewrite list_lookup_fmap, Hi. simpl.
      eexists. split; [reflexivity|].
      destruct (r_id r =? r_id r0) eqn:E; [|by split_and!].
      split_and!; try reflexivity. intros Hnot.
      apply Z.eqb_eq in E.
      assert (r = r0) as ->.
      { apply (key_determines_row r_id (kpi_resultados d)); try done.
        apply list_elem_of_lookup. eauto. }
      by destruct Hnot.
  - split.
    + rewrite map_app. simpl. apply NoDup_app. split; [done|]. split.
      * intros x Hx ->%list_elem_of_singleton.
        apply list_elem_of_fmap in Hx as (r & Hid & Hr).
        apply (next_id_above r_id) in Hr. lia.
      * apply NoDup_singleton.
    + intros i r Hi. exists r. split; [|by split_and!].
      by apply lookup_app_l_Some.
Qed.

Lemma foldl_upsert_frame target period batch d :
  NoDup (map r_id (kpi_resultados d)) →
  let d' := foldl (upsert float target period) d batch in
  ∀ i r, kpi_resultados d !! i = Some r →
         ∃ r', kpi_resultados d' !! i = Some r'
               ∧ r_id r' = r_id r ∧ r_empleado_id r' = r_empleado_id r
               ∧ r_kpi_id r' = r_kpi_id r ∧ r_periodo r' = r_periodo r
               ∧ r_cerrado r' = r_cerrado r
               ∧ r_cerrado_por r' = r_cerrado_por r
               ∧ (r_empleado_id r ≠ target ∨ r_periodo r ≠ period
                  ∨ r_kpi_id r ∉ map (λ t, t.1.1) batch → r' = r).
Proof.
  revert d. induction batch as [|[[kpi_id valor] texto] batch IH];
    intros d Hnd; simpl.
  - intros i r Hi. exists r. by split_and!.
  - destruct (upsert_frame target period d kpi_id valor texto Hnd)
      as [Hnd1 Hrows1].
    intros i r Hi.
    destruct (Hrows1 i r Hi) as (r1 & Hi1 & E1 & E2 & E3 & E4 & E5 & E6 & Hsame1).
    destruct (IH _ Hnd1 i r1 Hi1)
      as (r2 & Hi2 & F1 & F2 & F3 & F4 & F5 & F6 & Hsame2).
    exists r2. split; [done|].
    split_and!; try congruence.
    intros Hout.
    assert (r1 = r) as ->.
    { apply Hsame1. intros (He & Hk & Hp).
      destruct Hout as [?|[?|Hnot]]; [done..|].
      apply Hnot. rewrite Hk. apply list_elem_of_here. }
    apply Hsame2. destruct Hout as [?|[?|Hnot]]; [by left|by right; left|].
    right. right. intros Hin. apply Hnot. by apply list_elem_of_further.
Qed.

Lemma zip3_kpi_ids {A B C} (a : list A) (b : list B) (c : list C) x :
  x ∈ map (λ t : A * B * C, t.1.1) (zip3 a b c) → x ∈ a.
Proof.
  revert b c. induction a as [|y a IH]; intros [|z b] [|w c]; simpl;
    try (by intros ?%elem_of_nil).
  intros [->|Hin]%elem_of_cons; [apply list_elem_of_here|].
  apply list_elem_of_further. by apply (IH b c).
Qed.

End SubmitFrame.

(** X4: what a submission stores is decided by the KPI's kind and by what
    [float] makes of the value.  In a healthy POST whose earlier writes are
    accepted, the last triple ends in one of two ways.  Either the request
    succeeds and the row for the triple's key holds, for a qualitative KPI,
    the text and no number, and for a metric KPI no text and the finite
    number [float] gives, or no number when the value is empty (in which
    case [float] is not consulted) or rejected.  Or, for a metric KPI
    whose value [float] reads as [inf] or [nan], the request fails with
    [ProgrammingError] and the tables are those the earlier triples left. *)
Theorem X4_kind_decides_what_is_stored
    (float : string → option Py.pyfloat) (leb : string → string → bool)
    (server : Store.db) (e : Z) (today : Store.date) (target : option Z)
    (pre : list (Z * string * string)) (kpi_id : Z) (valor texto : string) :
  let tgt := default e target in
  let period := Store.current_period today in
  let run :=
    MisKpis.mis_kpis float leb server None (Some e) today
      (MisKpis.POST (MisKpis.form_of target (pre ++ [(kpi_id, valor, texto)]))) in
  let before :=
    (MisKpis.mis_kpis float leb server None (Some e) today
       (MisKpis.POST (MisKpis.form_of target pre))).1.2 in
  let stored v x :=
    run.1.1 = Conn.Ok MisKpis.RedirectMisKpis
    ∧ ∃ r, head (MisKpis.results_for run.1.2 tgt kpi_id period) = Some r
           ∧ Store.r_valor r = v ∧ Store.r_texto_resultado r = x in
  MisKpis.all_accepted float server pre = true →
  (MisKpis.is_criterio server kpi_id = true → stored None (Some texto))
  ∧ (MisKpis.is_criterio server kpi_id = false →
     match valor with
     | EmptyString => stored None None
     | String _ _ =>
         match float valor with
         | None => stored None None
         | Some (Py.Finite q) => stored (Some q) None
         | Some Py.NonFinite =>
             run.1.1 = Conn.Raise Conn.ProgrammingError ∧ run.1.2 = before
         end
     end).
Proof.
  intros tgt period run before stored Hpre.
  destruct (mis_kpis_post_split float leb server e today target pre
              [(kpi_id, valor, texto)] Hpre) as [Hfirst Hwhole].
  fold tgt period in Hfirst, Hwhole.
  set (d_pre := foldl (MisKpis.upsert float tgt period) server pre) in *.
  assert (before = d_pre) as Hbefore by (unfold before; by rewrite Hfirst).
  assert (MisKpis.is_criterio d_pre kpi_id = MisKpis.is_criterio server kpi_id)
    as Hc by (unfold d_pre; apply is_criterio_foldl_upsert).
  pose proof (mis_kpis_post_none float leb d_pre e today
                (MisKpis.form_of target [(kpi_id, valor, texto)])) as Hrest.
  rewrite zip3_form_of in Hrest.
  cbn [MisKpis.form_of MisKpis.target_empleado_id fst snd] in Hrest.
  fold tgt period in Hrest.
  unfold MisKpis.all_accepted in Hrest.
  cbn [MisKpis.accepted forallb] in Hrest.
  fold (MisKpis.form_of target [(kpi_id, valor, texto)]) in Hrest.
  rewrite Hrest in Hwhole. clear Hrest.
  assert (MisKpis.refused float d_pre (kpi_id, valor, texto) = false →
          ∀ v x,
            (if MisKpis.is_criterio server kpi_id then None
             else Py.finite (MisKpis.parse_valor float valor)) = v →
            (if MisKpis.is_criterio server kpi_id then Some texto else None)
            = x →
            stored v x) as Hstored.
  { intros Href v x Hv Hx. rewrite Href in Hwhole. unfold stored, run.
    rewrite Hwhole. cbn [negb andb fst snd foldl]. split; [done|].
    destruct (upsert_head float tgt period d_pre kpi_id valor texto)
      as (r & Hr & Hrv & Hrx).
    rewrite Hc in Hrv, Hrx. exists r. by rewrite Hr, Hrv, Hrx, Hv, Hx. }
  split.
  - intros Hq. apply Hstored; [|by rewrite Hq..].
    unfold MisKpis.refused. simpl. by rewrite Hc, Hq.
  - intros Hq. unfold MisKpis.refused, MisKpis.parse_valor in Hstored, Hwhole.
    simpl in Hstored, Hwhole. rewrite Hc, Hq in Hstored, Hwhole.
    simpl in Hstored, Hwhole.
    destruct valor as [|ch s]; simpl in *; [by apply Hstored|].
    destruct (float (String ch s)) as [[q|]|]; simpl in *;
      [by apply Hstored| |by apply Hstored].
    unfold run. rewrite Hwhole. simpl. by rewrite Hbefore.
Qed.

(** X4 at a qualitative KPI of the sample data. *)
Lemma X4_kind_decides_what_is_stored_witness :
  ∃ r,
    head (MisKpis.results_for
            (MisKpis.mis_kpis Examples.float_decimal Examples.descripcion_leb
               Examples.tables None (Some 11) Examples.today
               (MisKpis.POST (MisKpis.form_of None ([] ++ [(2, "7", "cumple")])))).1.2
            11 2 (Store.current_period Examples.today)) = Some r
    ∧ Store.r_valor r = None ∧ Store.r_texto_resultado r = Some "cumple".
Proof.
  destruct (X4_kind_decides_what_is_stored Examples.float_decimal
              Examples.descripcion_leb Examples.tables 11 Examples.today None
              [] 2 "7" "cumple" eq_refl) as [Hq _].
  destruct (Hq eq_refl) as (_ & r & Hr & Hv & Hx).
  by exists r.
Defined.

(** X5: a resubmission rewrites the existing row in place and does not look
    at its closed flag.  When the key has exactly one row, a healthy POST
    of a triple for it adds no row to the table.  If the driver accepts
    the write, the request succeeds and leaves exactly one row for the
    key, with the same id, the same closed flag and closer, and the
    submitted value: a closed result is overwritten like an open one.  If
    it refuses the write (a metric KPI with a value [float] reads as [inf]
    or [nan]), the request fails with [ProgrammingError] and the tables
    are as before. *)
Theorem X5_resubmission_overwrites_even_closed_rows
    (float : string → option Py.pyfloat) (leb : string → string → bool)
    (server : Store.db) (e : Z) (today : Store.date) (target : option Z)
    (kpi_id : Z) (valor texto : string) (r0 : Store.kpi_resultado) :
  let tgt := default e target in
  let period := Store.current_period today in
  let run :=
    MisKpis.mis_kpis float leb server None (Some e) today
      (MisKpis.POST (MisKpis.form_of target [(kpi_id, valor, texto)])) in
  let d := run.1.2 in
  MisKpis.results_for server tgt kpi_id period = [r0] →
  length (Store.kpi_resultados d) = length (Store.kpi_resultados server)
  ∧ if MisKpis.refused float server (kpi_id, valor, texto)
    then run.1.1 = Conn.Raise Conn.ProgrammingError ∧ d = server
    else
      run.1.1 = Conn.Ok MisKpis.RedirectMisKpis
      ∧ ∃ r,
          MisKpis.results_for d tgt kpi_id period = [r]
          ∧ Store.r_id r = Store.r_id r0
          ∧ Store.r_cerrado r = Store.r_cerrado r0
          ∧ Store.r_cerrado_por r = Store.r_cerrado_por r0
          ∧ Store.r_valor r
            = (if MisKpis.is_criterio server kpi_id then None
               else Py.finite (MisKpis.parse_valor float valor))
          ∧ Store.r_texto_resultado r
            = (if MisKpis.is_criterio server kpi_id then Some texto else None).
Proof.
  intros tgt period run d Hone. unfold d, run.
  rewrite mis_kpis_post_none, zip3_form_of.
  cbn [MisKpis.form_of MisKpis.target_empleado_id fst snd].
  fold tgt period. unfold MisKpis.all_accepted.
  cbn [MisKpis.accepted forallb].
  destruct (MisKpis.refused float server (kpi_id, valor, texto)); simpl;
    [done|].
  split.
  - unfold MisKpis.upsert. rewrite upsert_parts_unfold, Hone. simpl.
    by rewrite length_map.
  - split; [done|].
    rewrite (results_for_upsert_update float tgt period server kpi_id valor
               texto r0 [] tgt kpi_id period Hone), Hone.
    simpl. rewrite Z.eqb_refl. eexists. split; [reflexivity|].
    by split_and!.
Qed.

(** X5 at a closed result of the sample seller. *)
Lemma X5_resubmission_overwrites_even_closed_rows_witness :
  let closed :=
    Store.KpiResultado 1 11 1 (Store.current_period Examples.today)
      (Some (85 # 1)) None 1 (Some 10) in
  let server := MisKpis.set_resultados Examples.tables [closed] in
  ∃ r,
    MisKpis.results_for
      (MisKpis.mis_kpis Examples.float_decimal Examples.descripcion_leb
         server None (Some 11) Examples.today
         (MisKpis.POST (MisKpis.form_of None [(1, "20", "")]))).1.2
      11 1 (Store.current_period Examples.today) = [r]
    ∧ Store.r_cerrado r = 1
    ∧ Store.r_valor r = Some (20 # 1).
Proof.
  intros closed server.
  destruct (X5_resubmission_overwrites_even_closed_rows
              Examples.float_decimal Examples.descripcion_leb server 11
              Examples.today None 1 "20" "" closed eq_refl)
    as (_ & _ & r & Hr & _ & Hc & _ & Hv & _).
  exists r. split; [exact Hr|]. split; [exact Hc|exact Hv].
Defined.

(** X6: the POST touches nothing but the rows it is sent for.  On every
    connection, with distinct row ids before: the other tables are
    unchanged; every result row stays at its place with its id, key and
    closed flag; and a row of another employee, another period or a KPI
    that the form does not name is unchanged altogether. *)
Theorem X6_submission_frame
    (float : string → option Py.pyfloat) (leb : string → string → bool)
    (server : Store.db) (link : option nat) (e : Z) (today : Store.date)
    (f : MisKpis.form) :
  NoDup (map Store.r_id (Store.kpi_resultados server)) →
  let tgt := default e (MisKpis.target_empleado_id f) in
  let period := Store.current_period today in
  let d :=
    (MisKpis.mis_kpis float leb server link (Some e) today (MisKpis.POST f)).1.2 in
  Store.empleados d = Store.empleados server
  ∧ Store.puestos d = Store.puestos server
  ∧ Store.departamentos d = Store.departamentos server
  ∧ Store.kpis d = Store.kpis server
  ∧ Store.puesto_kpis d = Store.puesto_kpis server
  ∧ ∀ i r,
      Store.kpi_resultados server !! i = Some r →
      ∃ r',
        Store.kpi_resultados d !! i = Some r'
        ∧ Store.r_id r' = Store.r_id r
        ∧ Store.r_empleado_id r' = Store.r_empleado_id r
        ∧ Store.r_kpi_id r' = Store.r_kpi_id r
        ∧ Store.r_periodo r' = Store.r_periodo r
        ∧ Store.r_cerrado r' = Store.r_cerrado r
        ∧ Store.r_cerrado_por r' = Store.r_cerrado_por r
        ∧ (Facts.outside_batch tgt period f r → r' = r).
Proof.
  intros Hnd tgt period d. unfold d.
  destruct (mis_kpis_post_db float leb server link e today f) as [m ->].
  fold tgt period.
  set (batch := take m (MisKpis.zip3 (MisKpis.kpi_ids f) (MisKpis.values f)
                                     (MisKpis.textos f))).
  destruct (foldl_upsert_other_tables float tgt period batch server)
    as (-> & -> & -> & -> & ->).
  split_and!; try reflexivity.
  intros i r Hi.
  destruct (foldl_upsert_frame float tgt period batch server Hnd i r Hi)
    as (r' & Hi' & E1 & E2 & E3 & E4 & E5 & E6 & Hsame).
  exists r'. split_and!; try done.
  intros Hout. apply Hsame. destruct Hout as [?|[?|Hnot]]; [by left|by right; left|].
  right. right. intros Hin. apply Hnot.
  apply (zip3_kpi_ids _ (MisKpis.values f) (MisKpis.textos f)).
  unfold batch in Hin.
  apply list_elem_of_fmap in Hin as (t & -> & Ht).
  apply list_elem_of_fmap. exists t. split; [done|].
  apply elem_of_take in Ht as (j & Hj & _). apply list_elem_of_lookup. eauto.
Qed.

(** X6 at the manager's result while the seller's is resubmitted. *)
Lemma X6_submission_frame_witness :
  let mine :=
    Store.KpiResultado 1 11 1 (Store.current_period Examples.today)
      (Some (85 # 1)) None 0 None in
  let other :=
    Store.KpiResultado 2 10 1 (Store.current_period Examples.today)
      (Some (60 # 1)) None 0 None in
  let server := MisKpis.set_resultados Examples.tables [mine; other] in
  Store.kpi_resultados
    (MisKpis.mis_kpis Examples.float_decimal Examples.descripcion_leb
       server None (Some 11) Examples.today
       (MisKpis.POST (MisKpis.form_of None [(1, "20", "")]))).1.2 !! 1%nat
  = Some other.
Proof.
  intros mine other server.
  assert (NoDup (map Store.r_id (Store.kpi_resultados server))) as Hnd.
  { simpl. apply NoDup_cons. split; [|apply NoDup_singleton].
    intros Hin. apply list_elem_of_singleton in Hin. discriminate. }
  destruct (X6_submission_frame Examples.float_decimal Examples.descripcion_leb
              server None 11 Examples.today
              (MisKpis.form_of None [(1, "20", "")]) Hnd)
    as (_ & _ & _ & _ & _ & Hrows).
  destruct (Hrows 1%nat other eq_refl) as (r' & Hi & _ & _ & _ & _ & _ & _ & Hsame).
  rewrite Hi. f_equal. apply Hsame. left. discriminate.
Defined.

(* ====================================================================== *)
(** * Further properties of the page and of closing *)
(* ====================================================================== *)

Section ReadFacts.
Import Store Classifier Conn MisKpis Facts.
Variable float : string → option Py.pyfloat.
Variable descripcion_leb : string → string → bool.

Lemma reads_ret {A} d (Q : A → Prop) (a : A) : Q a → reads d Q (mret a).
Proof. intros H c Hl Hw. by exists a, c. Qed.

Lemma reads_bind {A B} d (P : A → Prop) (Q : B → Prop) (m : M A) (k : A → M B) :
  reads d P m → (∀ a, P a → reads d Q (k a)) → reads d Q (m ≫= k).
Proof.
  intros Hm Hk c Hl Hw.
  destruct (Hm c Hl Hw) as (a & c1 & Hrun & Hl1 & Hw1 & Ha).
  destruct (Hk a Ha c1 Hl1 Hw1) as (b & c2 & Hrun2 & Hl2 & Hw2 & Hb).
  exists b, c2. split; [|done]. by rewrite (bind_ok _ _ _ _ _ Hrun).
Qed.

Lemma reads_execute {A} d s (rd : db → A) :
  reads d (λ a, a = rd d) (execute s rd (λ x, x)).
Proof.
  intros c Hl Hw. exists (rd (working c)), (advance s (λ x, x) c).
  split; [apply execute_up; congruence|]. simpl. rewrite Hl, Hw. done.
Qed.

Lemma reads_for_collect {A B} d (P : A → B → Prop) xs (body : A → M B) :
  (∀ x, reads d (P x) (body x)) →
  reads d (Forall2 P xs) (for_collect xs body).
Proof.
  intros Hb. induction xs as [|x xs IH]; simpl.
  - apply reads_ret. constructor.
  - eapply reads_bind; [apply Hb|]. intros y Hy.
    eapply reads_bind; [exact IH|]. intros ys Hys.
    apply reads_ret. by constructor.
Qed.

(** The statements of the page write nothing. *)
Lemma holds_advance d s c : holds d c → holds d (advance s (λ x, x) c).
Proof. intros (Hc & Hd & Hw). split_and!; simpl; [done| |done]. by rewrite Hc. Qed.

Lemma mis_kpis_get_holds d empleado_id period :
  preserves (holds d) (mis_kpis_get descripcion_leb empleado_id period).
Proof.
  unfold mis_kpis_get, subordinates_of.
  apply preserves_bind.
  { apply preserves_execute. intros c. apply holds_advance. }
  intros [emp|]; [|apply preserves_ret].
  destruct (negb _); [apply preserves_ret|].
  apply preserves_bind.
  { apply preserves_execute. intros c. apply holds_advance. }
  intros raw. apply preserves_bind; [|intros; apply preserves_ret].
  apply preserves_bind.
  { apply preserves_execute. intros c. apply holds_advance. }
  intros [|x xs]; simpl; [apply preserves_ret|].
  apply preserves_bind.
  { apply preserves_execute. intros c. apply holds_advance. }
  intros emps. apply preserves_bind; [|intros; apply preserves_ret].
  apply preserves_for_collect. intros sub.
  apply preserves_bind; [|intros; apply preserves_ret].
  apply preserves_execute. intros c. apply holds_advance.
Qed.

(** ** The first query of the page *)

Lemma head_flat_map_cons {A B} (g : A → list B) x l :
  g x ≠ [] → head (flat_map g (x :: l)) = head (g x).
Proof. simpl. by destruct (g x). Qed.

Lemma matching_puestos_dangling d e :
  e_puesto_id e = None
  ∨ (∃ q, e_puesto_id e = Some q ∧ ∀ p, p ∈ puestos d → p_id p ≠ q) →
  matching_puestos d e = [].
Proof.
  intros H. unfold matching_puestos.
  induction (puestos d) as [|p ps IH]; [done|]. simpl.
  assert (sql_eq (e_puesto_id e) (Some (p_id p)) = false) as ->.
  { destruct H as [->|(q & -> & Hq)]; [done|]. simpl.
    apply Z.eqb_neq. intros ->. exact (Hq p (list_elem_of_here _ _) eq_refl). }
  apply IH. destruct H as [?|(q & ? & Hq)]; [by left|right].
  exists q. split; [done|]. intros p' Hp'. by apply Hq, list_elem_of_further.
Qed.

Lemma no_position_head d empleado_id emp :
  no_position d empleado_id →
  head (empleado_puesto_rows d empleado_id) = Some emp →
  Py.truthy_opt_int (er_puesto_id emp) = false.
Proof.
  unfold no_position, empleado_puesto_rows.
  destruct (List.filter _ (empleados d)) as [|e es]; [done|].
  intros H. specialize (H e eq_refl).
  rewrite head_flat_map_cons.
  - destruct (matching_puestos d e) as [|p ps] eqn:E.
    + by intros [= <-].
    + simpl. intros [= <-]. simpl.
      destruct H as [H|[H|H]].
      * by rewrite matching_puestos_dangling in E by by left.
      * assert (In p (matching_puestos d e)) as Hin by (rewrite E; by left).
        apply List.filter_In in Hin as [_ Hin]. rewrite H in Hin.
        simpl in Hin. by destruct (p_id p).
      * by rewrite matching_puestos_dangling in E by by right.
  - by destruct (matching_puestos d e).
Qed.

(** ** The subordinates of the page *)

Lemma elem_of_sub_puestos_rows d k q :
  q ∈ sub_puestos_rows d (Some k)
  ↔ ∃ p, p ∈ puestos d ∧ p_id p = q ∧ p_jefe_puesto_id p = Some k.
Proof.
  unfold sub_puestos_rows. rewrite list_elem_of_fmap. split.
  - intros (p & -> & Hin). apply list_elem_of_In, List.filter_In in Hin as [Hin Hj].
    exists p. split; [by apply list_elem_of_In|]. split; [done|].
    unfold sql_eq in Hj. destruct (p_jefe_puesto_id p) as [j|]; [|done].
    apply Z.eqb_eq in Hj. by subst.
  - intros (p & Hin & <- & Hj). exists p. split; [done|].
    apply list_elem_of_In, List.filter_In. split; [by apply list_elem_of_In|].
    rewrite Hj. simpl. apply Z.eqb_refl.
Qed.

Lemma elem_of_empleados_in_rows d ids row :
  row ∈ empleados_in_rows d ids
  ↔ ∃ e p, e ∈ empleados d ∧ p ∈ puestos d
           ∧ e_puesto_id e = Some (p_id p) ∧ p_id p ∈ ids
           ∧ row = joined e p.
Proof.
  unfold empleados_in_rows. rewrite list_elem_of_In, in_flat_map. split.
  - intros (e & He & Hrow). apply List.filter_In in He as [He Hids].
    apply in_map_iff in Hrow as (p & <- & Hp).
    apply List.filter_In in Hp as [Hp Heq].
    destruct (e_puesto_id e) as [q|] eqn:Eq; [|done].
    simpl in Heq. apply Z.eqb_eq in Heq. subst q.
    exists e, p. rewrite <- !list_elem_of_In in *. split_and!; try done.
    apply existsb_exists in Hids as (x & Hx & Hxe).
    apply Z.eqb_eq in Hxe. subst x. by apply list_elem_of_In.
  - intros (e & p & He & Hp & Heq & Hids & ->). exists e. split.
    + apply List.filter_In. split; [by apply list_elem_of_In|].
      rewrite Heq. apply existsb_exists. exists (p_id p).
      split; [by apply list_elem_of_In|apply Z.eqb_refl].
    + apply in_map_iff. exists p. split; [done|].
      apply List.filter_In. split; [by apply list_elem_of_In|].
      rewrite Heq. simpl. apply Z.eqb_refl.
Qed.

(** What [subordinates_of] returns on a healthy connection. *)
Lemma subordinates_of_reads d period k :
  reads d
    (λ r : list Z * list (emp_row * list kpi_view),
       Forall2 (λ (sub : emp_row) (entry : emp_row * list kpi_view),
                  entry = (sub, map with_color
                                  (kpis_puesto_rows descripcion_leb d (er_id sub)
                                     period (er_puesto_id sub))))
               (empleados_in_rows d (sub_puestos_rows d (Some k))) r.2)
    (subordinates_of descripcion_leb period (Some k)).
Proof.
  unfold subordinates_of, select_sub_puestos, select_empleados_in,
    select_kpis_puesto.
  eapply reads_bind; [apply reads_execute|]. intros sp ->.
  destruct (sub_puestos_rows d (Some k)) as [|q qs] eqn:Esp; simpl.
  - apply reads_ret. simpl. unfold empleados_in_rows. simpl.
    assert (List.filter
              (λ e, match e_puesto_id e with
                    | Some _ => false | None => false end) (empleados d) = [])
      as ->; [|constructor].
    induction (empleados d) as [|e es IH]; [done|]. simpl.
    by destruct (e_puesto_id e).
  - eapply reads_bind; [apply reads_execute|]. intros emps ->.
    eapply reads_bind.
    + apply (reads_for_collect d
               (λ (sub : emp_row) (entry : emp_row * list kpi_view),
                  entry = (sub, map with_color
                                  (kpis_puesto_rows descripcion_leb d (er_id sub)
                                     period (er_puesto_id sub))))).
      intros sub. eapply reads_bind; [apply reads_execute|].
      intros raw ->. by apply reads_ret.
    + intros data Hdata. by apply reads_ret.
Qed.

(** What the page is on a healthy connection, for an employee with a
    position. *)
Lemma mis_kpis_get_reads d empleado_id period emp k :
  head (empleado_puesto_rows d empleado_id) = Some emp →
  er_puesto_id emp = Some k → k ≠ 0 →
  reads d
    (λ r, ∃ subs,
       r = RenderMisKpis
             (map with_color
                (kpis_puesto_rows descripcion_leb d empleado_id period (Some k)))
             emp subs period
       ∧ Forall2 (λ (sub : emp_row) (entry : emp_row * list kpi_view),
                    entry = (sub, map with_color
                                    (kpis_puesto_rows descripcion_leb d
                                       (er_id sub) period (er_puesto_id sub))))
                 (empleados_in_rows d (sub_puestos_rows d (Some k))) subs)
    (mis_kpis_get descripcion_leb empleado_id period).
Proof.
  intros Hemp Hk Hk0. unfold mis_kpis_get, select_empleado_puesto,
    select_kpis_puesto.
  eapply reads_bind; [apply reads_execute|]. intros o ->. rewrite Hemp, Hk.
  assert (Py.truthy_opt_int (Some k) = true) as ->.
  { simpl. unfold Py.truthy_int. apply negb_true_iff, Z.eqb_neq. done. }
  simpl. eapply reads_bind; [apply reads_execute|]. intros raw ->.
  eapply reads_bind; [apply subordinates_of_reads|]. intros subs Hsubs.
  apply reads_ret. by exists subs.2.
Qed.

(** ** The sorted rows are the joined rows *)

Lemma elem_of_insert_by {A} (leb : A → A → bool) x y l :
  y ∈ insert_by leb x l ↔ y = x ∨ y ∈ l.
Proof.
  induction l as [|z l IH]; simpl.
  - rewrite list_elem_of_singleton, elem_of_nil. tauto.
  - destruct (leb x z).
    + by rewrite elem_of_cons.
    + rewrite !elem_of_cons, IH. tauto.
Qed.

Lemma elem_of_order_by {A} (leb : A → A → bool) y l :
  y ∈ order_by leb l ↔ y ∈ l.
Proof.
  unfold order_by. induction l as [|x l IH]; simpl; [done|].
  by rewrite elem_of_insert_by, elem_of_cons, IH.
Qed.

(** The page lists an assigned KPI with the values of each result row of
    the employee's key. *)
Lemma elem_of_kpis_puesto_rows d empleado_id period q kd r :
  (q, k_id kd) ∈ puesto_kpis d → kd ∈ kpis d →
  r ∈ results_for d empleado_id (k_id kd) period →
  kpi_row_of kd (r_valor r) (r_texto_resultado r)
    ∈ kpis_puesto_rows descripcion_leb d empleado_id period (Some q).
Proof.
  intros Hpk Hkd Hr. unfold kpis_puesto_rows.
  apply elem_of_order_by, list_elem_of_In, in_flat_map.
  exists (q, k_id kd). split.
  { apply List.filter_In. split; [by apply list_elem_of_In|].
    simpl. apply Z.eqb_refl. }
  apply in_flat_map. exists kd. split.
  { apply List.filter_In. split; [by apply list_elem_of_In|].
    simpl. apply Z.eqb_refl. }
  fold (results_for d empleado_id (k_id kd) period).
  destruct (results_for d empleado_id (k_id kd) period) as [|r1 rs] eqn:E;
    [by apply elem_of_nil in Hr|].
  apply list_elem_of_In, list_elem_of_fmap. exists r. by split.
Qed.

End ReadFacts.

(** X7: the GET of [mis_kpis] writes nothing: whatever the session, the
    data and the connection do, the server holds the same tables after the
    request as before. *)
Theorem X7_page_is_read_only
    (float : string → option Py.pyfloat) (leb : string → string → bool)
    (server : Store.db) (link : option nat) (sess : option Z)
    (today : Store.date) :
  (MisKpis.mis_kpis float leb server link sess today MisKpis.GET).1.2 = server.
Proof.
  unfold MisKpis.mis_kpis. destruct sess as [eid|]; [|done].
  destruct (MisKpis.mis_kpis_get _ _ _ _) as [r c'] eqn:E. simpl.
  assert (Facts.holds server (Conn.get_db_connection server link)) as H0
    by done.
  destruct (mis_kpis_get_holds leb server eid (Store.current_period today)
              _ _ _ H0 E) as (_ & Hd & _).
  exact Hd.
Qed.

(** X8: an employee who is missing from [empleados], has no position, has
    position 0, or has a position id that no row of [puestos] carries gets
    the no-position page: one query is sent, no KPI is looked up, nothing
    is raised. *)
Theorem X8_no_position_page
    (float : string → option Py.pyfloat) (leb : string → string → bool)
    (server : Store.db) (link : option nat) (eid : Z) (today : Store.date) :
  link ≠ Some O →
  Facts.no_position server eid →
  MisKpis.mis_kpis float leb server link (Some eid) today MisKpis.GET
  = (Conn.Ok MisKpis.RenderNoPuesto, server, [Conn.SelectEmpleadoPuesto eid]).
Proof.
  intros Hlink Hno.
  pose proof (no_position_head server eid) as Hhead.
  unfold MisKpis.mis_kpis, MisKpis.mis_kpis_get, MisKpis.select_empleado_puesto.
  erewrite bind_ok; [|by apply execute_up].
  simpl.
  destruct (head (MisKpis.empleado_puesto_rows server eid)) as [emp|]; [|done].
  by rewrite (Hhead emp Hno eq_refl).
Qed.

(** X8 at an employee whose position id names no position. *)
Lemma X8_no_position_page_witness :
  let server :=
    Personal.set_empleados Examples.tables
      [ Store.Empleado 12 Py.CNull "Caro" (Some 7) None None ] in
  MisKpis.mis_kpis Examples.float_decimal Examples.descripcion_leb server None
    (Some 12) Examples.today MisKpis.GET
  = (Conn.Ok MisKpis.RenderNoPuesto, server, [Conn.SelectEmpleadoPuesto 12]).
Proof.
  intros server. apply X8_no_position_page; [discriminate|].
  intros e [= <-]. right. right. exists 7. split; [done|].
  intros p Hp. repeat (apply elem_of_cons in Hp as [->|Hp]; [discriminate|]).
  by apply elem_of_nil in Hp.
Defined.

(** X9: the page goes exactly one level down.  For an employee at position
    [k], on a healthy connection, the page is rendered; each entry of its
    subordinate list is an employee whose position reports to [k], with the
    KPI rows of that employee's own position; and every employee whose
    position reports to [k] has an entry. *)
Theorem X9_subordinates_are_one_level_down
    (float : string → option Py.pyfloat) (leb : string → string → bool)
    (server : Store.db) (eid : Z) (today : Store.date)
    (emp : MisKpis.emp_row) (k : Z) :
  head (MisKpis.empleado_puesto_rows server eid) = Some emp →
  MisKpis.er_puesto_id emp = Some k → k ≠ 0 →
  let period := Store.current_period today in
  ∃ subs,
    (MisKpis.mis_kpis float leb server None (Some eid) today MisKpis.GET).1.1
    = Conn.Ok (MisKpis.RenderMisKpis
                 (map MisKpis.with_color
                    (MisKpis.kpis_puesto_rows leb server eid period (Some k)))
                 emp subs period)
    ∧ (∀ sub kpis, (sub, kpis) ∈ subs →
         ∃ e q, Facts.reports_to server k e q
                ∧ MisKpis.er_id sub = Store.e_id e
                ∧ MisKpis.er_puesto_id sub = Some q
                ∧ kpis = map MisKpis.with_color
                           (MisKpis.kpis_puesto_rows leb server (Store.e_id e)
                              period (Some q)))
    ∧ (∀ e q, Facts.reports_to server k e q →
         ∃ sub kpis, (sub, kpis) ∈ subs
                     ∧ MisKpis.er_id sub = Store.e_id e
                     ∧ MisKpis.er_puesto_id sub = Some q).
Proof.
  intros Hemp Hk Hk0 period.
  destruct (mis_kpis_get_reads leb server eid period emp k Hemp Hk Hk0
              (Conn.get_db_connection server None) eq_refl eq_refl)
    as (r & c' & Hrun & _ & _ & subs & -> & Hsubs).
  exists subs. unfold MisKpis.mis_kpis. fold period. rewrite Hrun. simpl.
  split; [done|]. split.
  - intros sub kpis Hin.
    apply list_elem_of_lookup in Hin as [i Hi].
    destruct (Forall2_lookup_r _ _ _ _ _ Hsubs Hi) as (sub' & Hi' & Heq).
    injection Heq as -> ->.
    assert (sub' ∈ MisKpis.empleados_in_rows server
                     (MisKpis.sub_puestos_rows server (Some k))) as Hrow
      by (apply list_elem_of_lookup; eauto).
    apply elem_of_empleados_in_rows in Hrow
      as (e & p & He & Hp & Hep & Hq & ->).
    exists e, (Store.p_id p). split; [|done].
    split; [done|]. split; [done|].
    by apply elem_of_sub_puestos_rows.
  - intros e q (He & Hq & p & Hp & <- & Hj).
    assert (MisKpis.joined e p
              ∈ MisKpis.empleados_in_rows server
                  (MisKpis.sub_puestos_rows server (Some k))) as Hrow.
    { apply elem_of_empleados_in_rows. exists e, p. split_and!; try done.
      apply elem_of_sub_puestos_rows. by exists p. }
    apply list_elem_of_lookup in Hrow as [i Hi].
    destruct (Forall2_lookup_l _ _ _ _ _ Hsubs Hi) as (entry & Hi' & ->).
    eexists _, _. split; [apply list_elem_of_lookup; eauto|]. done.
Qed.

(** X9 at the manager of the sample data: the seller is listed. *)
Lemma X9_subordinates_are_one_level_down_witness :
  ∃ subs my_kpis,
    (MisKpis.mis_kpis Examples.float_decimal Examples.descripcion_leb
       Examples.tables None (Some 10) Examples.today MisKpis.GET).1.1
    = Conn.Ok (MisKpis.RenderMisKpis my_kpis
                 (MisKpis.EmpRow 10 "Ana" (Some 1) (Some "Gerente")) subs
                 (Store.current_period Examples.today))
    ∧ ∃ sub kpis, (sub, kpis) ∈ subs ∧ MisKpis.er_id sub = 11.
Proof.
  destruct (X9_subordinates_are_one_level_down Examples.float_decimal
              Examples.descripcion_leb Examples.tables 10 Examples.today
              (MisKpis.EmpRow 10 "Ana" (Some 1) (Some "Gerente")) 1
              eq_refl eq_refl ltac:(discriminate))
    as (subs & Hrun & _ & Hall).
  exists subs. eexists. split; [exact Hrun|].
  destruct (Hall (Store.Empleado 11 (Py.CStr "00011") "Beto" (Some 2)
                    (Some 10) None) 2) as (sub & kpis & Hin & Hid & _).
  - split; [apply list_elem_of_further, list_elem_of_here|].
    split; [done|].
    exists (Store.Puesto 2 "Vendedor" None (Some 1)).
    split; [apply list_elem_of_further, list_elem_of_here|done].
  - by exists sub, kpis.
Defined.

(** X10: what is submitted is what the page shows.  When a KPI is assigned
    to the employee's position and has no result yet for the month, then
    after a healthy POST of a triple for it whose write the driver accepts,
    a GET on any day of the same month lists that KPI with the stored
    number and text, coloured by [compute_color]. *)
Theorem X10_submitted_value_is_shown
    (float : string → option Py.pyfloat) (leb : string → string → bool)
    (server : Store.db) (eid : Z) (today1 today2 : Store.date)
    (emp : MisKpis.emp_row) (q : Z) (kd : Store.kpi) (valor texto : string) :
  let period := Store.current_period today1 in
  let d :=
    (MisKpis.mis_kpis float leb server None (Some eid) today1
       (MisKpis.POST (MisKpis.form_of None [(Store.k_id kd, valor, texto)]))).1.2 in
  let shown :=
    MisKpis.kpi_row_of kd
      (if MisKpis.is_criterio server (Store.k_id kd) then None
       else Py.finite (MisKpis.parse_valor float valor))
      (if MisKpis.is_criterio server (Store.k_id kd) then Some texto
       else None) in
  Store.current_period today2 = period →
  head (MisKpis.empleado_puesto_rows server eid) = Some emp →
  MisKpis.er_puesto_id emp = Some q → q ≠ 0 →
  (q, Store.k_id kd) ∈ Store.puesto_kpis server →
  kd ∈ Store.kpis server →
  MisKpis.results_for server eid (Store.k_id kd) period = [] →
  MisKpis.refused float server (Store.k_id kd, valor, texto) = false →
  ∃ my_kpis subs,
    (MisKpis.mis_kpis float leb d None (Some eid) today2 MisKpis.GET).1.1
    = Conn.Ok (MisKpis.RenderMisKpis my_kpis emp subs period)
    ∧ MisKpis.KpiView shown (Classifier.compute_color shown) ∈ my_kpis.
Proof.
  intros period d shown Hperiod Hemp Hq Hq0 Hpk Hkd Hnone Hacc.
  assert (d = MisKpis.upsert float eid period server (Store.k_id kd, valor, texto))
    as Hd.
  { unfold d. rewrite mis_kpis_post_healthy; rewrite zip3_form_of; [done|].
    unfold MisKpis.all_accepted. simpl. by rewrite Hacc. }
  destruct (upsert_other_tables float eid period server
              (Store.k_id kd, valor, texto)) as (He & Hp & _ & Hk & Hpks).
  rewrite <- Hd in He, Hp, Hk, Hpks.
  assert (MisKpis.empleado_puesto_rows d eid
          = MisKpis.empleado_puesto_rows server eid) as Hrows.
  { unfold MisKpis.empleado_puesto_rows, MisKpis.matching_puestos.
    by rewrite He, Hp. }
  destruct (mis_kpis_get_reads leb d eid period emp q
              ltac:(by rewrite Hrows) Hq Hq0
              (Conn.get_db_connection d None) eq_refl eq_refl)
    as (r & c' & Hrun & _ & _ & subs & -> & _).
  destruct (upsert_head float eid period server (Store.k_id kd) valor texto)
    as (r & Hr & Hv & Hx).
  rewrite <- Hd in Hr.
  eexists _, subs. split.
  { unfold MisKpis.mis_kpis. rewrite Hperiod, Hrun. reflexivity. }
  apply (list_elem_of_fmap_2 MisKpis.with_color). unfold shown.
  rewrite <- Hv, <- Hx.
  apply elem_of_kpis_puesto_rows; [by rewrite Hpks|by rewrite Hk|].
  destruct (MisKpis.results_for d eid (Store.k_id kd) period) as [|r1 rs];
    [done|]. injection Hr as ->. apply list_elem_of_here.
Qed.

(** X10 at the seller's sales figure: 85 is shown, in green. *)
Lemma X10_submitted_value_is_shown_witness :
  ∃ my_kpis subs,
    (MisKpis.mis_kpis Examples.float_decimal Examples.descripcion_leb
       (MisKpis.mis_kpis Examples.float_decimal Examples.descripcion_leb
          Examples.tables None (Some 11) Examples.today
          (MisKpis.POST (MisKpis.form_of None [(1, "85", "")]))).1.2
       None (Some 11) (Store.Date 2024 5 30) MisKpis.GET).1.1
    = Conn.Ok (MisKpis.RenderMisKpis my_kpis
                 (MisKpis.EmpRow 11 "Beto" (Some 2) (Some "Vendedor")) subs
                 (Store.current_period Examples.today))
    ∧ MisKpis.KpiView
        (MisKpis.kpi_row_of Examples.ventas (Some (85 # 1)) None)
        (Some Classifier.success) ∈ my_kpis.
Proof.
  exact (X10_submitted_value_is_shown Examples.float_decimal
           Examples.descripcion_leb Examples.tables 11 Examples.today
           (Store.Date 2024 5 30)
           (MisKpis.EmpRow 11 "Beto" (Some 2) (Some "Vendedor")) 2
           Examples.ventas "85" "" eq_refl eq_refl eq_refl
           ltac:(discriminate)
           ltac:(apply list_elem_of_further, list_elem_of_here)
           ltac:(apply list_elem_of_here) eq_refl eq_refl).
Defined.

Section CerrarFacts.
Import Store Conn MisKpis.

Lemma cerrar_periodo_healthy server sess form today :
  cerrar_periodo server None sess form today
  = (Ok RedirectMisKpis,
     set_resultados server
       (map (λ r, if in_period (match form with Some t => Some t | None => sess end)
                               (current_period today) r
                  then set_cerrado sess r else r)
            (kpi_resultados server))).
Proof. reflexivity. Qed.

Lemma in_period_set_cerrado target periodo c r :
  in_period target periodo (set_cerrado c r) = in_period target periodo r.
Proof. by destruct target. Qed.

Lemma close_again target periodo c1 c2 r :
  (if in_period target periodo
        (if in_period target periodo r then set_cerrado c1 r else r)
   then set_cerrado c2
          (if in_period target periodo r then set_cerrado c1 r else r)
   else if in_period target periodo r then set_cerrado c1 r else r)
  = (if in_period target periodo r then set_cerrado c2 r else r).
Proof.
  destruct (in_period target periodo r) eqn:E;
    [rewrite in_period_set_cerrado|]; by rewrite E.
Qed.

Lemma cerrar_periodo_again server sess1 sess2 form1 form2 today :
  match form1 with Some t => Some t | None => sess1 end
  = match form2 with Some t => Some t | None => sess2 end →
  cerrar_periodo (cerrar_periodo server None sess1 form1 today).2
                 None sess2 form2 today
  = cerrar_periodo server None sess2 form2 today.
Proof.
  intros Htarget. rewrite !cerrar_periodo_healthy. cbn [snd].
  f_equal. unfold set_resultados. cbn [kpi_resultados empleados puestos
    departamentos kpis puesto_kpis]. f_equal.
  rewrite map_map. apply map_ext. intros r. rewrite Htarget.
  apply close_again.
Qed.

Lemma set_resultados_same d : set_resultados d (kpi_resultados d) = d.
Proof. by destruct d. Qed.

End CerrarFacts.

(** X11: closing is not guarded by the closed flag, so closing a period
    again overwrites who closed it: closing by one employee and then by
    another leaves what closing by the second alone leaves.  Closing twice
    with the same session and form is the same as closing once. *)
Theorem X11_last_closer_wins
    (server : Store.db) (sess1 sess2 form : option Z) (target : Z)
    (today : Store.date) :
  MisKpis.cerrar_periodo
    (MisKpis.cerrar_periodo server None sess1 (Some target) today).2
    None sess2 (Some target) today
  = MisKpis.cerrar_periodo server None sess2 (Some target) today
  ∧ MisKpis.cerrar_periodo
      (MisKpis.cerrar_periodo server None sess1 form today).2
      None sess1 form today
    = MisKpis.cerrar_periodo server None sess1 form today.
Proof.
  split; by apply cerrar_periodo_again.
Qed.

(** X12: [cerrar_periodo] answers with the success redirect also when
    there is nothing to close: if no result row is of the target employee
    and the current month (in particular when neither the form nor the
    session names an employee), the tables are unchanged. *)
Theorem X12_closing_nothing_still_succeeds
    (server : Store.db) (sess form : option Z) (today : Store.date) :
  (∀ r, r ∈ Store.kpi_resultados server →
        ¬ (Some (Store.r_empleado_id r)
           = match form with Some t => Some t | None => sess end
           ∧ Store.r_periodo r = Store.current_period today)) →
  MisKpis.cerrar_periodo server None sess form today
  = (Conn.Ok MisKpis.RedirectMisKpis, server).
Proof.
  intros Hnone. rewrite cerrar_periodo_healthy. f_equal.
  transitivity (MisKpis.set_resultados server (Store.kpi_resultados server));
    [|apply set_resultados_same].
  f_equal.
  transitivity (map (λ r : Store.kpi_resultado, r) (Store.kpi_resultados server));
    [|apply map_id].
  apply map_ext_in. intros r Hr%list_elem_of_In.
  destruct (MisKpis.in_period _ _ r) eqn:E; [|done].
  destruct (Hnone r Hr).
  destruct (match form with Some t => Some t | None => sess end) as [t|];
    [|done].
  apply in_period_spec in E as [-> Hp]. done.
Qed.

(** X12 at a user without an employee who sends no employee id. *)
Lemma X12_closing_nothing_still_succeeds_witness :
  let server :=
    MisKpis.set_resultados Examples.tables
      [ Store.KpiResultado 1 11 1 (Store.current_period Examples.today)
          (Some (85 # 1)) None 0 None ] in
  MisKpis.cerrar_periodo server None None None Examples.today
  = (Conn.Ok MisKpis.RedirectMisKpis, server).
Proof.
  intros server. apply X12_closing_nothing_still_succeeds.
  intros r _ [H _]. discriminate.
Defined.

(* ====================================================================== *)
(** * The KPI catalogue *)
(* ====================================================================== *)

Section KpisFacts.
Import Store Kpis.
Variable float : string → option Py.pyfloat.

Lemma parse_number_no_bound x :
  no_bound float x → parse_number float x = None.
Proof.
  unfold parse_number, get_or_none.
  intros [->|[->|(s & -> & Hs)]]; [done..|].
  destruct (Py.truthy_str s); [by rewrite Hs|done].
Qed.

Lemma next_id_fresh {A} (key : A → Z) rows :
  next_id key rows ∉ map key rows.
Proof.
  intros Hin. apply list_elem_of_fmap in Hin as (r & Hid & Hr).
  apply (next_id_above key) in Hr. lia.
Qed.

(** The KPI the form describes, under the id [id]. *)
Lemma create_kpi_inserts d f s :
  f_descripcion f = Some s → s ≠ EmptyString → refused float f = false →
  create_kpi float d f
  = (set_kpis d
       (kpis d ++
        [ {| k_id := next_id k_id (kpis d);
             k_descripcion := s;
             k_unidad_medida := get_or_none (f_unidad_medida f);
             k_valor_objetivo :=
               Py.finite (parse_number float (f_valor_objetivo f));
             k_rango_rojo_min := Py.finite (parse_number float (f_rojo_min f));
             k_rango_rojo_max := Py.finite (parse_number float (f_rojo_max f));
             k_rango_amarillo_min :=
               Py.finite (parse_number float (f_amarillo_min f));
             k_rango_amarillo_max :=
               Py.finite (parse_number float (f_amarillo_max f));
             k_rango_verde_min := Py.finite (parse_number float (f_verde_min f));
             k_rango_verde_max := Py.finite (parse_number float (f_verde_max f));
             k_es_criterio := es_criterio_of f;
             k_departamento_id := f_departamento_id f |} ]),
     Conn.Ok KpiCreado).
Proof.
  intros Hs Hne Href. unfold refused, numbers in Href. simpl in Href.
  unfold create_kpi, parse_range. rewrite Hs. simpl. rewrite Href.
  by destruct s.
Qed.

Lemma create_kpi_refused d f s :
  f_descripcion f = Some s → s ≠ EmptyString → refused float f = true →
  create_kpi float d f = (d, Conn.Raise Conn.ProgrammingError).
Proof.
  intros Hs Hne Href. unfold refused, numbers in Href. simpl in Href.
  unfold create_kpi, parse_range. rewrite Hs. simpl. rewrite Href.
  by destruct s.
Qed.

Lemma edit_kpi_updates d kpi_id f s :
  f_descripcion f = Some s → s ≠ EmptyString → refused float f = false →
  edit_kpi float d kpi_id f
  = (set_kpis d
       (map (λ k, if k_id k =? kpi_id
                  then {| k_id := k_id k;
                          k_descripcion := s;
                          k_unidad_medida := get_or_none (f_unidad_medida f);
                          k_valor_objetivo :=
                            Py.finite (parse_number float (f_valor_objetivo f));
                          k_rango_rojo_min :=
                            Py.finite (parse_number float (f_rojo_min f));
                          k_rango_rojo_max :=
                            Py.finite (parse_number float (f_rojo_max f));
                          k_rango_amarillo_min :=
                            Py.finite (parse_number float (f_amarillo_min f));
                          k_rango_amarillo_max :=
                            Py.finite (parse_number float (f_amarillo_max f));
                          k_rango_verde_min :=
                            Py.finite (parse_number float (f_verde_min f));
                          k_rango_verde_max :=
                            Py.finite (parse_number float (f_verde_max f));
                          k_es_criterio := es_criterio_of f;
                          k_departamento_id := f_departamento_id f |}
                  else k)
            (kpis d)),
     Conn.Ok KpiActualizado).
Proof.
  intros Hs Hne Href. unfold refused, numbers in Href. simpl in Href.
  unfold edit_kpi, parse_range_edit. rewrite Hs. simpl. rewrite Href.
  by destruct s.
Qed.

Lemma edit_kpi_refused d kpi_id f s :
  f_descripcion f = Some s → s ≠ EmptyString → refused float f = true →
  edit_kpi float d kpi_id f = (d, Conn.Raise Conn.ProgrammingError).
Proof.
  intros Hs Hne Href. unfold refused, numbers in Href. simpl in Href.
  unfold edit_kpi, parse_range_edit. rewrite Hs. simpl. rewrite Href.
  by destruct s.
Qed.

Lemma no_descripcion_falsy f :
  f_descripcion f = None ∨ f_descripcion f = Some EmptyString ↔
  Py.truthy_opt_str (f_descripcion f) = false.
Proof.
  destruct (f_descripcion f) as [[|c s]|]; simpl; split; try done;
    try (by intros [?|?]); auto.
Qed.

(** A form that [create_kpi] or [edit_kpi] carries out has a description
    and no field the driver refuses. *)
Lemma create_kpi_ok d f :
  (create_kpi float d f).2 = Conn.Ok KpiCreado →
  ∃ s, f_descripcion f = Some s ∧ s ≠ EmptyString ∧ refused float f = false.
Proof.
  destruct (f_descripcion f) as [[|c s]|] eqn:Hs.
  - unfold create_kpi, parse_range. by rewrite Hs.
  - destruct (refused float f) eqn:Href.
    + by rewrite (create_kpi_refused d f _ Hs).
    + intros _. by exists (String c s).
  - unfold create_kpi, parse_range. by rewrite Hs.
Qed.

Lemma edit_kpi_ok d kpi_id f :
  (edit_kpi float d kpi_id f).2 = Conn.Ok KpiActualizado →
  ∃ s, f_descripcion f = Some s ∧ s ≠ EmptyString ∧ refused float f = false.
Proof.
  destruct (f_descripcion f) as [[|c s]|] eqn:Hs.
  - unfold edit_kpi, parse_range_edit. by rewrite Hs.
  - destruct (refused float f) eqn:Href.
    + by rewrite (edit_kpi_refused d kpi_id f _ Hs).
    + intros _. by exists (String c s).
  - unfold edit_kpi, parse_range_edit. by rewrite Hs.
Qed.

End KpisFacts.

(** X13: what [create_kpi] does with a form.  It rejects the form when the
    description is missing or empty, and it fails with [ProgrammingError]
    when [float] reads a numeric field as [inf] or [nan]; in both cases it
    writes nothing.  Otherwise it appends one KPI, whose id no existing KPI
    has, after the existing KPIs, which stay as they are.  It leaves every
    other table alone. *)
Theorem X13_create_kpi_appends_one_fresh_row
    (float : string → option Py.pyfloat) (d : Store.db) (f : Kpis.kpi_form) :
  let d' := (Kpis.create_kpi float d f).1 in
  (Kpis.f_descripcion f = None ∨ Kpis.f_descripcion f = Some EmptyString →
   Kpis.create_kpi float d f = (d, Conn.Ok Kpis.DescripcionVacia))
  ∧ (∀ s, Kpis.f_descripcion f = Some s → s ≠ EmptyString →
          if Kpis.refused float f
          then Kpis.create_kpi float d f
               = (d, Conn.Raise Conn.ProgrammingError)
          else
            (Kpis.create_kpi float d f).2 = Conn.Ok Kpis.KpiCreado
            ∧ ∃ k, Store.kpis d' = Store.kpis d ++ [k]
                   ∧ (Store.k_id k ∉ map Store.k_id (Store.kpis d))
                   ∧ Store.k_descripcion k = s)
  ∧ Store.empleados d' = Store.empleados d
  ∧ Store.puestos d' = Store.puestos d
  ∧ Store.departamentos d' = Store.departamentos d
  ∧ Store.puesto_kpis d' = Store.puesto_kpis d
  ∧ Store.kpi_resultados d' = Store.kpi_resultados d.
Proof.
  intros d'. split; [|split].
  - intros H%no_descripcion_falsy. unfold Kpis.create_kpi, Kpis.parse_range.
    by rewrite H.
  - intros s Hs Hne. destruct (Kpis.refused float f) eqn:Href.
    + by apply (create_kpi_refused float d f s).
    + unfold d'. rewrite (create_kpi_inserts float d f s Hs Hne Href). simpl.
      split; [done|]. eexists. split; [reflexivity|]. split; [|done].
      apply next_id_fresh.
  - unfold d', Kpis.create_kpi, Kpis.parse_range.
    destruct (negb _); [done|]. by destruct (existsb _ _).
Qed.

(** X14: a range of a created or edited KPI whose bound field is missing,
    empty or rejected by [float] is stored without that bound, and so never
    gives its colour to any result; and a KPI saved with [es_criterio]
    checked is never coloured.  This holds for the row [create_kpi] appends
    when it succeeds and for every row [edit_kpi] rewrites when it
    succeeds. *)
Theorem X14_unusable_bound_never_colours
    (float : string → option Py.pyfloat) (d : Store.db) (kpi_id : Z)
    (f : Kpis.kpi_form) (k : Store.kpi) :
  ((Kpis.create_kpi float d f).2 = Conn.Ok Kpis.KpiCreado
   ∧ last (Store.kpis (Kpis.create_kpi float d f).1) = Some k)
  ∨ ((Kpis.edit_kpi float d kpi_id f).2 = Conn.Ok Kpis.KpiActualizado
     ∧ k ∈ Store.kpis (Kpis.edit_kpi float d kpi_id f).1
     ∧ Store.k_id k = kpi_id) →
  ∀ valor texto,
    let colour := Classifier.compute_color (MisKpis.kpi_row_of k valor texto) in
    (Kpis.no_bound float (Kpis.f_verde_min f)
     ∨ Kpis.no_bound float (Kpis.f_verde_max f) →
     colour ≠ Some Classifier.success)
    ∧ (Kpis.no_bound float (Kpis.f_amarillo_min f)
       ∨ Kpis.no_bound float (Kpis.f_amarillo_max f) →
       colour ≠ Some Classifier.warning)
    ∧ (Kpis.no_bound float (Kpis.f_rojo_min f)
       ∨ Kpis.no_bound float (Kpis.f_rojo_max f) →
       colour ≠ Some Classifier.danger)
    ∧ (Kpis.f_es_criterio f = Some "on" → colour = None).
Proof.
  intros Hk.
  assert (Store.k_rango_verde_min k
          = Py.finite (Kpis.parse_number float (Kpis.f_verde_min f))
          ∧ Store.k_rango_verde_max k
            = Py.finite (Kpis.parse_number float (Kpis.f_verde_max f))
          ∧ Store.k_rango_amarillo_min k
            = Py.finite (Kpis.parse_number float (Kpis.f_amarillo_min f))
          ∧ Store.k_rango_amarillo_max k
            = Py.finite (Kpis.parse_number float (Kpis.f_amarillo_max f))
          ∧ Store.k_rango_rojo_min k
            = Py.finite (Kpis.parse_number float (Kpis.f_rojo_min f))
          ∧ Store.k_rango_rojo_max k
            = Py.finite (Kpis.parse_number float (Kpis.f_rojo_max f))
          ∧ Store.k_es_criterio k = Kpis.es_criterio_of f)
    as (Hvn & Hvx & Han & Hax & Hrn & Hrx & Hec).
  { destruct Hk as [[Hok Hk]|(Hok & Hk & Hid)].
    - destruct (create_kpi_ok float d f Hok) as (s & Hs & Hne & Href).
      rewrite (create_kpi_inserts float d f s Hs Hne Href) in Hk. simpl in Hk.
      rewrite last_snoc in Hk. by injection Hk as <-.
    - destruct (edit_kpi_ok float d kpi_id f Hok) as (s & Hs & Hne & Href).
      rewrite (edit_kpi_updates float d kpi_id f s Hs Hne Href) in Hk.
      simpl in Hk.
      apply list_elem_of_fmap in Hk as (k0 & -> & _).
      destruct (Store.k_id k0 =? kpi_id) eqn:E; [done|].
      apply Z.eqb_neq in E. done. }
  assert (∀ x y v,
            Kpis.no_bound float x ∨ Kpis.no_bound float y →
            Classifier.within (Py.finite (Kpis.parse_number float x))
                              (Py.finite (Kpis.parse_number float y)) v
            = false) as Hw.
  { intros x y v Hb. apply within_half_open.
    destruct Hb as [Hb|Hb]; [left|right];
      by rewrite (parse_number_no_bound float _ Hb). }
  intros valor texto colour. unfold colour, Classifier.compute_color. simpl.
  rewrite Hvn, Hvx, Han, Hax, Hrn, Hrx, Hec.
  split_and!.
  - intros Hb. destruct (negb _); [|done]. destruct valor as [v|]; [|done].
    rewrite (Hw _ _ v Hb). by repeat destruct (Classifier.within _ _ _).
  - intros Hb. destruct (negb _); [|done]. destruct valor as [v|]; [|done].
    rewrite (Hw _ _ v Hb). by repeat destruct (Classifier.within _ _ _).
  - intros Hb. destruct (negb _); [|done]. destruct valor as [v|]; [|done].
    rewrite (Hw _ _ v Hb). by repeat destruct (Classifier.within _ _ _).
  - intros Hon. unfold Kpis.es_criterio_of. rewrite Hon. done.
Qed.

(** X14 at a KPI created with the green minimum [abc]. *)
Lemma X14_unusable_bound_never_colours_witness :
  let f :=
    Kpis.KpiForm (Some "ventas") None None None None None None
      (Some "abc") (Some "100") None None in
  ∃ k,
    last (Store.kpis (Kpis.create_kpi Examples.float_decimal Examples.tables f).1)
    = Some k
    ∧ Classifier.compute_color (MisKpis.kpi_row_of k (Some (90 # 1)) None)
      ≠ Some Classifier.success.
Proof.
  intros f. eexists. split; [reflexivity|].
  refine (proj1 (X14_unusable_bound_never_colours Examples.float_decimal
                   Examples.tables 0 f _
                   (or_introl (conj eq_refl eq_refl)) (Some (90 # 1)) None) _).
  left. right. right. by exists "abc".
Defined.

(** X15: what [edit_kpi] does with a form.  Without a description it
    writes nothing, and when [float] reads a numeric field as [inf] or
    [nan] it fails with [ProgrammingError] and writes nothing.  Otherwise
    it rewrites exactly the KPIs with the given id: each gets the values
    [create_kpi] would store for the same form, keeps its id and its
    place; every other KPI is unchanged, and with no KPI of that id
    nothing changes.  Every other table, the stored results included, is
    left alone. *)
Theorem X15_edit_kpi_rewrites_one_row
    (float : string → option Py.pyfloat) (d : Store.db) (kpi_id : Z)
    (f : Kpis.kpi_form) :
  let d' := (Kpis.edit_kpi float d kpi_id f).1 in
  (Kpis.f_descripcion f = None ∨ Kpis.f_descripcion f = Some EmptyString →
   Kpis.edit_kpi float d kpi_id f = (d, Conn.Ok Kpis.DescripcionVacia))
  ∧ (∀ s, Kpis.f_descripcion f = Some s → s ≠ EmptyString →
          if Kpis.refused float f
          then Kpis.edit_kpi float d kpi_id f
               = (d, Conn.Raise Conn.ProgrammingError)
          else
            (Kpis.edit_kpi float d kpi_id f).2 = Conn.Ok Kpis.KpiActualizado
            ∧ ∃ c, last (Store.kpis (Kpis.create_kpi float d f).1) = Some c
                   ∧ ∀ i k, Store.kpis d !! i = Some k →
                            Store.kpis d' !! i
                            = Some (if Store.k_id k =? kpi_id
                                    then Kpis.with_id (Store.k_id k) c
                                    else k))
  ∧ Store.empleados d' = Store.empleados d
  ∧ Store.puestos d' = Store.puestos d
  ∧ Store.departamentos d' = Store.departamentos d
  ∧ Store.puesto_kpis d' = Store.puesto_kpis d
  ∧ Store.kpi_resultados d' = Store.kpi_resultados d.
Proof.
  intros d'. split; [|split].
  - intros H%no_descripcion_falsy. unfold Kpis.edit_kpi, Kpis.parse_range_edit.
    by rewrite H.
  - intros s Hs Hne. destruct (Kpis.refused float f) eqn:Href.
    + by apply (edit_kpi_refused float d kpi_id f s).
    + unfold d'.
      rewrite (create_kpi_inserts float d f s Hs Hne Href),
        (edit_kpi_updates float d kpi_id f s Hs Hne Href). simpl.
      split; [done|].
      rewrite last_snoc. eexists. split; [reflexivity|].
      intros i k Hi. rewrite list_lookup_fmap, Hi. simpl.
      by destruct (Store.k_id k =? kpi_id).
  - unfold d', Kpis.edit_kpi, Kpis.parse_range_edit.
    destruct (negb _); [done|]. by destruct (existsb _ _).
Qed.

(* ====================================================================== *)
(** * Positions and their KPIs *)
(* ====================================================================== *)

Section PuestosFacts.
Import Store Puestos.

Lemma db_ext (a b : db) :
  empleados a = empleados b → puestos a = puestos b →
  departamentos a = departamentos b → kpis a = kpis b →
  puesto_kpis a = puesto_kpis b → kpi_resultados a = kpi_resultados b →
  a = b.
Proof. destruct a, b. simpl. by intros -> -> -> -> -> ->. Qed.

Lemma insert_assignments d0 puesto_id kpi_ids :
  let d' := foldl (λ d' kpi_id,
                     set_puesto_kpis d'
                       (puesto_kpis d' ++ [(puesto_id, kpi_id)]))
                  d0 kpi_ids in
  puesto_kpis d' = puesto_kpis d0 ++ map (λ k, (puesto_id, k)) kpi_ids
  ∧ empleados d' = empleados d0 ∧ puestos d' = puestos d0
  ∧ departamentos d' = departamentos d0 ∧ kpis d' = kpis d0
  ∧ kpi_resultados d' = kpi_resultados d0.
Proof.
  revert d0. induction kpi_ids as [|k ks IH]; intros d0; simpl.
  - by rewrite app_nil_r.
  - destruct (IH (set_puesto_kpis d0 (puesto_kpis d0 ++ [(puesto_id, k)])))
      as (-> & -> & -> & -> & -> & ->).
    simpl. by rewrite <- app_assoc.
Qed.

Lemma asignar_kpis_rows d puesto_id kpi_ids :
  puesto_kpis (asignar_kpis d puesto_id kpi_ids).1
  = List.filter (λ pk : Z * Z, negb (pk.1 =? puesto_id)) (puesto_kpis d)
    ++ map (λ k, (puesto_id, k)) kpi_ids.
Proof.
  unfold asignar_kpis. simpl.
  by destruct (insert_assignments
                 (set_puesto_kpis d
                    (List.filter (λ pk : Z * Z, negb (pk.1 =? puesto_id))
                                 (puesto_kpis d)))
                 puesto_id kpi_ids) as (-> & _).
Qed.

Lemma asignar_kpis_other_tables d puesto_id kpi_ids :
  let d' := (asignar_kpis d puesto_id kpi_ids).1 in
  empleados d' = empleados d ∧ puestos d' = puestos d
  ∧ departamentos d' = departamentos d ∧ kpis d' = kpis d
  ∧ kpi_resultados d' = kpi_resultados d.
Proof.
  unfold asignar_kpis. simpl.
  by destruct (insert_assignments
                 (set_puesto_kpis d
                    (List.filter (λ pk : Z * Z, negb (pk.1 =? puesto_id))
                                 (puesto_kpis d)))
                 puesto_id kpi_ids) as (_ & -> & -> & -> & -> & ->).
Qed.

Lemma kpis_of_app a b p : kpis_of (a ++ b) p = kpis_of a p ++ kpis_of b p.
Proof. unfold kpis_of. by rewrite List.filter_app, map_app. Qed.

Lemma kpis_of_deleted rows p q :
  kpis_of (List.filter (λ pk : Z * Z, negb (pk.1 =? p)) rows) q
  = if q =? p then [] else kpis_of rows q.
Proof.
  unfold kpis_of. induction rows as [|[a b] rows IH]; simpl.
  - by destruct (q =? p).
  - destruct (a =? p) eqn:Ep; simpl.
    + rewrite IH. destruct (q =? p) eqn:Eq; [done|].
      apply Z.eqb_eq in Ep. apply Z.eqb_neq in Eq. subst a.
      by rewrite (proj2 (Z.eqb_neq p q)) by done.
    + destruct (a =? q) eqn:Ea; simpl; rewrite IH.
      * apply Z.eqb_eq in Ea. subst a. rewrite Ep. done.
      * by destruct (q =? p).
Qed.

Lemma kpis_of_inserted p ks q :
  kpis_of (map (λ k, (p, k)) ks) q = if q =? p then ks else [].
Proof.
  unfold kpis_of. rewrite (Z.eqb_sym q p).
  destruct (p =? q) eqn:E; induction ks as [|k ks IH]; simpl; try done;
    rewrite E; simpl; by rewrite ?IH.
Qed.

Lemma deleted_twice p (rows : list (Z * Z)) :
  List.filter (λ pk : Z * Z, negb (pk.1 =? p))
    (List.filter (λ pk : Z * Z, negb (pk.1 =? p)) rows)
  = List.filter (λ pk : Z * Z, negb (pk.1 =? p)) rows.
Proof.
  induction rows as [|[a b] l IH]; [done|].
  simpl. destruct (negb (a =? p)) eqn:E; simpl; [|done].
  by rewrite E, IH.
Qed.

Lemma deleted_inserted p (ks : list Z) :
  List.filter (λ pk : Z * Z, negb (pk.1 =? p)) (map (λ k, (p, k)) ks) = [].
Proof.
  induction ks as [|k ks IH]; [done|]. simpl. by rewrite Z.eqb_refl.
Qed.

(** [assigned_map] groups the rows by position, in row order. *)
Lemma assigned_map_from (m : gmap Z (list Z)) rows p :
  foldl (λ m row, <[row.1 := default [] (m !! row.1) ++ [row.2]]> m) m rows !! p
  = match kpis_of rows p with
    | [] => m !! p
    | ks => Some (default [] (m !! p) ++ ks)
    end.
Proof.
  revert m. induction rows as [|[a b] rows IH]; intros m; [done|].
  simpl. rewrite IH. unfold kpis_of. simpl.
  destruct (a =? p) eqn:E; simpl.
  - apply Z.eqb_eq in E. subst a. rewrite lookup_insert_eq. simpl.
    destruct (map snd _) as [|k ks]; [done|]. by rewrite <- app_assoc.
  - apply Z.eqb_neq in E. by rewrite lookup_insert_ne.
Qed.

End PuestosFacts.

(** X16: [asignar_kpis] is a full replacement.  Afterwards the KPIs of the
    position are exactly the submitted list, in order (none when the list
    is empty); the assignments of every other position and all other
    tables are unchanged; assigning the same list again changes nothing;
    and the map the page builds from the table gives the submitted list
    back for that position. *)
Theorem X16_assignment_is_a_full_replace
    (d : Store.db) (puesto_id : Z) (kpi_ids : list Z) :
  let d' := (Puestos.asignar_kpis d puesto_id kpi_ids).1 in
  Puestos.kpis_of (Store.puesto_kpis d') puesto_id = kpi_ids
  ∧ (∀ q, q ≠ puesto_id →
          Puestos.kpis_of (Store.puesto_kpis d') q
          = Puestos.kpis_of (Store.puesto_kpis d) q)
  ∧ Puestos.asignar_kpis d' puesto_id kpi_ids
    = Puestos.asignar_kpis d puesto_id kpi_ids
  ∧ Puestos.assigned_map (Store.puesto_kpis d') !! puesto_id
    = (match kpi_ids with [] => None | _ => Some kpi_ids end)
  ∧ Store.empleados d' = Store.empleados d
  ∧ Store.puestos d' = Store.puestos d
  ∧ Store.departamentos d' = Store.departamentos d
  ∧ Store.kpis d' = Store.kpis d
  ∧ Store.kpi_resultados d' = Store.kpi_resultados d.
Proof.
  intros d'.
  assert (Puestos.kpis_of (Store.puesto_kpis d') puesto_id = kpi_ids) as Hmine.
  { unfold d'. rewrite asignar_kpis_rows, kpis_of_app, kpis_of_deleted,
      kpis_of_inserted. by rewrite Z.eqb_refl. }
  split; [exact Hmine|]. split; [|split; [|split]].
  - intros q Hq. unfold d'.
    rewrite asignar_kpis_rows, kpis_of_app, kpis_of_deleted, kpis_of_inserted.
    rewrite (proj2 (Z.eqb_neq q puesto_id) Hq). by rewrite app_nil_r.
  - destruct (asignar_kpis_other_tables d puesto_id kpi_ids)
      as (He & Hp & Hd & Hk & Hr).
    fold d' in He, Hp, Hd, Hk, Hr.
    pose proof (asignar_kpis_rows d puesto_id kpi_ids) as Hrows.
    fold d' in Hrows.
    destruct (asignar_kpis_other_tables d' puesto_id kpi_ids)
      as (He2 & Hp2 & Hd2 & Hk2 & Hr2).
    apply injective_projections; [|done].
    apply db_ext; fold d'; [exact He2|exact Hp2|exact Hd2|exact Hk2| |exact Hr2].
    rewrite (asignar_kpis_rows d'), Hrows. f_equal.
    by rewrite List.filter_app, deleted_twice, deleted_inserted, app_nil_r.
  - unfold Puestos.assigned_map. rewrite assigned_map_from, Hmine.
    rewrite lookup_empty. by destruct kpi_ids.
  - apply asignar_kpis_other_tables.
Qed.

(** X17: the map of assigned KPIs that [puestos] hands to the page has, for
    each position with at least one row in [puesto_kpis], the list of its
    KPI ids in row order, and no entry for a position without rows. *)
Theorem X17_assigned_map_groups_by_position
    (assignments : list (Z * Z)) (puesto_id : Z) :
  Puestos.assigned_map assignments !! puesto_id
  = match Puestos.kpis_of assignments puesto_id with
    | [] => None
    | kpi_ids => Some kpi_ids
    end.
Proof.
  unfold Puestos.assigned_map. rewrite assigned_map_from, lookup_empty.
  by destruct (Puestos.kpis_of assignments puesto_id).
Qed.

(* ====================================================================== *)
(** * Paging the list of employees *)
(* ====================================================================== *)

Section PagingFacts.
Import PersonalPage.


End PagingFacts.



(* ====================================================================== *)
(** * Moving an employee *)
(* ====================================================================== *)

Section MoveFacts.
Import Store Move.
Variable sql_int : string → option Z.

Lemma truthy_int_true z : Py.truthy_int z = true ↔ z ≠ 0.
Proof. unfold Py.truthy_int. rewrite negb_true_iff. apply Z.eqb_neq. Qed.

(** The supervisor the move looks up, on the tables after the first
    [UPDATE]. *)
Lemma organigrama_move_run d employee_id puesto_id emp q :
  truthy_json employee_id = true → truthy_json puesto_id = true →
  param sql_int employee_id = Some emp → param sql_int puesto_id = Some q →
  let d1 :=
    Personal.set_empleados d
      (map (λ e, if e_id e =? emp then set_puesto q e else e) (empleados d)) in
  let jefe_puesto_id :=
    match head (List.filter (λ p, p_id p =? q) (puestos d)) with
    | Some p => p_jefe_puesto_id p
    | None => None
    end in
  let jefe :=
    if Py.truthy_opt_int jefe_puesto_id then
      e_id <$> head (List.filter
                       (λ e, MisKpis.sql_eq (e_puesto_id e) jefe_puesto_id)
                       (empleados d1))
    else None in
  organigrama_move sql_int d employee_id puesto_id
  = (Personal.set_empleados d
       (map (λ e, if e_id e =? emp then set_jefe jefe (set_puesto q e) else e)
            (empleados d)),
     StatusOk).
Proof.
  intros He Hq Hpe Hpq d1 jp jefe. unfold organigrama_move.
  rewrite He, Hq, Hpe, Hpq.
  simpl. fold jp. f_equal. unfold Personal.set_empleados. simpl. f_equal.
  rewrite map_map. apply map_ext. intros e.
  destruct (e_id e =? emp) eqn:E; simpl; by rewrite E.
Qed.

End MoveFacts.


(* ====================================================================== *)
(** * The chart after a move, and where each position is drawn *)
(* ====================================================================== *)

Section MoveChartFacts.
Import Store Move.
Variable sql_int : string → option Z.

(** The tables a well-formed move leaves: the employees with the id get
    the position and one supervisor. *)
Lemma organigrama_move_tables d emp q :
  emp ≠ 0 → q ≠ 0 →
  ∃ jefe,
    (organigrama_move sql_int d (JNum emp) (JNum q)).1
    = Personal.set_empleados d
        (map (λ e, if e_id e =? emp then set_jefe jefe (set_puesto q e) else e)
             (empleados d))
    ∧ (∀ b, jefe = Some b →
         ∃ p boss,
           head (List.filter (λ p, p_id p =? q) (puestos d)) = Some p
           ∧ boss ∈ map (λ e, if e_id e =? emp then set_puesto q e else e)
                        (empleados d)
           ∧ e_id boss = b
           ∧ e_puesto_id boss = p_jefe_puesto_id p).
Proof.
  intros He Hq.
  rewrite (organigrama_move_run sql_int d (JNum emp) (JNum q) emp q
             (proj2 (truthy_int_true emp) He) (proj2 (truthy_int_true q) Hq)
             eq_refl eq_refl).
  simpl. eexists. split; [reflexivity|].
  intros b Hb.
  destruct (head (List.filter (λ p, p_id p =? q) (puestos d))) as [p|];
    [|done].
  destruct (Py.truthy_opt_int (p_jefe_puesto_id p)); [|done].
  destruct (List.filter _ (map _ (empleados d))) as [|boss l] eqn:E; [done|].
  simpl in Hb. injection Hb as <-.
  assert (In boss (boss :: l)) as Hin by by left.
  rewrite <- E in Hin. apply List.filter_In in Hin as [Hin Hk].
  exists p, boss. split; [done|]. split; [by apply list_elem_of_In|].
  split; [done|].
  unfold MisKpis.sql_eq in Hk.
  destruct (e_puesto_id boss) as [x|]; [|done].
  destruct (p_jefe_puesto_id p) as [y|]; [|done].
  apply Z.eqb_eq in Hk. by subst.
Qed.

Lemma head_filter_Some {A} (f : A → bool) (l : list A) x :
  head (List.filter f l) = Some x → x ∈ l ∧ f x = true.
Proof.
  intros Hx.
  destruct (List.filter f l) as [|y l'] eqn:E; [done|]. injection Hx as ->.
  assert (In x (List.filter f l)) as Hin by (rewrite E; by left).
  apply List.filter_In in Hin as [Hin Hk]. split; [by apply list_elem_of_In|done].
Qed.

End MoveChartFacts.

(** X20: the chart follows a move.  After a well-formed move of employee
    [emp] to position [q], [organigrama_data] on the new tables draws a
    leaf of that employee under no position but [q]; and if [q] is the id
    of a position, every employee row with that id has its leaf among the
    children of [q]. *)
Theorem X20_moved_employee_is_drawn_under_the_new_position
    (sql_int : string → option Z) (d : Store.db) (emp q : Z) :
  emp ≠ 0 → q ≠ 0 →
  let d' :=
    (Move.organigrama_move sql_int d (Move.JNum emp) (Move.JNum q)).1 in
  ∃ nodes forest,
    Organigrama.organigrama_data (Store.puestos d') (Store.empleados d')
    = Some (nodes, forest)
    ∧ (∀ k n id text icon,
         nodes !! k = Some n →
         Organigrama.EmpleadoLeaf id text icon emp ∈ Organigrama.children n →
         k = q)
    ∧ (q ∈ map Store.p_id (Store.puestos d) →
       ∀ e, e ∈ Store.empleados d → Store.e_id e = emp →
            ∃ n, nodes !! q = Some n
                 ∧ Organigrama.empleado_leaf e ∈ Organigrama.children n).
Proof.
  intros He Hq d'.
  destruct (organigrama_move_tables sql_int d emp q He Hq) as (jefe & Hd' & _).
  unfold d'. rewrite Hd'. simpl.
  set (es' := map (λ e, if Store.e_id e =? emp
                        then Move.set_jefe jefe (Move.set_puesto q e) else e)
                  (Store.empleados d)).
  destruct (organigrama_data_closed (Store.puestos d) es')
    as (nodes & Hrun & Hdom & Hch).
  exists nodes, (Organigrama.roots (Organigrama.make_nodes (Store.puestos d))
                                   (Store.puestos d)).
  split; [exact Hrun|]. split.
  - intros k n id text icon Hn Hin. rewrite (Hch k n Hn) in Hin.
    apply elem_of_app in Hin as [Hin|Hin].
    + apply elem_of_leaves_under in Hin as (e' & Hin' & Heq & Hp).
      apply present_Some in Hp as (Hp & _ & _).
      unfold es' in Hin'. apply list_elem_of_fmap in Hin' as (e & -> & _).
      injection Heq as _ _ _ Hid.
      destruct (Store.e_id e =? emp) eqn:E.
      * simpl in Hp. by injection Hp.
      * apply Z.eqb_neq in E. by destruct E.
    + apply elem_of_refs_under in Hin as (p & _ & Heq & _). discriminate.
  - intros Hin e He' Hid.
    destruct (proj2 (Hdom q) Hin) as [n Hn]. exists n. split; [done|].
    rewrite (Hch q n Hn). apply elem_of_app. left.
    apply elem_of_leaves_under.
    exists (Move.set_jefe jefe (Move.set_puesto q e)). split; [|split].
    + unfold es'. apply list_elem_of_fmap. exists e. split; [|done].
      by rewrite (proj2 (Z.eqb_eq _ _) Hid).
    + done.
    + apply present_Some. split; [done|]. split; [done|].
      by apply make_nodes_is_Some.
Qed.

(** X20 on two positions and two employees: employee 11 is moved from
    position 1 to position 2 and is then drawn under position 2. *)
Lemma X20_moved_employee_is_drawn_under_the_new_position_witness :
  let d :=
    Store.Db [ Store.Empleado 10 Py.CNull "Ana" (Some 1) None None;
               Store.Empleado 11 Py.CNull "Beto" (Some 1) None None ]
             [ Store.Puesto 1 "Gerente" None None;
               Store.Puesto 2 "Vendedor" None (Some 1) ]
             [] [] [] [] in
  let d' :=
    (Move.organigrama_move (λ _, None) d (Move.JNum 11) (Move.JNum 2)).1 in
  ∃ nodes forest n,
    Organigrama.organigrama_data (Store.puestos d') (Store.empleados d')
    = Some (nodes, forest)
    ∧ nodes !! 2 = Some n
    ∧ Organigrama.EmpleadoLeaf "empleado_11" "Beto" "fas fa-user text-secondary" 11
      ∈ Organigrama.children n.
Proof.
  intros d d'.
  destruct (X20_moved_employee_is_drawn_under_the_new_position
              (λ _, None) d 11 2
              ltac:(discriminate) ltac:(discriminate))
    as (nodes & forest & Hrun & _ & Hin).
  destruct (Hin (list_elem_of_further _ _ _ (list_elem_of_here _ _))
              (Store.Empleado 11 Py.CNull "Beto" (Some 1) None None)
              (list_elem_of_further _ _ _ (list_elem_of_here _ _)) eq_refl)
    as (n & Hn & Hleaf).
  by exists nodes, forest, n.
Defined.

(** X21: a move makes nobody their own supervisor, unless the new
    position reports to itself.  When no row of the new position names
    that position as its boss, no employee row with the moved id has its
    own id as [jefe_directo_id] afterwards. *)
Theorem X21_move_gives_no_self_supervision
    (sql_int : string → option Z) (d : Store.db) (emp q : Z) :
  emp ≠ 0 → q ≠ 0 →
  (∀ p, p ∈ Store.puestos d → Store.p_id p = q →
        Store.p_jefe_puesto_id p ≠ Some q) →
  let d' :=
    (Move.organigrama_move sql_int d (Move.JNum emp) (Move.JNum q)).1 in
  ∀ e, e ∈ Store.empleados d' → Store.e_id e = emp →
       Store.e_jefe_directo_id e ≠ Some emp.
Proof.
  intros He Hq Hloop d' e Hin Hid.
  destruct (organigrama_move_tables sql_int d emp q He Hq)
    as (jefe & Hd' & Hjefe).
  unfold d' in Hin. rewrite Hd' in Hin. simpl in Hin.
  apply list_elem_of_fmap in Hin as (e0 & -> & Hin0).
  destruct (Store.e_id e0 =? emp) eqn:E.
  - simpl. intros Hb.
    destruct (Hjefe emp Hb) as (p & boss & Hp & Hboss & Hbid & Hbpos).
    apply head_filter_Some in Hp as [Hp Hpq]. apply Z.eqb_eq in Hpq.
    apply list_elem_of_fmap in Hboss as (b0 & -> & Hb0).
    destruct (Store.e_id b0 =? emp) eqn:Eb.
    + simpl in Hbpos. by apply (Hloop p Hp Hpq).
    + apply Z.eqb_neq in Eb. by destruct Eb.
  - apply Z.eqb_neq in E. by destruct E.
Qed.

(** X21 on the data of X20: after the move employee 11 has supervisor 10,
    not 11. *)
Lemma X21_move_gives_no_self_supervision_witness :
  let d :=
    Store.Db [ Store.Empleado 10 Py.CNull "Ana" (Some 1) None None;
               Store.Empleado 11 Py.CNull "Beto" (Some 1) None None ]
             [ Store.Puesto 1 "Gerente" None None;
               Store.Puesto 2 "Vendedor" None (Some 1) ]
             [] [] [] [] in
  let d' :=
    (Move.organigrama_move (λ _, None) d (Move.JNum 11) (Move.JNum 2)).1 in
  let e := Store.Empleado 11 Py.CNull "Beto" (Some 2) (Some 10) None in
  Store.empleados d'
  = [ Store.Empleado 10 Py.CNull "Ana" (Some 1) None None; e ]
  ∧ Store.e_jefe_directo_id e ≠ Some 11.
Proof.
  intros d d' e. split; [reflexivity|].
  refine (X21_move_gives_no_self_supervision (λ _, None) d 11 2 _ _ _ e _ _).
  - discriminate.
  - discriminate.
  - intros p Hp Hq.
    apply elem_of_cons in Hp as [-> | Hp]; [discriminate|].
    apply elem_of_cons in Hp as [-> | Hp]; [discriminate|].
    by apply elem_of_nil in Hp.
  - apply list_elem_of_further, list_elem_of_here.
  - reflexivity.
Defined.

Section PlacementFacts.
Import Store Organigrama.

Lemma NoDup_map_filter {A B C} (g : A → B) (h : A → C) (f : A → bool) l :
  (∀ x y, h x = h y → g x = g y) →
  NoDup (map g l) → NoDup (map h (List.filter f l)).
Proof.
  intros Hgh. induction l as [|a l IH]; simpl; [constructor|].
  intros [Ha Hl]%NoDup_cons. destruct (f a); [|by apply IH]. simpl.
  apply NoDup_cons. split; [|by apply IH].
  intros (y & Hy & Hin)%list_elem_of_fmap.
  apply list_elem_of_In, List.filter_In in Hin as [Hin _].
  apply Ha. apply list_elem_of_fmap. exists y.
  split; [by apply Hgh|by apply list_elem_of_In].
Qed.

Lemma NoDup_map_inj {A B} (g : A → B) l x y :
  NoDup (map g l) → x ∈ l → y ∈ l → g x = g y → x = y.
Proof.
  induction l as [|a l IH]; simpl; [by intros _ ?%elem_of_nil|].
  intros [Ha Hl]%NoDup_cons [-> | Hx]%elem_of_cons [-> | Hy]%elem_of_cons Hg.
  - done.
  - destruct Ha. rewrite Hg. by apply list_elem_of_fmap_2.
  - destruct Ha. rewrite <- Hg. by apply list_elem_of_fmap_2.
  - by apply IH.
Qed.

End PlacementFacts.

(** X22: every position is drawn exactly once.  When the position ids are
    distinct, the roots are distinct, and each position is either a root
    and a child of nobody, or no root and exactly one entry of exactly one
    children list: that of the position its boss id names. *)
Theorem X22_each_position_is_drawn_once
    (puestos : list Store.puesto) (empleados : list Store.empleado) :
  NoDup (map Store.p_id puestos) →
  ∃ nodes forest,
    Organigrama.organigrama_data puestos empleados = Some (nodes, forest)
    ∧ NoDup forest
    ∧ ∀ p, p ∈ puestos →
        let ref := Organigrama.PuestoRef (Store.p_id p) in
        (Store.p_id p ∈ forest
         ∧ ∀ k n, nodes !! k = Some n → ref ∉ Organigrama.children n)
        ∨ ((Store.p_id p ∉ forest)
           ∧ ∃ j n l1 l2,
               Store.p_jefe_puesto_id p = Some j
               ∧ nodes !! j = Some n
               ∧ Organigrama.children n = l1 ++ ref :: l2
               ∧ (ref ∉ l1) ∧ (ref ∉ l2)
               ∧ ∀ k n', nodes !! k = Some n' →
                         ref ∈ Organigrama.children n' → k = j).
Proof.
  intros Hnd.
  destruct (organigrama_data_closed puestos empleados)
    as (nodes & Hrun & Hdom & Hch).
  set (nodes0 := Organigrama.make_nodes puestos) in *.
  exists nodes, (Organigrama.roots nodes0 puestos).
  split; [exact Hrun|]. split.
  { unfold Organigrama.roots. by apply (NoDup_map_filter Store.p_id). }
  assert (∀ p k n, p ∈ puestos → nodes !! k = Some n →
                   Organigrama.PuestoRef (Store.p_id p) ∈ Organigrama.children n →
                   Organigrama.present nodes0 (Store.p_jefe_puesto_id p) = Some k)
    as Hunder.
  { intros p k n Hp Hn Hin. rewrite (Hch k n Hn) in Hin.
    apply elem_of_app in Hin as [Hin|Hin].
    - apply elem_of_leaves_under in Hin as (e & _ & Heq & _). discriminate.
    - apply elem_of_refs_under in Hin as (p' & Hp' & Heq & Hpres).
      injection Heq as Heq.
      by rewrite (NoDup_map_inj Store.p_id puestos p p' Hnd Hp Hp' Heq). }
  intros p Hp ref.
  destruct (Organigrama.present nodes0 (Store.p_jefe_puesto_id p)) as [j|] eqn:E.
  - right. split.
    + unfold Organigrama.roots.
      intros (p' & Heq & Hin)%list_elem_of_fmap.
      apply list_elem_of_In, List.filter_In in Hin as [Hin Hnone].
      apply bool_decide_eq_true in Hnone. apply list_elem_of_In in Hin.
      rewrite <- (NoDup_map_inj Store.p_id puestos p p' Hnd Hp Hin Heq) in Hnone.
      by rewrite Hnone in E.
    + pose proof E as (Hj & _ & Hs)%present_Some.
      apply make_nodes_is_Some in Hs.
      destruct (proj2 (Hdom j) Hs) as [n Hn].
      assert (ref ∈ Organigrama.refs_under nodes0 puestos j) as Hin.
      { apply elem_of_refs_under. by exists p. }
      apply list_elem_of_split in Hin as (r1 & r2 & Hsplit).
      assert (NoDup (Organigrama.refs_under nodes0 puestos j)) as Hndr.
      { unfold Organigrama.refs_under.
        apply (NoDup_map_filter Store.p_id); [|done]. by intros x y [=]. }
      rewrite Hsplit in Hndr.
      apply NoDup_app in Hndr as (_ & Hr1 & [Hr2 _]%NoDup_cons).
      exists j, n, (Organigrama.leaves_under nodes0 empleados j ++ r1), r2.
      split; [done|]. split; [done|]. split.
      { by rewrite (Hch j n Hn), Hsplit, <- app_assoc. }
      split; [|split; [done|]].
      * intros [Hin|Hin]%elem_of_app.
        -- apply elem_of_leaves_under in Hin as (e & _ & Heq & _). discriminate.
        -- apply (Hr1 ref Hin). apply list_elem_of_here.
      * intros k n' Hn' Hin'.
        pose proof (Hunder p k n' Hp Hn' Hin') as Hk.
        rewrite E in Hk. by injection Hk.
  - left. split; [by apply elem_of_roots|].
    intros k n Hn Hin. pose proof (Hunder p k n Hp Hn Hin) as Hk.
    by rewrite E in Hk.
Qed.

(** X22 on three positions: position 1 is a root, position 2 hangs under
    position 1 and position 3, whose boss 99 does not exist, is a root. *)
Lemma X22_each_position_is_drawn_once_witness :
  let puestos :=
    [ Store.Puesto 1 "Direccion" None None;
      Store.Puesto 2 "Ventas" None (Some 1);
      Store.Puesto 3 "Almacen" None (Some 99) ] in
  let empleados := [ Store.Empleado 10 Py.CNull "Ana" (Some 2) None None ] in
  ∃ nodes forest,
    Organigrama.organigrama_data puestos empleados = Some (nodes, forest)
    ∧ NoDup forest
    ∧ 1 ∈ forest ∧ (2 ∉ forest) ∧ 3 ∈ forest.
Proof.
  intros puestos empleados.
  destruct (X22_each_position_is_drawn_once puestos empleados)
    as (nodes & forest & Hrun & Hnd & Hall).
  { refine (bool_decide_unpack _ _). vm_compute. exact I. }
  exists nodes, forest. split; [exact Hrun|]. split; [exact Hnd|].
  vm_compute in Hrun. injection Hrun as _ <-.
  split; [apply list_elem_of_here|].
  split; [|apply list_elem_of_further, list_elem_of_here].
  intros Hin.
  apply elem_of_cons in Hin as [Hin|Hin]; [discriminate|].
  apply elem_of_cons in Hin as [Hin|Hin]; [discriminate|].
  by apply elem_of_nil in Hin.
Defined.

(* ====================================================================== *)
(** * Importing the same rows again *)
(* ====================================================================== *)

Section NormalizeFacts.
Import Store Personal.

Lemma isdigit_not_space ch : Py.isdigit ch = true → Py.isspace ch = false.
Proof. destruct ch as [[] [] [] [] [] [] [] []]; vm_compute; congruence. Qed.

Lemma isdigit_not_sign ch :
  Py.isdigit ch = true → (Ascii.eqb ch "+" || Ascii.eqb ch "-")%char = false.
Proof. destruct ch as [[] [] [] [] [] [] [] []]; vm_compute; congruence. Qed.

Lemma lstrip_chars_digits l :
  Forall (λ ch, Py.isdigit ch = true) l → Py.lstrip_chars l = l.
Proof.
  destruct l as [|ch l]; [done|]. intros [Hch _]%Forall_cons. simpl.
  by rewrite (isdigit_not_space ch Hch).
Qed.

Lemma strip_chars_digits l :
  Forall (λ ch, Py.isdigit ch = true) l → Py.strip_chars l = l.
Proof.
  intros Hl. unfold Py.strip_chars.
  rewrite (lstrip_chars_digits l Hl), lstrip_chars_digits.
  - apply rev_involutive.
  - apply List.Forall_rev, Hl.
Qed.

Lemma filter_isdigit_digits l :
  Forall (λ ch, Py.isdigit ch = true) l → List.filter Py.isdigit l = l.
Proof.
  induction l as [|ch l IH]; [done|]. intros [Hch Hl]%Forall_cons. simpl.
  by rewrite Hch, IH.
Qed.

Lemma Forall_filter_isdigit l :
  Forall (λ ch, Py.isdigit ch = true) (List.filter Py.isdigit l).
Proof.
  induction l as [|ch l IH]; simpl; [constructor|].
  destruct (Py.isdigit ch) eqn:E; [by constructor|done].
Qed.

Lemma list_ascii_of_string_app s1 s2 :
  String.list_ascii_of_string (s1 +:+ s2)
  = String.list_ascii_of_string s1 ++ String.list_ascii_of_string s2.
Proof. induction s1 as [|ch s1 IH]; simpl; [done|]. by rewrite IH. Qed.

Lemma string_length_chars s :
  String.length s = length (String.list_ascii_of_string s).
Proof. induction s as [|ch s IH]; simpl; [done|]. by rewrite IH. Qed.

Lemma zfill_long s : (5 ≤ String.length s)%nat → Py.zfill 5 s = s.
Proof.
  intros Hlen. unfold Py.zfill.
  by rewrite (proj2 (Nat.leb_le 5 (String.length s)) Hlen).
Qed.

(** Padding a non-empty string of digits gives at least five digits. *)
Lemma zfill_digits s :
  s ≠ EmptyString →
  Forall (λ ch, Py.isdigit ch = true) (String.list_ascii_of_string s) →
  Forall (λ ch, Py.isdigit ch = true)
         (String.list_ascii_of_string (Py.zfill 5 s))
  ∧ (5 ≤ String.length (Py.zfill 5 s))%nat.
Proof.
  intros Hne Hs. unfold Py.zfill.
  destruct (5 <=? String.length s)%nat eqn:E.
  - split; [done|]. by apply Nat.leb_le.
  - apply Nat.leb_gt in E. destruct s as [|ch rest]; [done|].
    pose proof Hs as [Hch _]%Forall_cons.
    rewrite (isdigit_not_sign ch Hch). split.
    + rewrite list_ascii_of_string_app,
        String.list_ascii_of_string_of_list_ascii.
      apply Forall_app. split; [|done].
      apply Forall_forall. by intros x [-> _]%elem_of_replicate.
    + rewrite string_length_chars, list_ascii_of_string_app,
        String.list_ascii_of_string_of_list_ascii, length_app,
        length_replicate, <- string_length_chars. lia.
Qed.

(** On a value with a digit in it, [normalize_emp_id] gives a key that it
    maps to itself. *)
Lemma normalize_emp_id_fixed v :
  v ≠ Py.CNull →
  Py.only_digits (Py.strip (Py.str v)) ≠ EmptyString →
  Py.truthy_str (normalize_emp_id v) = true
  ∧ normalize_emp_id (Py.CStr (normalize_emp_id v)) = normalize_emp_id v.
Proof.
  intros Hv Hd.
  set (dg := Py.only_digits (Py.strip (Py.str v))) in *.
  assert (normalize_emp_id v = Py.zfill 5 dg) as ->.
  { destruct v; [done| |]; unfold normalize_emp_id; fold dg;
      by destruct dg. }
  assert (Forall (λ ch, Py.isdigit ch = true) (String.list_ascii_of_string dg))
    as Hdg.
  { unfold dg, Py.only_digits.
    rewrite String.list_ascii_of_string_of_list_ascii.
    apply Forall_filter_isdigit. }
  destruct (zfill_digits dg Hd Hdg) as [Hk Hlen].
  set (k := Py.zfill 5 dg) in *.
  assert (Py.truthy_str k = true) as Ht.
  { destruct k; [simpl in Hlen; lia|done]. }
  split; [done|].
  unfold normalize_emp_id, Py.str, Py.strip, Py.only_digits.
  rewrite (strip_chars_digits _ Hk), String.string_of_list_ascii_of_string,
    (filter_isdigit_digits _ Hk), String.string_of_list_ascii_of_string, Ht.
  by apply zfill_long.
Qed.

Lemma elem_of_initial_existing_ids d k :
  k ∈ initial_existing_ids d ↔
  ∃ e, e ∈ empleados d ∧ Py.truthy_cell (e_id_empleado e) = true
       ∧ k = normalize_emp_id (e_id_empleado e).
Proof.
  unfold initial_existing_ids. rewrite elem_of_list_to_set, list_elem_of_fmap.
  split.
  - intros (e & -> & Hin).
    apply list_elem_of_In, List.filter_In in Hin as [Hin Ht].
    exists e. by rewrite list_elem_of_In.
  - intros (e & Hin & Ht & ->). exists e. split; [done|].
    apply list_elem_of_In, List.filter_In. by rewrite <- list_elem_of_In.
Qed.

(** The keys the loop knows stay among the normalised ids of the stored
    employees, as long as every inserted key is one that normalisation
    fixes. *)
Lemma existing_ids_stored rows st :
  (∀ r, r ∈ rows →
        Py.truthy_str (normalize_emp_id (rr_employee_number r)) = true →
        normalize_emp_id (Py.CStr (normalize_emp_id (rr_employee_number r)))
        = normalize_emp_id (rr_employee_number r)) →
  (∀ k, k ∈ existing_ids st → k ∈ initial_existing_ids (tables st)) →
  ∀ k, k ∈ existing_ids (foldl import_row st rows) →
       k ∈ initial_existing_ids (tables (foldl import_row st rows)).
Proof.
  revert st. induction rows as [|r rows IH]; intros st Hfix Hst; [done|].
  simpl. apply IH.
  { intros r' Hr'. apply Hfix. by apply list_elem_of_further. }
  pose proof (Hfix r (list_elem_of_here _ _)) as Hr.
  destruct (Py.truthy_str (normalize_emp_id (rr_employee_number r))) eqn:Ht;
    [|by rewrite import_row_skip by by left].
  destruct (decide (normalize_emp_id (rr_employee_number r) ∈ existing_ids st))
    as [Hin|Hnot]; [by rewrite import_row_skip by by right|].
  destruct (import_row_insert st r Ht Hnot) as (emp & Hrows & Hid & _ & Hex).
  intros k. rewrite Hex, elem_of_union, elem_of_singleton.
  rewrite !elem_of_initial_existing_ids, Hrows.
  intros [-> | Hk].
  - exists emp. split; [apply elem_of_app; right; apply list_elem_of_here|].
    rewrite Hid. split; [exact Ht|]. symmetry. by apply Hr.
  - apply Hst, elem_of_initial_existing_ids in Hk as (e & Hin & Hte & ->).
    exists e. split; [apply elem_of_app; by left|done].
Qed.

(** Every row's key is known after the loop, or it is empty. *)
Lemma foldl_import_records rows st r :
  r ∈ rows →
  Py.truthy_str (normalize_emp_id (rr_employee_number r)) = true →
  normalize_emp_id (rr_employee_number r)
  ∈ existing_ids (foldl import_row st rows).
Proof.
  revert st. induction rows as [|r' rows IH]; intros st Hin Ht;
    [by apply elem_of_nil in Hin|].
  simpl. apply elem_of_cons in Hin as [-> | Hin].
  - by apply existing_ids_foldl, import_row_records.
  - by apply IH.
Qed.

(** Rows whose keys are all known or empty leave the loop's state as it
    is. *)
Lemma foldl_import_all_known rows st :
  (∀ r, r ∈ rows →
        Py.truthy_str (normalize_emp_id (rr_employee_number r)) = false
        ∨ normalize_emp_id (rr_employee_number r) ∈ existing_ids st) →
  foldl import_row st rows = st.
Proof.
  induction rows as [|r rows IH]; intros Hall; [done|]. simpl.
  rewrite import_row_skip by apply Hall, list_elem_of_here.
  apply IH. intros r' Hr'. by apply Hall, list_elem_of_further.
Qed.

End NormalizeFacts.

(** X23: importing the same rows a second time adds nothing.  When every
    employee number is null or has a digit in it, a second import of the
    rows leaves the tables of the first import as they are and reports 0
    new employees. *)
Theorem X23_second_import_adds_nothing
    (d : Store.db) (rows : list Personal.remote_row) :
  (∀ r, r ∈ rows →
        Personal.rr_employee_number r = Py.CNull
        ∨ Py.only_digits (Py.strip (Py.str (Personal.rr_employee_number r)))
          ≠ EmptyString) →
  let d1 := (Personal.importar d (Some rows)).1 in
  (Personal.importar d1 (Some rows)).1 = d1
  ∧ (rows ≠ [] → (Personal.importar d1 (Some rows)).2 = Personal.Importados 0).
Proof.
  intros Hrows d1. unfold d1, Personal.importar.
  destruct (Py.truthy_list rows) eqn:Hne; cbn [negb fst snd];
    [|by destruct rows].
  set (st0 := {| Personal.tables := d;
                 Personal.existing_ids := Personal.initial_existing_ids d;
                 Personal.imported := 0 |}).
  rewrite foldl_import_all_known; [done|].
  intros r Hr. cbn [Personal.existing_ids].
  destruct (Py.truthy_str
              (Personal.normalize_emp_id (Personal.rr_employee_number r)))
    eqn:Ht; [right|by left].
  apply (existing_ids_stored rows st0); [|done|by apply foldl_import_records].
  intros r' Hr' Ht'.
  destruct (Hrows r' Hr') as [Hnull|Hdigit].
  - by rewrite Hnull in Ht'.
  - apply normalize_emp_id_fixed; [|done].
    intros Hnull. rewrite Hnull in Hdigit. by apply Hdigit.
Qed.

(** X23 on two rows, 123 and 00045: the first import adds two employees,
    the second none. *)
Lemma X23_second_import_adds_nothing_witness :
  let rows :=
    [ Personal.RemoteRow (Py.CStr "123") (Some "Carla") (Some "Vendedor") None;
      Personal.RemoteRow (Py.CInt 45) (Some "Dora") None None ] in
  let d1 := (Personal.importar Examples.tables (Some rows)).1 in
  (Personal.importar Examples.tables (Some rows)).2 = Personal.Importados 2
  ∧ (Personal.importar d1 (Some rows)).1 = d1
  ∧ (Personal.importar d1 (Some rows)).2 = Personal.Importados 0.
Proof.
  intros rows d1. split; [reflexivity|].
  destruct (X23_second_import_adds_nothing Examples.tables rows) as [Hd Hn].
  - intros r Hr. right.
    apply elem_of_cons in Hr as [-> | Hr]; [discriminate|].
    apply elem_of_cons in Hr as [-> | Hr]; [discriminate|].
    by apply elem_of_nil in Hr.
  - split; [exact Hd|]. by apply Hn.
Defined.

Section ImportSteps.
Import Store Personal.

Lemma find_or_create_departamento_frame d nombre :
  let d' := (find_or_create_departamento d nombre).1 in
  ∃ new_d,
    departamentos d' = departamentos d ++ new_d
    ∧ (length new_d ≤ 1)%nat
    ∧ empleados d' = empleados d ∧ puestos d' = puestos d
    ∧ kpis d' = kpis d ∧ puesto_kpis d' = puesto_kpis d
    ∧ kpi_resultados d' = kpi_resultados d.
Proof.
  unfold find_or_create_departamento. destruct nombre as [n|].
  - destruct (head _).
    + exists []. simpl. rewrite app_nil_r. split_and!; try done; lia.
    + eexists [_]. simpl. split_and!; try done; lia.
  - exists []. simpl. rewrite app_nil_r. split_and!; try done; lia.
Qed.

Lemma find_or_create_puesto_frame d nombre dept :
  let d' := (find_or_create_puesto d nombre dept).1 in
  ∃ new_p,
    puestos d' = puestos d ++ new_p
    ∧ (length new_p ≤ 1)%nat
    ∧ empleados d' = empleados d ∧ departamentos d' = departamentos d
    ∧ kpis d' = kpis d ∧ puesto_kpis d' = puesto_kpis d
    ∧ kpi_resultados d' = kpi_resultados d.
Proof.
  unfold find_or_create_puesto. destruct nombre as [n|].
  - destruct (head _).
    + exists []. simpl. rewrite app_nil_r. split_and!; try done; lia.
    + eexists [_]. simpl. split_and!; try done; lia.
  - exists []. simpl. rewrite app_nil_r. split_and!; try done; lia.
Qed.

(** One row with a new, non-empty key: one employee more, at most one
    department and one position more, one more counted. *)
Lemma import_row_step st row :
  Py.truthy_str (normalize_emp_id (rr_employee_number row)) = true →
  normalize_emp_id (rr_employee_number row) ∉ existing_ids st →
  ∃ emp new_d new_p,
    empleados (tables (import_row st row)) = empleados (tables st) ++ [emp]
    ∧ departamentos (tables (import_row st row))
      = departamentos (tables st) ++ new_d
    ∧ puestos (tables (import_row st row)) = puestos (tables st) ++ new_p
    ∧ kpis (tables (import_row st row)) = kpis (tables st)
    ∧ puesto_kpis (tables (import_row st row)) = puesto_kpis (tables st)
    ∧ kpi_resultados (tables (import_row st row)) = kpi_resultados (tables st)
    ∧ e_id_empleado emp = Py.CStr (normalize_emp_id (rr_employee_number row))
    ∧ existing_ids (import_row st row)
      = {[ normalize_emp_id (rr_employee_number row) ]} ∪ existing_ids st
    ∧ imported (import_row st row) = imported st + 1
    ∧ (length new_d ≤ 1)%nat ∧ (length new_p ≤ 1)%nat.
Proof.
  intros Ht Hnot. unfold import_row.
  rewrite Ht, (bool_decide_eq_false_2 _ Hnot). simpl.
  destruct (find_or_create_departamento_frame (tables st)
              (or_none (or_empty_strip (rr_department_name row))))
    as (new_d & Hd & Hld & He1 & Hp1 & Hk1 & Hpk1 & Hr1).
  destruct (find_or_create_departamento _ _) as [d1 dept]. simpl in *.
  destruct (find_or_create_puesto_frame d1
              (or_none (or_empty_strip (rr_puesto row))) dept)
    as (new_p & Hp & Hlp & He2 & Hd2 & Hk2 & Hpk2 & Hr2).
  destruct (find_or_create_puesto _ _ _) as [d2 pid]. simpl in *.
  eexists _, new_d, new_p. simpl.
  rewrite He2, He1, Hd2, Hd, Hp, Hp1, Hk2, Hk1, Hpk2, Hpk1, Hr2, Hr1.
  by split_and!.
Qed.

(** What the loop has done after any number of rows. *)
Lemma foldl_import_appends rows st :
  ∃ new_e new_d new_p,
    empleados (tables (foldl import_row st rows))
    = empleados (tables st) ++ new_e
    ∧ departamentos (tables (foldl import_row st rows))
      = departamentos (tables st) ++ new_d
    ∧ puestos (tables (foldl import_row st rows)) = puestos (tables st) ++ new_p
    ∧ kpis (tables (foldl import_row st rows)) = kpis (tables st)
    ∧ puesto_kpis (tables (foldl import_row st rows)) = puesto_kpis (tables st)
    ∧ kpi_resultados (tables (foldl import_row st rows))
      = kpi_resultados (tables st)
    ∧ imported (foldl import_row st rows)
      = imported st + Z.of_nat (length new_e)
    ∧ (∀ e, e ∈ new_e →
            ∃ r, r ∈ rows
                 ∧ e_id_empleado e
                   = Py.CStr (normalize_emp_id (rr_employee_number r))
                 ∧ Py.truthy_str (normalize_emp_id (rr_employee_number r))
                   = true
                 ∧ normalize_emp_id (rr_employee_number r) ∉ existing_ids st)
    ∧ NoDup (map e_id_empleado new_e)
    ∧ (length new_d ≤ length new_e)%nat
    ∧ (length new_p ≤ length new_e)%nat.
Proof.
  revert st. induction rows as [|r rows IH]; intros st.
  { exists [], [], []. simpl. rewrite !app_nil_r.
    split_and!; try done; [lia|by intros e ?%elem_of_nil|constructor]. }
  simpl.
  destruct (Py.truthy_str (normalize_emp_id (rr_employee_number r))) eqn:Ht;
    [destruct (decide (normalize_emp_id (rr_employee_number r)
                       ∈ existing_ids st)) as [Hin|Hnot]|].
  - rewrite import_row_skip by by right.
    destruct (IH st) as (ne & nd & np & H1 & H2 & H3 & H4 & H5 & H6 & H7 & H8
                         & H9 & H10 & H11).
    exists ne, nd, np. split_and!; try done.
    intros e He. destruct (H8 e He) as (r' & Hr' & Hrest).
    exists r'. split; [by apply list_elem_of_further|done].
  - destruct (import_row_step st r Ht Hnot)
      as (emp & nd1 & np1 & E1 & E2 & E3 & E4 & E5 & E6 & Eid & Eex & Eim
          & Eld & Elp).
    destruct (IH (import_row st r))
      as (ne & nd & np & H1 & H2 & H3 & H4 & H5 & H6 & H7 & H8 & H9 & H10
          & H11).
    exists (emp :: ne), (nd1 ++ nd), (np1 ++ np).
    rewrite H1, H2, H3, H4, H5, H6, H7, E1, E2, E3, E4, E5, E6, Eim.
    rewrite <- !app_assoc. simpl. rewrite !length_app.
    split_and!; try done; try lia.
    + intros e [-> | He]%elem_of_cons.
      * exists r. split; [apply list_elem_of_here|done].
      * destruct (H8 e He) as (r' & Hr' & Hid & Ht' & Hnew).
        exists r'. split; [by apply list_elem_of_further|].
        split; [done|]. split; [done|].
        intros Hin. apply Hnew. rewrite Eex. apply elem_of_union. by right.
    + apply NoDup_cons. split; [|done].
      intros (e & Heq & He)%list_elem_of_fmap.
      destruct (H8 e He) as (r' & _ & Hid & _ & Hnew).
      apply Hnew. rewrite Eex. apply elem_of_union. left.
      apply elem_of_singleton. rewrite Eid, Hid in Heq. by injection Heq.
  - rewrite import_row_skip by by left.
    destruct (IH st) as (ne & nd & np & H1 & H2 & H3 & H4 & H5 & H6 & H7 & H8
                         & H9 & H10 & H11).
    exists ne, nd, np. split_and!; try done.
    intros e He. destruct (H8 e He) as (r' & Hr' & Hrest).
    exists r'. split; [by apply list_elem_of_further|done].
Qed.

End ImportSteps.

(** X24: an import only appends, and its count is true.  Whatever the
    rows, the employees, departments and positions that were stored stay
    as they were, in place, and the other tables are untouched; the
    reported number is the number of employees appended; the appended
    employees carry non-empty, pairwise distinct ids that come from the
    rows and were not known before; and no more departments or positions
    than employees are created. *)
Theorem X24_import_only_appends
    (d : Store.db) (rows : list Personal.remote_row) :
  let d' := (Personal.importar d (Some rows)).1 in
  ∃ new_e new_d new_p,
    Store.empleados d' = Store.empleados d ++ new_e
    ∧ Store.departamentos d' = Store.departamentos d ++ new_d
    ∧ Store.puestos d' = Store.puestos d ++ new_p
    ∧ Store.kpis d' = Store.kpis d
    ∧ Store.puesto_kpis d' = Store.puesto_kpis d
    ∧ Store.kpi_resultados d' = Store.kpi_resultados d
    ∧ (rows ≠ [] →
       (Personal.importar d (Some rows)).2
       = Personal.Importados (Z.of_nat (length new_e)))
    ∧ (∀ e, e ∈ new_e →
            ∃ r, r ∈ rows
                 ∧ Store.e_id_empleado e
                   = Py.CStr (Personal.normalize_emp_id
                                (Personal.rr_employee_number r))
                 ∧ Personal.normalize_emp_id (Personal.rr_employee_number r)
                   ≠ EmptyString
                 ∧ Personal.normalize_emp_id (Personal.rr_employee_number r)
                   ∉ Personal.initial_existing_ids d)
    ∧ NoDup (map Store.e_id_empleado new_e)
    ∧ (length new_d ≤ length new_e)%nat
    ∧ (length new_p ≤ length new_e)%nat.
Proof.
  intros d'. unfold d', Personal.importar.
  destruct (Py.truthy_list rows) eqn:Hne; cbn [negb fst snd].
  - destruct (foldl_import_appends rows
                {| Personal.tables := d;
                   Personal.existing_ids := Personal.initial_existing_ids d;
                   Personal.imported := 0 |})
      as (ne & nd & np & H1 & H2 & H3 & H4 & H5 & H6 & H7 & H8 & H9 & H10
          & H11).
    exists ne, nd, np. split_and!; try done.
    + intros _. by rewrite H7.
    + intros e He. destruct (H8 e He) as (r & Hr & Hid & Ht & Hnew).
      exists r. split_and!; try done. intros Hempty. by rewrite Hempty in Ht.
  - destruct rows; [|done].
    exists [], [], []. rewrite !app_nil_r.
    split_and!; try done; [by intros e ?%elem_of_nil|constructor].
Qed.

Section NoDigitFacts.
Import Store Personal.

Lemma isspace_not_digit ch : Py.isspace ch = true → Py.isdigit ch = false.
Proof.
  intros Hs. destruct (Py.isdigit ch) eqn:E; [|done].
  apply isdigit_not_space in E. congruence.
Qed.

Lemma filter_isdigit_lstrip l :
  List.filter Py.isdigit (Py.lstrip_chars l) = List.filter Py.isdigit l.
Proof.
  induction l as [|ch l IH]; [done|]. simpl.
  destruct (Py.isspace ch) eqn:E; [|done].
  by rewrite (isspace_not_digit ch E).
Qed.

Lemma filter_isdigit_rev l :
  List.filter Py.isdigit (rev l) = rev (List.filter Py.isdigit l).
Proof.
  induction l as [|ch l IH]; [done|]. simpl.
  rewrite List.filter_app, IH. simpl.
  destruct (Py.isdigit ch); simpl; [done|by rewrite app_nil_r].
Qed.

(** Stripping removes no digit. *)
Lemma only_digits_strip s : Py.only_digits (Py.strip s) = Py.only_digits s.
Proof.
  unfold Py.only_digits, Py.strip, Py.strip_chars.
  rewrite String.list_ascii_of_string_of_list_ascii.
  by rewrite filter_isdigit_rev, filter_isdigit_lstrip, filter_isdigit_rev,
    rev_involutive, filter_isdigit_lstrip.
Qed.

(** The characters of a padded short string: those of the string, and
    zeros. *)
Lemma elem_of_zfill_short s c :
  s ≠ EmptyString → (String.length s < 5)%nat →
  c ∈ String.list_ascii_of_string (Py.zfill 5 s)
  ↔ c = "0"%char ∨ c ∈ String.list_ascii_of_string s.
Proof.
  intros Hne Hlen. unfold Py.zfill.
  rewrite (proj2 (Nat.leb_gt 5 (String.length s)) Hlen).
  destruct s as [|ch rest]; [done|].
  assert (5 - String.length (String ch rest) ≠ 0)%nat as Hpos by lia.
  destruct (Ascii.eqb ch "+" || Ascii.eqb ch "-")%char; simpl.
  - rewrite list_ascii_of_string_app,
      String.list_ascii_of_string_of_list_ascii.
    rewrite !elem_of_cons, elem_of_app, elem_of_replicate. simpl in Hpos.
    split.
    + intros [?|[[? _]|?]]; [by right; left|by left|by right; right].
    + intros [?|[?|?]]; [by right; left|by left|by right; right].
  - rewrite list_ascii_of_string_app,
      String.list_ascii_of_string_of_list_ascii.
    rewrite elem_of_app, elem_of_replicate. simpl in Hpos. simpl.
    split.
    + intros [[? _]|?]; [by left|by right].
    + intros [?|?]; [by left|by right].
Qed.

(** A short value without a digit gets a key that normalisation does not
    fix. *)
Lemma normalize_emp_id_not_fixed v :
  v ≠ Py.CNull →
  Py.strip (Py.str v) ≠ EmptyString →
  Py.only_digits (Py.strip (Py.str v)) = EmptyString →
  (String.length (Py.strip (Py.str v)) < 5)%nat →
  Py.truthy_str (normalize_emp_id v) = true
  ∧ normalize_emp_id (Py.CStr (normalize_emp_id v)) ≠ normalize_emp_id v.
Proof.
  intros Hv Hne Hnd Hlen.
  set (s := Py.strip (Py.str v)) in *.
  assert (normalize_emp_id v = Py.zfill 5 s) as ->.
  { destruct v; [done| |]; unfold normalize_emp_id; fold s; by rewrite Hnd. }
  set (key := Py.zfill 5 s).
  assert ("0"%char ∈ String.list_ascii_of_string key) as Hzero.
  { apply elem_of_zfill_short; [done|done|by left]. }
  assert (Py.truthy_str key = true) as Ht.
  { destruct key; [by apply elem_of_nil in Hzero|done]. }
  split; [done|].
  set (dg := Py.only_digits (Py.strip (Py.str (Py.CStr key)))).
  assert (dg ≠ EmptyString) as Hdg.
  { unfold dg. simpl. rewrite only_digits_strip. unfold Py.only_digits.
    assert ("0"%char ∈ List.filter Py.isdigit (String.list_ascii_of_string key))
      as Hin.
    { apply list_elem_of_In, List.filter_In.
      split; [by apply list_elem_of_In|done]. }
    destruct (List.filter _ _); [by apply elem_of_nil in Hin|done]. }
  assert (normalize_emp_id (Py.CStr key) = Py.zfill 5 dg) as ->.
  { unfold normalize_emp_id. fold dg. by destruct dg. }
  assert (Forall (λ ch, Py.isdigit ch = true) (String.list_ascii_of_string dg))
    as Hall.
  { unfold dg, Py.only_digits.
    rewrite String.list_ascii_of_string_of_list_ascii.
    apply Forall_filter_isdigit. }
  destruct (zfill_digits dg Hdg Hall) as [Hk _].
  intros Heq. rewrite Heq in Hk.
  destruct s as [|ch rest] eqn:Es; [done|].
  assert (ch ∈ String.list_ascii_of_string key) as Hch.
  { apply elem_of_zfill_short; [done|done|]. right. apply list_elem_of_here. }
  rewrite Forall_forall in Hk. pose proof (Hk ch Hch) as Hd.
  unfold Py.only_digits in Hnd. simpl in Hnd. rewrite Hd in Hnd. done.
Qed.

End NoDigitFacts.

(** X25: an employee number without a digit is imported again on every
    run.  When the number, stripped, is non-empty, shorter than five
    characters and has no digit, and its key is new, the first import
    stores the employee under the padded key and a second import of the
    same row stores a second employee under the same key, reporting 1
    new employee. *)
Theorem X25_id_without_digits_is_imported_again
    (d : Store.db) (row : Personal.remote_row) :
  let v := Personal.rr_employee_number row in
  let key := Personal.normalize_emp_id v in
  v ≠ Py.CNull →
  Py.strip (Py.str v) ≠ EmptyString →
  Py.only_digits (Py.strip (Py.str v)) = EmptyString →
  (String.length (Py.strip (Py.str v)) < 5)%nat →
  key ∉ Personal.initial_existing_ids d →
  let d1 := (Personal.importar d (Some [row])).1 in
  let d2 := (Personal.importar d1 (Some [row])).1 in
  ∃ e1 e2,
    Store.empleados d1 = Store.empleados d ++ [e1]
    ∧ Store.empleados d2 = Store.empleados d ++ [e1; e2]
    ∧ Store.e_id_empleado e1 = Py.CStr key
    ∧ Store.e_id_empleado e2 = Py.CStr key
    ∧ (Personal.importar d1 (Some [row])).2 = Personal.Importados 1.
Proof.
  intros v key Hv Hne Hnd Hlen Hnew d1 d2.
  destruct (normalize_emp_id_not_fixed v Hv Hne Hnd Hlen) as [Ht Hnf].
  fold key in Ht, Hnf.
  unfold d2, d1, Personal.importar. cbn [Py.truthy_list negb foldl fst snd].
  set (st0 := {| Personal.tables := d;
                 Personal.existing_ids := Personal.initial_existing_ids d;
                 Personal.imported := 0 |}).
  destruct (import_row_step st0 row Ht Hnew)
    as (e1 & nd1 & np1 & E1 & _ & _ & _ & _ & _ & Eid1 & _).
  set (d1' := Personal.tables (Personal.import_row st0 row)) in *.
  set (st1 := {| Personal.tables := d1';
                 Personal.existing_ids := Personal.initial_existing_ids d1';
                 Personal.imported := 0 |}).
  assert (key ∉ Personal.existing_ids st1) as Hnew1.
  { simpl. intros (e & Hin & Hte & Hk)%elem_of_initial_existing_ids.
    rewrite E1 in Hin. apply elem_of_app in Hin as [Hin|Hin].
    - apply Hnew, elem_of_initial_existing_ids. by exists e.
    - apply list_elem_of_singleton in Hin as ->.
      rewrite Eid1 in Hk. by apply Hnf. }
  destruct (import_row_step st1 row Ht Hnew1)
    as (e2 & nd2 & np2 & E2 & _ & _ & _ & _ & _ & Eid2 & _ & Eim & _).
  exists e1, e2. split; [exact E1|]. split.
  { rewrite E2. cbn [Personal.tables st1]. rewrite E1.
    by rewrite <- app_assoc. }
  split; [done|]. split; [done|]. by rewrite Eim.
Qed.

(** X25 on the number ab imported into the sample data: both imports add
    an employee under 000ab. *)
Lemma X25_id_without_digits_is_imported_again_witness :
  let row := Personal.RemoteRow (Py.CStr "ab") (Some "Eva") None None in
  let d1 := (Personal.importar Examples.tables (Some [row])).1 in
  let d2 := (Personal.importar d1 (Some [row])).1 in
  ∃ e1 e2,
    Store.empleados d2 = Store.empleados Examples.tables ++ [e1; e2]
    ∧ Store.e_id_empleado e1 = Py.CStr "000ab"
    ∧ Store.e_id_empleado e2 = Py.CStr "000ab".
Proof.
  intros row d1 d2.
  destruct (X25_id_without_digits_is_imported_again Examples.tables row)
    as (e1 & e2 & _ & H2 & Hid1 & Hid2 & _).
  - discriminate.
  - discriminate.
  - reflexivity.
  - vm_compute. lia.
  - intros Hin. apply elem_of_list_to_set in Hin.
    repeat (apply elem_of_cons in Hin as [Hin|Hin]; [discriminate|]).
    by apply elem_of_nil in Hin.
  - by exists e1, e2.
Defined.

(* ====================================================================== *)
(** * Which positions the chart shows *)
(* ====================================================================== *)

Section DrawnFacts.
Import Store Organigrama Facts.

Lemma boss_of_present ps k j :
  boss_of ps k j ↔
  ∃ p, p ∈ ps ∧ p_id p = k ∧ present (make_nodes ps) (p_jefe_puesto_id p) = Some j.
Proof.
  unfold boss_of. split.
  - intros (p & Hp & Hk & Hj & Hj0 & Hin). exists p. split; [done|].
    split; [done|]. apply present_Some. split; [done|]. split; [done|].
    by apply make_nodes_is_Some.
  - intros (p & Hp & Hk & (Hj & Hj0 & Hs)%present_Some). exists p.
    split_and!; try done. by apply make_nodes_is_Some.
Qed.

(** A position is shown exactly when its chain of bosses ends at a root. *)
Lemma drawn_iff ps es nodes forest :
  organigrama_data ps es = Some (nodes, forest) →
  ∀ k, drawn nodes forest k ↔ ∃ r, r ∈ forest ∧ rtc (boss_of ps) k r.
Proof.
  intros Hrun.
  destruct (organigrama_data_closed ps es) as (nodes' & Hrun' & Hdom & Hch).
  rewrite Hrun in Hrun'. injection Hrun' as <- ->.
  intros k. split.
  - induction 1 as [k Hk|j n k Hj IH Hn Hin].
    + exists k. split; [done|apply rtc_refl].
    + destruct IH as (r & Hr & Hjr). exists r. split; [done|].
      apply (rtc_l _ _ j); [|done].
      apply boss_of_present. rewrite (Hch j n Hn) in Hin.
      apply elem_of_app in Hin as [Hin|Hin].
      * apply elem_of_leaves_under in Hin as (e & _ & Heq & _). discriminate.
      * apply elem_of_refs_under in Hin as (p & Hp & Heq & Hpres).
        injection Heq as ->. by exists p.
  - intros (r & Hr & Hkr). induction Hkr as [r|k j r Hkj Hjr IH].
    + by apply drawn_root.
    + apply boss_of_present in Hkj as (p & Hp & <- & Hpres).
      pose proof Hpres as (_ & _ & Hs)%present_Some.
      apply make_nodes_is_Some in Hs. destruct (proj2 (Hdom j) Hs) as [n Hn].
      apply (drawn_child _ _ j n); [by apply IH|done|].
      rewrite (Hch j n Hn). apply elem_of_app. right.
      apply elem_of_refs_under. by exists p.
Qed.

(** With distinct ids a position has at most one boss, and a root none. *)
Lemma boss_of_functional ps k j1 j2 :
  NoDup (map p_id ps) → boss_of ps k j1 → boss_of ps k j2 → j1 = j2.
Proof.
  intros Hnd (p1 & Hp1 & Hk1 & Hj1 & _) (p2 & Hp2 & Hk2 & Hj2 & _).
  assert (p1 = p2) as ->.
  { apply (NoDup_map_inj p_id ps); [done..|]. by rewrite Hk1, Hk2. }
  rewrite Hj1 in Hj2. by injection Hj2.
Qed.

Lemma root_has_no_boss ps r j :
  NoDup (map p_id ps) → r ∈ roots (make_nodes ps) ps → ¬ boss_of ps r j.
Proof.
  intros Hnd Hr (p & Hp & Hk & Hpres)%boss_of_present.
  unfold roots in Hr. apply list_elem_of_fmap in Hr as (p' & Heq & Hin).
  apply list_elem_of_In, List.filter_In in Hin as [Hin Hnone].
  apply bool_decide_eq_true in Hnone. apply list_elem_of_In in Hin.
  assert (p = p') as <-.
  { apply (NoDup_map_inj p_id ps); [done..|]. by rewrite Hk. }
  by rewrite Hpres in Hnone.
Qed.

(** A chain of bosses that ends at a root does not start on a loop. *)
Lemma chain_to_root_no_loop ps k r :
  NoDup (map p_id ps) → r ∈ roots (make_nodes ps) ps →
  rtc (boss_of ps) k r → ¬ tc (boss_of ps) k k.
Proof.
  intros Hnd Hr Hkr. induction Hkr as [r|k j r Hkj Hjr IH].
  - intros Hloop.
    inversion Hloop as [x y Hxy|x y z Hxy _]; subst;
      by eapply (root_has_no_boss ps r).
  - intros Hloop. apply (IH Hr).
    inversion Hloop as [x y Hxy|x y z Hxy Hyz]; subst.
    + rewrite (boss_of_functional ps k j k Hnd Hkj Hxy). by apply tc_once.
    + rewrite (boss_of_functional ps k j y Hnd Hkj Hxy).
      eapply tc_r; [exact Hyz|exact Hxy].
Qed.

(** Positions on a loop of bosses are not shown. *)
Lemma loop_not_drawn ps es nodes forest k :
  NoDup (map p_id ps) →
  organigrama_data ps es = Some (nodes, forest) →
  tc (boss_of ps) k k → ¬ drawn nodes forest k.
Proof.
  intros Hnd Hrun Hloop Hdrawn.
  apply (drawn_iff ps es nodes forest Hrun) in Hdrawn as (r & Hr & Hkr).
  destruct (organigrama_data_closed ps es) as (nodes' & Hrun' & _).
  rewrite Hrun in Hrun'. injection Hrun' as _ ->.
  by apply (chain_to_root_no_loop ps k _ Hnd Hr Hkr).
Qed.

End DrawnFacts.

(** X26: which positions the chart shows.  The response of
    [organigrama_data] contains a position exactly when following boss ids
    from it, each one non-zero and the id of a position, ends at a root. *)
Theorem X26_drawn_iff_bosses_end_at_a_root
    (puestos : list Store.puesto) (empleados : list Store.empleado) :
  ∃ nodes forest,
    Organigrama.organigrama_data puestos empleados = Some (nodes, forest)
    ∧ ∀ k, Facts.drawn nodes forest k
           ↔ ∃ r, r ∈ forest ∧ rtc (Facts.boss_of puestos) k r.
Proof.
  destruct (organigrama_data_closed puestos empleados)
    as (nodes & Hrun & _).
  exists nodes, (Organigrama.roots (Organigrama.make_nodes puestos) puestos).
  split; [exact Hrun|]. by apply (drawn_iff puestos empleados).
Qed.

(** X27: positions on a loop are missing from the chart.  When the
    position ids are distinct and following boss ids from a position
    leads back to it, the position has a node but the response does not
    contain it. *)
Theorem X27_positions_on_a_loop_are_not_drawn
    (puestos : list Store.puesto) (empleados : list Store.empleado) (k : Z) :
  NoDup (map Store.p_id puestos) →
  tc (Facts.boss_of puestos) k k →
  ∃ nodes forest,
    Organigrama.organigrama_data puestos empleados = Some (nodes, forest)
    ∧ is_Some (nodes !! k)
    ∧ ¬ Facts.drawn nodes forest k.
Proof.
  intros Hnd Hloop.
  destruct (organigrama_data_closed puestos empleados)
    as (nodes & Hrun & Hdom & _).
  exists nodes, (Organigrama.roots (Organigrama.make_nodes puestos) puestos).
  split; [exact Hrun|]. split.
  - apply Hdom.
    inversion Hloop as [x y (p & Hp & Hk & _)|x y z (p & Hp & Hk & _) _]; subst;
      by apply list_elem_of_fmap_2.
  - by apply (loop_not_drawn puestos empleados).
Qed.

(** X27 on positions 1 and 2 that name each other as boss, beside a
    position 3 without boss: only position 3 is a root, and position 1 is
    not shown. *)
Lemma X27_positions_on_a_loop_are_not_drawn_witness :
  let puestos :=
    [ Store.Puesto 1 "Compras" None (Some 2);
      Store.Puesto 2 "Ventas" None (Some 1);
      Store.Puesto 3 "Direccion" None None ] in
  ∃ nodes,
    Organigrama.organigrama_data puestos [] = Some (nodes, [3])
    ∧ ¬ Facts.drawn nodes [3] 1.
Proof.
  intros puestos.
  destruct (X27_positions_on_a_loop_are_not_drawn puestos [] 1)
    as (nodes & forest & Hrun & _ & Hnot).
  - refine (bool_decide_unpack _ _). vm_compute. exact I.
  - apply (tc_l _ _ 2); [|apply tc_once].
    + exists (Store.Puesto 1 "Compras" None (Some 2)).
      split_and!; [apply list_elem_of_here|done|done|done|].
      apply list_elem_of_further, list_elem_of_here.
    + exists (Store.Puesto 2 "Ventas" None (Some 1)).
      split_and!; [apply list_elem_of_further, list_elem_of_here
                  |done|done|done|apply list_elem_of_here].
  - exists nodes. pose proof Hrun as Hrun'. vm_compute in Hrun'.
    injection Hrun' as _ <-. by split.
Defined.

(** X28: the edit form accepts a position as its own boss, and the chart
    then drops it.  When the position ids are distinct and [k], not 0, is
    one of them, [edit_puesto] with [k] as both the position and its boss
    succeeds, and [organigrama_data] on the new tables does not show
    position [k]. *)
Theorem X28_own_boss_is_accepted_and_not_drawn
    (d : Store.db) (k : Z) (nombre : option string) (departamento_id : option Z) :
  k ≠ 0 → Py.truthy_opt_str nombre = true →
  NoDup (map Store.p_id (Store.puestos d)) →
  k ∈ map Store.p_id (Store.puestos d) →
  let d' := (Puestos.edit_puesto d (Some k) nombre departamento_id (Some k)).1 in
  (Puestos.edit_puesto d (Some k) nombre departamento_id (Some k)).2
  = Puestos.PuestoActualizado
  ∧ ∃ nodes forest,
      Organigrama.organigrama_data (Store.puestos d') (Store.empleados d')
      = Some (nodes, forest)
      ∧ is_Some (nodes !! k)
      ∧ ¬ Facts.drawn nodes forest k.
Proof.
  intros Hk Hnombre Hnd Hin d'. unfold d', Puestos.edit_puesto.
  rewrite Hnombre. cbn [negb fst snd Personal.set_puestos Store.puestos
                        Store.empleados].
  split; [done|].
  set (ps' := map _ (Store.puestos d)).
  assert (map Store.p_id ps' = map Store.p_id (Store.puestos d)) as Hids.
  { unfold ps'. rewrite map_map. apply map_ext. intros p.
    by destruct (MisKpis.sql_eq _ _). }
  destruct (organigrama_data_closed ps' (Store.empleados d))
    as (nodes & Hrun & Hdom & _).
  exists nodes, (Organigrama.roots (Organigrama.make_nodes ps') ps').
  split; [exact Hrun|]. split; [apply Hdom; by rewrite Hids|].
  apply (loop_not_drawn ps' (Store.empleados d)); [by rewrite Hids|done|].
  apply tc_once.
  apply list_elem_of_fmap in Hin as (p & Hpk & Hp).
  eexists. split; [unfold ps'; apply list_elem_of_fmap; by exists p|].
  simpl. rewrite <- Hpk, Z.eqb_refl. simpl.
  split_and!; try done. rewrite Hids, Hpk.
  by apply list_elem_of_fmap_2.
Qed.

(** X28 on two positions: position 2 is edited to report to itself and is
    then missing from the chart. *)
Lemma X28_own_boss_is_accepted_and_not_drawn_witness :
  let d :=
    Store.Db [] [ Store.Puesto 1 "Gerente" None None;
                  Store.Puesto 2 "Vendedor" None (Some 1) ] [] [] [] [] in
  let d' := (Puestos.edit_puesto d (Some 2) (Some "Vendedor") None (Some 2)).1 in
  Store.puestos d' = [ Store.Puesto 1 "Gerente" None None;
                       Store.Puesto 2 "Vendedor" None (Some 2) ]
  ∧ ∃ nodes forest,
      Organigrama.organigrama_data (Store.puestos d') (Store.empleados d')
      = Some (nodes, forest)
      ∧ ¬ Facts.drawn nodes forest 2.
Proof.
  intros d d'. split; [reflexivity|].
  destruct (X28_own_boss_is_accepted_and_not_drawn d 2 (Some "Vendedor") None)
    as (_ & nodes & forest & Hrun & _ & Hnot).
  - discriminate.
  - reflexivity.
  - refine (bool_decide_unpack _ _). vm_compute. exact I.
  - apply list_elem_of_further, list_elem_of_here.
  - by exists nodes, forest.
Defined.

(* ====================================================================== *)
(** * Logging in *)
(* ====================================================================== *)

Section LoginFacts.

(** [fetchone] after a [WHERE]: the first row, in storage order, that
    passes the test. *)
Lemma head_filter_first {A} (f : A → bool) (l : list A) x :
  head (List.filter f l) = Some x ↔
  ∃ i, l !! i = Some x ∧ f x = true
       ∧ ∀ j y, (j < i)%nat → l !! j = Some y → f y = false.
Proof.
  induction l as [|a l IH]; simpl.
  - split; [done|]. by intros (i & Hi & _).
  - destruct (f a) eqn:E; simpl.
    + split.
      * intros [= <-]. exists 0%nat. split; [done|]. split; [done|]. lia.
      * intros (i & Hi & Hx & Hfirst). destruct i as [|i]; [done|].
        rewrite (Hfirst 0%nat a) in E; [done|lia|done].
    + rewrite IH. split.
      * intros (i & Hi & Hx & Hfirst). exists (S i). split; [done|].
        split; [done|]. intros [|j] y Hj Hy; [by injection Hy as <-|].
        apply (Hfirst j); [lia|done].
      * intros (i & Hi & Hx & Hfirst). destruct i as [|i].
        { injection Hi as ->. congruence. }
        exists i. split; [done|]. split; [done|]. intros j y Hj Hy.
        apply (Hfirst (S j)); [lia|done].
Qed.

End LoginFacts.

(** X29: who gets in.  A POST to [login] redirects to the KPI page exactly
    when both fields are non-empty and the first stored row whose username
    matches carries exactly the submitted password; the session then holds
    that row's id, employee id and role.  In every other case the session
    is left as it was. *)
Theorem X29_login_checks_the_first_matching_row
    (username_eq : string → string → bool) (usuarios : list Auth.usuario)
    (s : Auth.session) (username password : option string) :
  let r := Auth.login username_eq usuarios s (Auth.POST username password) in
  (r.2 = Auth.RedirectMisKpis ↔
   ∃ u p i row,
     username = Some u ∧ password = Some p
     ∧ u ≠ EmptyString ∧ p ≠ EmptyString
     ∧ usuarios !! i = Some row
     ∧ username_eq (Auth.u_username row) u = true
     ∧ (∀ j row', (j < i)%nat → usuarios !! j = Some row' →
                  username_eq (Auth.u_username row') u = false)
     ∧ Auth.u_password row = Some p
     ∧ r.1 = {| Auth.user_id := Some (Auth.u_id row);
                Auth.empleado_id := Auth.u_empleado_id row;
                Auth.rol := Auth.u_rol row |})
  ∧ (r.2 ≠ Auth.RedirectMisKpis → r.1 = s).
Proof.
  intros r. unfold r, Auth.login.
  destruct username as [u|]; simpl;
    [|split; [split; [done|by intros (? & ? & ? & ? & ? & _)]|done]].
  destruct u as [|c u]; simpl;
    [split; [split; [done|]|done];
     by intros (? & ? & ? & ? & [= <-] & _ & ? & _)|].
  destruct password as [p|]; simpl;
    [|split; [split; [done|by intros (? & ? & ? & ? & _ & ? & _)]|done]].
  destruct p as [|c' p]; simpl;
    [split; [split; [done|]|done];
     by intros (? & ? & ? & ? & _ & [= <-] & _ & ? & _)|].
  destruct (head _) as [row|] eqn:Ehead.
  - pose proof (proj1 (head_filter_first _ _ _) Ehead) as (i & Hi & Hm & Hfirst).
    case_bool_decide as Hpw; simpl.
    + split; [|done]. split; [|done]. intros _.
      exists (String c u), (String c' p), i, row. by split_and!.
    + split; [|done]. split; [done|].
      intros (u0 & p0 & i0 & row0 & [= <-] & [= <-] & _ & _ & Hi0 & Hm0
              & Hfirst0 & Hpw0 & _).
      assert (head (List.filter
                      (λ x, username_eq (Auth.u_username x) (String c u))
                      usuarios) = Some row0) as Ehead0.
      { apply head_filter_first. by exists i0. }
      rewrite Ehead in Ehead0. injection Ehead0 as ->. by rewrite Hpw0 in Hpw.
  - split; [|done]. split; [done|].
    intros (u0 & p0 & i0 & row0 & [= <-] & [= <-] & _ & _ & Hi0 & Hm0
            & Hfirst0 & _).
    assert (head (List.filter
                    (λ x, username_eq (Auth.u_username x) (String c u))
                    usuarios) = Some row0) as Ehead0.
    { apply head_filter_first. by exists i0. }
    by rewrite Ehead in Ehead0.
Qed.
